(** * qlib.backtest.report: Report and Indicator

    A shallow embedding of [qlib/backtest/report.py].  The Python code works
    on pandas objects holding numpy float64 numbers, with [np.NaN] as the
    "no value" sentinel.  The embedding is written once, over an interface
    [Num] of the arithmetic the code uses, and is read at two instances:

    - [float]: IEEE-754 binary64, the numbers the program really computes
      with (Rocq's primitive floats).  Concrete runs are evaluated here.
    - [exact]: rationals with a missing value, the arithmetic in which the
      algebraic identities hold exactly ("to floating-point tolerance" in
      the documentation of the program).

    pandas is a third-party library: a [Series] is a finite map from its
    index to numbers, binary operators align both operands on the union of
    their indexes and give NaN where one side has no entry, and the
    reductions [sum], [mean] and [count] skip NaN. *)

From Stdlib Require Import ZArith QArith Qcanon Floats Lia Ascii String Sorted.
From stdpp Require Import base option gmap strings list fin_maps.

Set Warnings "-inexact-float".
Close Scope Q_scope.
Close Scope Qc_scope.
Open Scope Z_scope.

(** ** Numbers *)

Class Num (F : Type) := {
  NaN : F;                      (* np.NaN *)
  of_Z : Z → F;                 (* integer literals and counts *)
  eps : F;                      (* the literal 1e-08 *)
  nadd : F → F → F;
  nsub : F → F → F;
  nmul : F → F → F;
  ndiv : F → F → F;
  nabs : F → F;
  isnan : F → bool;             (* np.isnan *)
  neqb : F → F → bool;          (* ==, false on NaN *)
  nltb : F → F → bool;          (* <, false on NaN *)
}.

Declare Scope num_scope.
Delimit Scope num_scope with num.
Infix "+" := nadd : num_scope.
Infix "-" := nsub : num_scope.
Infix "*" := nmul : num_scope.
Infix "/" := ndiv : num_scope.

(** binary64 *)
Definition float_of_Z (z : Z) : float :=
  if z <? 0 then PrimFloat.opp (PrimFloat.of_uint63 (Uint63.of_Z (- z)))
  else PrimFloat.of_uint63 (Uint63.of_Z z).

#[global] Instance binary64 : Num float := {|
  NaN := PrimFloat.nan;
  of_Z := float_of_Z;
  eps := 1e-08%float;
  nadd := PrimFloat.add;
  nsub := PrimFloat.sub;
  nmul := PrimFloat.mul;
  ndiv := PrimFloat.div;
  nabs := PrimFloat.abs;
  isnan := PrimFloat.is_nan;
  neqb := PrimFloat.eqb;
  nltb := PrimFloat.ltb;
|}.

(** Exact arithmetic: a rational or the missing value.  There are no
    infinities, a division by zero is missing. *)
Inductive exact : Type :=
  | XNaN
  | XVal (q : Qc).

Definition exact_lift2 (f : Qc → Qc → Qc) (x y : exact) : exact :=
  match x, y with
  | XVal a, XVal b => XVal (f a b)
  | _, _ => XNaN
  end.

Definition exact_div (x y : exact) : exact :=
  match x, y with
  | XVal a, XVal b => if Qc_eq_bool b (Q2Qc 0) then XNaN else XVal (Qcdiv a b)
  | _, _ => XNaN
  end.

Definition Qc_abs (q : Qc) : Qc :=
  match Qccompare q (Q2Qc 0) with
  | Lt => Qcopp q
  | _ => q
  end.

Definition exact_abs (x : exact) : exact :=
  match x with
  | XVal a => XVal (Qc_abs a)
  | XNaN => XNaN
  end.

Definition exact_isnan (x : exact) : bool :=
  match x with
  | XNaN => true
  | XVal _ => false
  end.

Definition exact_eqb (x y : exact) : bool :=
  match x, y with
  | XVal a, XVal b => Qc_eq_bool a b
  | _, _ => false
  end.

Definition exact_ltb (x y : exact) : bool :=
  match x, y with
  | XVal a, XVal b => match Qccompare a b with Lt => true | _ => false end
  | _, _ => false
  end.

#[global] Instance exact_num : Num exact := {|
  NaN := XNaN;
  of_Z := λ z, XVal (Q2Qc (inject_Z z));
  eps := XVal (Q2Qc (1 # 100000000));
  nadd := exact_lift2 Qcplus;
  nsub := exact_lift2 Qcminus;
  nmul := exact_lift2 Qcmult;
  ndiv := exact_div;
  nabs := exact_abs;
  isnan := exact_isnan;
  neqb := exact_eqb;
  nltb := exact_ltb;
|}.

(** ** Exceptions and the state of an object *)

Inductive error : Type :=
  | ValueError (msg : string)
  | TypeError (msg : string)
  | NotImplementedError (msg : string)
  | KeyError (key : string)
  | AttributeError (msg : string).

Inductive Res (A : Type) : Type :=
  | Ok (a : A)
  | Raise (e : error).
Arguments Ok {A} a.
Arguments Raise {A} e.

#[global] Instance Res_ret : MRet Res := λ A a, Ok a.
#[global] Instance Res_bind : MBind Res := λ A B f m,
  match m with
  | Ok a => f a
  | Raise e => Raise e
  end.

(** A method of an object with attributes [S]: it runs on the attributes,
    returns or raises, and leaves the attributes as they are at that point. *)
Definition M (S A : Type) : Type := S → Res A * S.

#[global] Instance M_ret {S} : MRet (M S) := λ A a s, (Ok a, s).
#[global] Instance M_bind {S} : MBind (M S) := λ A B f m s,
  match m s with
  | (Ok a, s') => f a s'
  | (Raise e, s') => (Raise e, s')
  end.

Definition get {S} : M S S := λ s, (Ok s, s).
Definition gets {S A} (f : S → A) : M S A := λ s, (Ok (f s), s).
Definition modify {S} (f : S → S) : M S unit := λ s, (Ok tt, f s).
Definition raise {S A} (e : error) : M S A := λ s, (Raise e, s).
Definition lift {S A} (r : Res A) : M S A := λ s, (r, s).

(** pd.Timestamp *)
Abbreviation Time := Z.

(** ** collections.OrderedDict *)

Module OrderedDict.
Section odict.
Context {K V : Type} `{EqDecision K}.

(* d[k] = v : an existing key keeps its place, a new key goes last *)
Fixpoint set (k : K) (v : V) (d : list (K * V)) : list (K * V) :=
  match d with
  | [] => [(k, v)]
  | (k', v') :: d' =>
      if decide (k' = k) then (k, v) :: d' else (k', v') :: set k v d'
  end.

Fixpoint lookup (k : K) (d : list (K * V)) : option V :=
  match d with
  | [] => None
  | (k', v') :: d' => if decide (k' = k) then Some v' else lookup k d'
  end.

Definition keys (d : list (K * V)) : list K := d.*1.
End odict.
End OrderedDict.

(** ** class Report *)

Module Report.
Section report.
Context {F : Type} `{Num F}.

Record t : Type := mk {
  accounts : list (Time * F);
  returns : list (Time * F);
  total_turnovers : list (Time * F);
  turnovers : list (Time * F);
  total_costs : list (Time * F);
  costs : list (Time * F);
  values : list (Time * F);
  cashes : list (Time * F);
  benches : list (Time * option F);
  latest_report_time : option Time;
  bench : option (list (Time * F));
}.

(* qlib.utils.resam.resam_ts_data is not part of this module: the slice of
   the series between the two times, reduced by [method], or None. *)
Variable resam_ts_data :
  list (Time * F) → Time → Time → (list F → F) → option F.

Definition init_vars (self : t) : t :=
  {| accounts := []; returns := []; total_turnovers := []; turnovers := [];
     total_costs := []; costs := []; values := []; cashes := [];
     benches := []; latest_report_time := None; bench := bench self |}.

Definition cal_change (x : list F) : F :=
  foldl (λ acc v, acc * (v + of_Z 1))%num (of_Z 1) x.

Definition _sample_benchmark (trade_start_time trade_end_time : Time)
    : M t (option F) :=
  self ← get;
  match bench self with
  | None => mret None
  | Some b =>
      match resam_ts_data b trade_start_time trade_end_time cal_change with
      | None => mret (Some (of_Z 0))
      | Some _ret => mret (Some (_ret - of_Z 1)%num)
      end
  end.

Definition is_empty (self : t) : bool := bool_decide (length (accounts self) = 0%nat).
Definition get_latest_date (self : t) : option Time := latest_report_time self.

(* the keyword arguments, each None by default *)
Record record_args : Type := mk_args {
  trade_start_time : option Time;
  trade_end_time : option Time;
  account_value : option F;
  cash : option F;
  return_rate : option F;
  total_turnover : option F;
  turnover_rate : option F;
  total_cost : option F;
  cost_rate : option F;
  stock_value : option F;
  bench_value : option F;
}.

Definition set_accounts k v : M t unit := modify (λ s,
  mk (OrderedDict.set k v (accounts s)) (returns s) (total_turnovers s) (turnovers s)
     (total_costs s) (costs s) (values s) (cashes s) (benches s)
     (latest_report_time s) (bench s)).
Definition set_returns k v : M t unit := modify (λ s,
  mk (accounts s) (OrderedDict.set k v (returns s)) (total_turnovers s) (turnovers s)
     (total_costs s) (costs s) (values s) (cashes s) (benches s)
     (latest_report_time s) (bench s)).
Definition set_total_turnovers k v : M t unit := modify (λ s,
  mk (accounts s) (returns s) (OrderedDict.set k v (total_turnovers s)) (turnovers s)
     (total_costs s) (costs s) (values s) (cashes s) (benches s)
     (latest_report_time s) (bench s)).
Definition set_turnovers k v : M t unit := modify (λ s,
  mk (accounts s) (returns s) (total_turnovers s) (OrderedDict.set k v (turnovers s))
     (total_costs s) (costs s) (values s) (cashes s) (benches s)
     (latest_report_time s) (bench s)).
Definition set_total_costs k v : M t unit := modify (λ s,
  mk (accounts s) (returns s) (total_turnovers s) (turnovers s)
     (OrderedDict.set k v (total_costs s)) (costs s) (values s) (cashes s) (benches s)
     (latest_report_time s) (bench s)).
Definition set_costs k v : M t unit := modify (λ s,
  mk (accounts s) (returns s) (total_turnovers s) (turnovers s)
     (total_costs s) (OrderedDict.set k v (costs s)) (values s) (cashes s) (benches s)
     (latest_report_time s) (bench s)).
Definition set_values k v : M t unit := modify (λ s,
  mk (accounts s) (returns s) (total_turnovers s) (turnovers s)
     (total_costs s) (costs s) (OrderedDict.set k v (values s)) (cashes s) (benches s)
     (latest_report_time s) (bench s)).
Definition set_cashes k v : M t unit := modify (λ s,
  mk (accounts s) (returns s) (total_turnovers s) (turnovers s)
     (total_costs s) (costs s) (values s) (OrderedDict.set k v (cashes s)) (benches s)
     (latest_report_time s) (bench s)).
Definition set_benches k v : M t unit := modify (λ s,
  mk (accounts s) (returns s) (total_turnovers s) (turnovers s)
     (total_costs s) (costs s) (values s) (cashes s) (OrderedDict.set k v (benches s))
     (latest_report_time s) (bench s)).
Definition set_latest_report_time k : M t unit := modify (λ s,
  mk (accounts s) (returns s) (total_turnovers s) (turnovers s)
     (total_costs s) (costs s) (values s) (cashes s) (benches s)
     (Some k) (bench s)).

Definition update_report_record (a : record_args) : M t unit :=
  (* check data *)
  match trade_start_time a, account_value a, cash a, return_rate a,
        total_turnover a, turnover_rate a, total_cost a, cost_rate a,
        stock_value a with
  | Some trade_start_time, Some account_value, Some cash, Some return_rate,
    Some total_turnover, Some turnover_rate, Some total_cost, Some cost_rate,
    Some stock_value =>
      bench_value ←
        match trade_end_time a, bench_value a with
        | None, None =>
            raise (ValueError
              "Both trade_end_time and bench_value is None, benchmark is not usable.")
        | Some trade_end_time, None =>
            _sample_benchmark trade_start_time trade_end_time
        | _, Some b => mret (Some b)
        end;
      (* update report data *)
      set_accounts trade_start_time account_value;;
      set_returns trade_start_time return_rate;;
      set_total_turnovers trade_start_time total_turnover;;
      set_turnovers trade_start_time turnover_rate;;
      set_total_costs trade_start_time total_cost;;
      set_costs trade_start_time cost_rate;;
      set_values trade_start_time stock_value;;
      set_cashes trade_start_time cash;;
      set_benches trade_start_time bench_value;;
      (* update latest_report_date *)
      set_latest_report_time trade_start_time
  | _, _, _, _, _, _, _, _, _ =>
      raise (ValueError
        "None in [trade_start_time, account_value, cash, return_rate, total_turnover, turnover_rate, total_cost, cost_rate, stock_value]")
  end.
(* self.accounts[self.latest_report_time] and its like: a KeyError when the
   mapping has no such key (None on a Report without record) *)
Definition latest_of {V : Type} (d : list (Time * V)) (self : t) : Res V :=
  match latest_report_time self with
  | None => Raise (KeyError "None")
  | Some k =>
      match OrderedDict.lookup k d with
      | Some v => Ok v
      | None => Raise (KeyError "latest_report_time")
      end
  end.

Definition get_latest_account_value (self : t) : Res F :=
  latest_of (accounts self) self.

Definition get_latest_total_cost (self : t) : Res F :=
  latest_of (total_costs self) self.

Definition get_latest_total_turnover (self : t) : Res F :=
  latest_of (total_turnovers self) self.

(* the histories under the names of their columns; an entry is a number or
   None (a bench that was not sampled) *)
Definition series_of (d : list (Time * F)) : list (Time * option F) :=
  (λ kv, (kv.1, Some kv.2)) <$> d.

Definition report_columns (self : t) : list (string * list (Time * option F)) :=
  [("account", series_of (accounts self));
   ("return", series_of (returns self));
   ("total_turnover", series_of (total_turnovers self));
   ("turnover", series_of (turnovers self));
   ("total_cost", series_of (total_costs self));
   ("cost", series_of (costs self));
   ("value", series_of (values self));
   ("cash", series_of (cashes self));
   ("bench", benches self)].

(* pd.Series(self.benches): a history whose values are all None is a Series
   of objects and keeps them; as soon as one value is a number the Series
   is a float one, in which None is NaN *)
Definition all_none (d : list (Time * option F)) : bool :=
  forallb (λ kv, match kv.2 with None => true | Some _ => false end) d.

Definition bench_series (d : list (Time * option F)) : list (Time * option F) :=
  if all_none d then d
  else (λ kv, (kv.1, Some (default NaN kv.2))) <$> d.

(* the columns of the frame: the histories as pandas Series *)
Definition frame_columns (self : t) : list (string * list (Time * option F)) :=
  [("account", series_of (accounts self));
   ("return", series_of (returns self));
   ("total_turnover", series_of (total_turnovers self));
   ("turnover", series_of (turnovers self));
   ("total_cost", series_of (total_costs self));
   ("cost", series_of (costs self));
   ("value", series_of (values self));
   ("cash", series_of (cashes self));
   ("bench", bench_series (benches self))].

(* report[name] = series, column after column on an empty DataFrame: pandas
   takes the index of the first series that is not empty as the index of
   the frame and aligns every column on it, NaN where a series has no entry *)
Definition frame_index (cols : list (string * list (Time * option F)))
    : list Time :=
  match filter (λ c, c.2 ≠ []) cols with
  | [] => []
  | c :: _ => c.2.*1
  end.

(* the frame, row by row: the label of the row and its cells by column *)
Definition generate_report_dataframe (self : t)
    : list (Time * list (string * option F)) :=
  let cols := frame_columns self in
  (λ k, (k, (λ c, (c.1, default (Some NaN) (OrderedDict.lookup k c.2))) <$> cols))
    <$> frame_index cols.

(* r.loc[trade_start_time][col] on a row of the frame *)
Definition getcol (row : list (string * option F)) (col : string)
    : Res (option F) :=
  match OrderedDict.lookup col row with
  | Some c => Ok c
  | None => Raise (KeyError col)
  end.

(* load_report after pd.read_csv: [r] is the frame read from the file, row
   by row.  A label that the index has twice selects several rows, whose
   cells are Series: the check of update_report_record cannot compare them
   with None and raises ValueError. *)
Definition load_report (r : list (Time * list (string * option F)))
    : M t unit :=
  modify init_vars;;
  mapM (λ trade_start_time,
          match filter (λ x, x.1 = trade_start_time) r with
          | [] => raise (KeyError "trade_start_time")
          | x :: rest =>
              account ← lift (getcol x.2 "account");
              cash ← lift (getcol x.2 "cash");
              ret ← lift (getcol x.2 "return");
              total_turnover ← lift (getcol x.2 "total_turnover");
              turnover ← lift (getcol x.2 "turnover");
              total_cost ← lift (getcol x.2 "total_cost");
              cost ← lift (getcol x.2 "cost");
              value ← lift (getcol x.2 "value");
              bench ← lift (getcol x.2 "bench");
              match rest with
              | [] =>
                  update_report_record
                    (mk_args (Some trade_start_time) None account cash ret
                       total_turnover turnover total_cost cost value bench)
              | _ =>
                  raise (ValueError "The truth value of a Series is ambiguous.")
              end
          end) r.*1;;
  mret tt.
End report.
Arguments t : clear implicits.
Arguments record_args : clear implicits.
End Report.

(** ** pandas.Series

    A Series is the finite map from its index to its values.  Summation
    visits the entries in the order of the map; in exact arithmetic the
    order is immaterial. *)

Module Series.
Section series.
Context {F : Type} `{Num F} {K : Type} `{Countable K}.

(* a op b: both sides aligned on the union of the indexes *)
Definition binop (f : F → F → F) (a b : gmap K F) : gmap K F :=
  merge (λ x y, match x, y with
                | None, None => None
                | _, _ => Some (f (default NaN x) (default NaN y))
                end) a b.

Definition add : gmap K F → gmap K F → gmap K F := binop nadd.
Definition mul : gmap K F → gmap K F → gmap K F := binop nmul.
Definition div : gmap K F → gmap K F → gmap K F := binop ndiv.

(* s.apply(f), and s op scalar *)
Definition apply (f : F → F) (s : gmap K F) : gmap K F := f <$> s.

(* s.replace({np.NaN: v}) *)
Definition replace_nan (v : F) (s : gmap K F) : gmap K F :=
  (λ x, if isnan x then v else x) <$> s.

(* s.replace({c: v}) for a number c *)
Definition replace (c v : F) (s : gmap K F) : gmap K F :=
  (λ x, if neqb x c then v else x) <$> s.

Definition abs (s : gmap K F) : gmap K F := nabs <$> s.

(* s[~(s < c)] *)
Definition drop_lt (c : F) (s : gmap K F) : gmap K F :=
  filter (λ kv, nltb kv.2 c = false) s.

(* s.reindex(index) *)
Definition reindex {A} (s : gmap K F) (index : gmap K A) : gmap K F :=
  map_imap (λ k _, Some (default NaN (s !! k))) index.

(* pd.Series(c, index=index) *)
Definition const {A} (c : F) (index : gmap K A) : gmap K F := (λ _, c) <$> index.

Definition len (s : gmap K F) : nat := size s.
Definition empty (s : gmap K F) : bool := bool_decide (size s = 0%nat).

Definition nan_to_zero (x : F) : F := if isnan x then of_Z 0 else x.

(* s.sum(): NaN is skipped.  A Series of the program keeps its entries in the
   order of its index; the map keeps them in the order of its keys, and the
   fold follows that order.  In exact arithmetic the order is immaterial; a
   binary64 sum of three or more entries whose partial sums round may differ
   from the program's in the last digit. *)
Definition sum (s : gmap K F) : F :=
  map_fold (λ _ x acc, acc + nan_to_zero x)%num (of_Z 0) s.

(* s.count(): the entries that are not NaN *)
Definition count (s : gmap K F) : Z :=
  map_fold (λ _ x n, if isnan x then n else n + 1) 0 s.

(* s.mean(): NaN is skipped *)
Definition mean (s : gmap K F) : F := (sum s / of_Z (count s))%num.

(* (s > c).astype(int).sum() *)
Definition count_gt (c : F) (s : gmap K F) : Z :=
  map_fold (λ _ x n, if nltb c x then n + 1 else n) 0 s.
End series.
End Series.

(** ** The table of one step: PandasOrderIndicator

    The class lives in [high_performance_ds.py], which is not part of this
    development: its operations are modelled from the design document
    (MetricTable).  A table maps the name of a metric to a column, a column
    maps an instrument to a number; the columns that [transfer] hands to its
    function are pandas Series. *)

Module OrderIndicator.
Section table.
Context {F : Type} `{Num F}.

(** Modelled from the spec: [assign(metric_name, values)] of
    PandasOrderIndicator, "replace the column metric_name with the given
    instrument→value mapping; unspecified instruments get the missing
    sentinel": an instrument the mapping does not specify has no entry in
    the column and reads as NaN when columns are aligned. *)
Definition assign (col : string) (metric : gmap string F)
    (data : gmap string (gmap string F)) : gmap string (gmap string F) :=
  <[col := metric]> data.

(** Modelled from the spec: the column lookup of [transfer], which "fails
    with a MissingColumnError if a required column is absent" (a KeyError). *)
Definition column (data : gmap string (gmap string F)) (col : string)
    : Res (gmap string F) :=
  match data !! col with
  | Some s => Ok s
  | None => Raise (KeyError col)
  end.

(** Modelled from the spec: [transfer(fn, result_name=None)] of
    PandasOrderIndicator, "apply fn to one or more existing columns (column
    names are resolved by matching the function's declared inputs against
    existing column names)"; the names are given here in the order of the
    function's parameters.  This is the form without a result name, which
    returns the computed value. *)
Definition transfer1 {A} (func : gmap string F → A) (a : string)
    (data : gmap string (gmap string F)) : Res A :=
  x ← column data a; mret (func x).

(** Modelled from the spec: [transfer] for a function of two columns. *)
Definition transfer2 {A} (func : gmap string F → gmap string F → A)
    (a b : string) (data : gmap string (gmap string F)) : Res A :=
  x ← column data a; y ← column data b; mret (func x y).

(** Modelled from the spec: [transfer] for a function of three columns. *)
Definition transfer3 {A}
    (func : gmap string F → gmap string F → gmap string F → A)
    (a b c : string) (data : gmap string (gmap string F)) : Res A :=
  x ← column data a; y ← column data b; z ← column data c; mret (func x y z).

(** Modelled from the spec: [transfer] with a result name, "write the
    result as a new/updated column". *)
Definition transfer_to (new_col : string) (r : Res (gmap string F))
    (data : gmap string (gmap string F)) : Res (gmap string (gmap string F)) :=
  x ← r; mret (assign new_col x data).

(** Modelled from the spec: [get_metric_series(metric)] of
    PandasOrderIndicator, the column, or an empty Series when the table has
    no such column ("reindexed onto the current instrument set"). *)
Definition get_metric_series (data : gmap string (gmap string F))
    (metric : string) : gmap string F :=
  default ∅ (data !! metric).

(** Modelled from the spec: "substitute fill_value for missing entries" of
    [sum_all], for one entry. *)
Definition fillna (fill_value x : F) : F := if isnan x then fill_value else x.

(** Modelled from the spec: the element-wise sum of two columns of
    [sum_all], on the union of their instruments. *)
Definition add_fill (fill_value : F) (a b : gmap string F) : gmap string F :=
  Series.binop (λ x y, fillna fill_value x + fillna fill_value y)%num a b.

(** Modelled from the spec: one metric of [sum_all(tables, metric_names,
    fill_value)], "outer-union the instrument keys across all given tables,
    substitute fill_value for missing entries, sum element-wise across
    tables". *)
Definition sum_metric (fill_value : F) (cols : list (gmap string F))
    : gmap string F :=
  match cols with
  | [] => ∅
  | c :: cs => foldl (add_fill fill_value) (fillna fill_value <$> c) cs
  end.

(** Modelled from the spec: [sum_all_indicators(indicators, metrics,
    fill_value)] of PandasOrderIndicator, which "returns one combined column
    per metric name"; a table without the metric is a KeyError. *)
Definition sum_all_indicators (indicators : list (gmap string (gmap string F)))
    (metrics : list string) (fill_value : F)
    : Res (list (string * gmap string F)) :=
  mapM (λ metric,
          cols ← mapM (λ ind, column ind metric) indicators;
          mret (metric, sum_metric fill_value cols)) metrics.
End table.
End OrderIndicator.

(** ** Strings: str.lower on the ASCII letters *)

Definition lower_ascii (c : ascii) : ascii :=
  let n := nat_of_ascii c in
  if ((65 <=? n) && (n <=? 90))%nat then ascii_of_nat (n + 32) else c.

Fixpoint lower (s : string) : string :=
  match s with
  | EmptyString => EmptyString
  | String c s' => String (lower_ascii c) (lower s')
  end.

(** ** class Indicator *)

Module Indicator.
Section indicator.
Context {F : Type} `{Num F}.

(** *** The collaborators: orders, decisions and the exchange *)

(* qlib.backtest.order.Order, with the attributes this module reads *)
Record Order : Type := mk_order {
  stock_id : string;
  amount_delta : F;
  deal_amount_delta : F;
  sign : F;
  direction : F;
}.

(* decision.trade_range: an IdxTradeRange, or a range that clips times *)
Inductive TradeRange : Type :=
  | IdxTradeRange (start_idx end_idx : Z)
  | TimeTradeRange (clip_time_range : Time → Time → Time * Time).

Record BaseTradeDecision : Type := mk_decision {
  get_decision : list Order;
  trade_range : option TradeRange;
}.

(* what Exchange.get_deal_price returns: None, a number or a Series *)
Inductive DealPrice : Type :=
  | NoPrice
  | PriceScalar (p : F)
  | PriceSeries (s : gmap Z F).

Record Exchange : Type := mk_exchange {
  get_deal_price : string → Time → Time → F → DealPrice;
  get_volume : string → Time → Time → option (gmap Z F);
}.

(** Modelled from the spec: [Order.parse_dir] of qlib.backtest.order, "the
    canonical direction-decode function" that normalizes a summed direction
    code "back to {0,1}": a positive code is 1, any other is 0. *)
Definition parse_dir (x : F) : F :=
  if nltb (of_Z 0) x then of_Z 1 else of_Z 0.

Record indicator_config : Type := mk_config {
  show_indicator : option bool;
  ffr_config : option (gmap string string);
  pa_config : option (gmap string string);
}.

(** *** The attributes *)

(* [trade_indicator] is a dict that the methods update in place, and
   [record] archives the dict itself, not a copy: an entry of
   [trade_indicator_his] archived since the dict was created is that same
   object and changes with it.  [shared] lists the start times of these
   entries; the entries of every other start time are dicts that nothing
   reaches any more.  (The table of the orders is archived through
   [to_series], a snapshot.) *)
Record t : Type := mk {
  order_indicator : gmap string (gmap string F);
  trade_indicator : list (string * F);
  order_indicator_his : list (Time * gmap string (gmap string F));
  trade_indicator_his : list (Time * list (string * F));
  shared : list Time;
}.

Definition __init__ : t :=
  {| order_indicator := ∅; trade_indicator := [];
     order_indicator_his := []; trade_indicator_his := []; shared := [] |}.

Definition set_order_indicator (d : gmap string (gmap string F)) (s : t) : t :=
  mk d (trade_indicator s) (order_indicator_his s) (trade_indicator_his s)
    (shared s).

(* self.trade_indicator = d: a new dict, which no archived entry is *)
Definition set_trade_indicator (d : list (string * F)) (s : t) : t :=
  mk (order_indicator s) d (order_indicator_his s) (trade_indicator_his s) [].

(* the dict of the summary after an update in place: the archived entries
   that are this dict show the update too *)
Definition update_trade_indicator (d : list (string * F)) (s : t) : t :=
  mk (order_indicator s) d (order_indicator_his s)
    ((λ kv, if decide (kv.1 ∈ shared s) then (kv.1, d) else kv)
       <$> trade_indicator_his s)
    (shared s).

(* self.order_indicator.assign(col, metric) *)
Definition oi_assign (col : string) (metric : gmap string F) : M t unit :=
  modify (λ s, set_order_indicator
                 (OrderIndicator.assign col metric (order_indicator s)) s).

(* self.order_indicator.transfer(func) *)
Definition oi_transfer1 {A} (func : gmap string F → A) (a : string) : M t A :=
  s ← get; lift (OrderIndicator.transfer1 func a (order_indicator s)).

Definition oi_transfer2 {A} (func : gmap string F → gmap string F → A)
    (a b : string) : M t A :=
  s ← get; lift (OrderIndicator.transfer2 func a b (order_indicator s)).

Definition oi_transfer3 {A}
    (func : gmap string F → gmap string F → gmap string F → A)
    (a b c : string) : M t A :=
  s ← get; lift (OrderIndicator.transfer3 func a b c (order_indicator s)).

(* self.trade_indicator[key] = value *)
Definition ti_set (key : string) (value : F) : M t unit :=
  modify (λ s, update_trade_indicator
                 (OrderedDict.set key value (trade_indicator s)) s).

Definition reset : M t unit :=
  modify (λ s, mk ∅ [] (order_indicator_his s) (trade_indicator_his s) []).

Definition get_order_indicator (self : t) : gmap string (gmap string F) :=
  order_indicator self.

Definition get_trade_indicator (self : t) : list (string * F) :=
  trade_indicator self.

Definition record (trade_start_time : Time) : M t unit :=
  modify (λ s, mk (order_indicator s) (trade_indicator s)
                  (OrderedDict.set trade_start_time (get_order_indicator s)
                     (order_indicator_his s))
                  (trade_indicator_his s) (shared s));;
  modify (λ s, mk (order_indicator s) (trade_indicator s)
                  (order_indicator_his s)
                  (OrderedDict.set trade_start_time (get_trade_indicator s)
                     (trade_indicator_his s))
                  (trade_start_time :: shared s)).

(** *** The innermost level *)

(* a dict filled in a loop: a later order of the same stock overwrites *)
Definition dict_of {A} (key : A → string) (value : A → F) (l : list A)
    : gmap string F :=
  foldl (λ d x, <[key x := value x]> d) ∅ l.

Definition _update_order_trade_info
    (trade_info : list (Order * F * F * F)) : M t unit :=
  let order := λ x : Order * F * F * F, x.1.1.1 in
  let _trade_val := λ x : Order * F * F * F, x.1.1.2 in
  let _trade_cost := λ x : Order * F * F * F, x.1.2 in
  let _trade_price := λ x : Order * F * F * F, x.2 in
  let id := λ x, stock_id (order x) in
  let amount := dict_of id (λ x, amount_delta (order x)) trade_info in
  let deal_amount := dict_of id (λ x, deal_amount_delta (order x)) trade_info in
  let trade_price := dict_of id _trade_price trade_info in
  let trade_value :=
    dict_of id (λ x, _trade_val x * sign (order x))%num trade_info in
  let trade_cost := dict_of id _trade_cost trade_info in
  let trade_dir := dict_of id (λ x, direction (order x)) trade_info in
  (* The PA in the innermost layer is meanless *)
  let pa := dict_of id (λ _, of_Z 0) trade_info in
  oi_assign "amount" amount;;
  oi_assign "inner_amount" amount;;
  oi_assign "deal_amount" deal_amount;;
  oi_assign "trade_price" trade_price;;
  oi_assign "trade_value" trade_value;;
  oi_assign "trade_cost" trade_cost;;
  oi_assign "trade_dir" trade_dir;;
  oi_assign "pa" pa.

Definition ffr_func (deal_amount amount : gmap string F) : gmap string F :=
  (* deal_amount is np.NaN when there is no inner decision. So full fill rate is 0. *)
  let tmp_deal_amount := Series.replace_nan (of_Z 0) deal_amount in
  Series.div tmp_deal_amount amount.

Definition _update_order_fulfill_rate : M t unit :=
  x ← oi_transfer2 ffr_func "deal_amount" "amount"; oi_assign "ffr" x.

Definition update_order_indicators
    (trade_info : list (Order * F * F * F)) : M t unit :=
  _update_order_trade_info trade_info;;
  _update_order_fulfill_rate.

(** *** Aggregation of the inner levels *)

Definition trade_amount_func (deal_amount trade_price : gmap string F)
    : gmap string F :=
  Series.mul deal_amount trade_price.

Definition all_metric : list string :=
  ["inner_amount"; "deal_amount"; "trade_price"; "trade_value"; "trade_cost";
   "trade_dir"].

Definition trade_price_func (trade_price deal_amount : gmap string F)
    : gmap string F :=
  (* trade_price is np.NaN instead of inf when deal_amount is zero. *)
  let tmp_deal_amount := Series.replace (of_Z 0) NaN deal_amount in
  Series.div trade_price tmp_deal_amount.

Definition func_apply (trade_dir : gmap string F) : gmap string F :=
  Series.apply parse_dir trade_dir.

(* The inner tables are objects of the caller that the first loop updates
   in place: they come back with the result.  The entries of the list are
   distinct objects (one table per inner step). *)
Definition _agg_order_trade_info
    (inner_order_indicators : list (gmap string (gmap string F)))
    : M t (list (gmap string (gmap string F))) :=
  (* calculate total trade amount with each inner order indicator. *)
  inner ← lift (mapM (λ indicator,
             OrderIndicator.transfer_to "trade_price"
               (OrderIndicator.transfer2 trade_amount_func
                  "deal_amount" "trade_price" indicator) indicator)
           inner_order_indicators);
  (* sum inner order indicators with same metric. *)
  metric_dict ← lift (OrderIndicator.sum_all_indicators inner all_metric (of_Z 0));
  mapM (λ m : string * gmap string F, oi_assign m.1 m.2) metric_dict;;
  x ← oi_transfer2 trade_price_func "trade_price" "deal_amount";
  oi_assign "trade_price" x;;
  y ← oi_transfer1 func_apply "trade_dir";
  oi_assign "trade_dir" y;;
  mret inner.

Definition _update_trade_amount (outer_trade_decision : BaseTradeDecision)
    : M t unit :=
  let decision := get_decision outer_trade_decision in
  if bool_decide (length decision = 0%nat) then oi_assign "amount" ∅
  else oi_assign "amount" (dict_of stock_id amount_delta decision).

(** *** The baseline price and volume *)

Definition _get_base_vol_pri (inst : string)
    (trade_start_time trade_end_time : Time) (direction : F)
    (decision : BaseTradeDecision) (trade_exchange : Exchange)
    (pa_config : gmap string string) : Res (option F * option F) :=
  let agg := lower (default "twap" (pa_config !! "agg")) in
  let price := lower (default "deal_price" (pa_config !! "price")) in
  '(trade_start_time, trade_end_time) ←
    match trade_range decision with
    | Some (IdxTradeRange _ _) =>
        Raise (TypeError "IdxTradeRange is not supported")
    | Some (TimeTradeRange clip_time_range) =>
        Ok (clip_time_range trade_start_time trade_end_time)
    | None => Ok (trade_start_time, trade_end_time)
    end;
  price_s ←
    (if decide (price = "deal_price")
     then Ok (get_deal_price trade_exchange inst trade_start_time
                trade_end_time direction)
     else Raise (NotImplementedError "This type of input is not supported"));
  match price_s with
  | NoPrice =>
      (* if there is no stock data during the time period *)
      Ok (None, None)
  | _ =>
      let price_s :=
        match price_s with
        | PriceScalar p => {[trade_start_time := p]}
        | PriceSeries s => s
        | NoPrice => ∅
        end in
      (* remove zero and negative values. *)
      let price_s := Series.drop_lt eps price_s in
      volume_s ←
        (if decide (agg = "vwap") then
           match get_volume trade_exchange inst trade_start_time
                   trade_end_time with
           | Some volume_s => Ok (Series.reindex volume_s price_s)
           | None => Raise (AttributeError "reindex")
           end
         else if decide (agg = "twap") then Ok (Series.const (of_Z 1) price_s)
         else Raise (NotImplementedError "This type of input is not supported"));
      let base_volume := Series.sum volume_s in
      let base_price :=
        (Series.sum (Series.mul price_s volume_s) / base_volume)%num in
      Ok (Some base_price, Some base_volume)
  end.

Fixpoint foldlM {A B} (f : B → A → Res B) (b : B) (l : list A) : Res B :=
  match l with
  | [] => Ok b
  | x :: l' => b' ← f b x; foldlM f b' l'
  end.

(* the body of the loop over the inner tables: bp_new and bv_new *)
Definition base_of_inner (trade_dir : gmap string F)
    (trade_exchange : Exchange) (pa_config : gmap string string)
    (oi : gmap string (gmap string F))
    (d : BaseTradeDecision * Time * Time)
    : Res (gmap string F * gmap string F) :=
  let '(dec, start, end_) := d in
  let bp_s :=
    Series.reindex (OrderIndicator.get_metric_series oi "base_price") trade_dir in
  let bv_s :=
    Series.reindex (OrderIndicator.get_metric_series oi "base_volume") trade_dir in
  foldlM (λ (new : gmap string F * gmap string F) (item : string * F),
            let '(bp_new, bv_new) := new in
            let '(inst, direction) := item in
            let pr := default NaN (bp_s !! inst) in
            let v := default NaN (bv_s !! inst) in
            if isnan pr then
              '(bp_tmp, bv_tmp) ←
                _get_base_vol_pri inst start end_ direction dec
                  trade_exchange pa_config;
              match bp_tmp, bv_tmp with
              | Some bp_tmp, Some bv_tmp =>
                  Ok (<[inst := bp_tmp]> bp_new, <[inst := bv_tmp]> bv_new)
              | _, _ => Ok (bp_new, bv_new)
              end
            else Ok (<[inst := pr]> bp_new, <[inst := v]> bv_new))
         (∅, ∅) (map_to_list trade_dir).

(* pd.concat(cols, axis=1).sum(axis=1): the rows are the union of the
   indexes, a cell without entry is NaN, and NaN is skipped *)
Definition sum_axis1 (cols : list (gmap string F)) : gmap string F :=
  foldl (Series.binop (λ x y, Series.nan_to_zero x + Series.nan_to_zero y)%num)
        ∅ cols.

Definition _agg_base_price
    (inner_order_indicators : list (gmap string (gmap string F)))
    (decision_list : list (BaseTradeDecision * Time * Time))
    (trade_exchange : Exchange) (pa_config : gmap string string) : M t unit :=
  s ← get;
  let trade_dir :=
    OrderIndicator.get_metric_series (order_indicator s) "trade_dir" in
  if bool_decide (0 < Series.len trade_dir)%nat then
    all ← lift (mapM (λ x : gmap string (gmap string F) * _,
                        base_of_inner trade_dir trade_exchange pa_config x.1 x.2)
                  (zip inner_order_indicators decision_list));
    match all with
    | [] => raise (ValueError "No objects to concatenate")
    | _ =>
        let bp_all := all.*1 in
        let bv_all := all.*2 in
        let base_volume := sum_axis1 bv_all in
        oi_assign "base_volume" base_volume;;
        oi_assign "base_price"
          (Series.div (sum_axis1 (zip_with Series.mul bp_all bv_all)) base_volume)
    end
  else mret tt.

(** *** Price advantage *)

Definition pa_func (trade_dir trade_price base_price : gmap string F)
    : gmap string F :=
  let sign := Series.apply (λ x, of_Z 1 - x * of_Z 2)%num trade_dir in
  Series.mul sign
    (Series.apply (λ x, x - of_Z 1)%num (Series.div trade_price base_price)).

Definition _agg_order_price_advantage : M t unit :=
  if_empty ← oi_transfer1 Series.empty "trade_price";
  if negb if_empty then
    x ← oi_transfer3 pa_func "trade_dir" "trade_price" "base_price";
    oi_assign "pa" x
  else oi_assign "pa" ∅.

Definition agg_order_indicators
    (inner_order_indicators : list (gmap string (gmap string F)))
    (decision_list : list (BaseTradeDecision * Time * Time))
    (outer_trade_decision : BaseTradeDecision)
    (trade_exchange : Exchange) (config : indicator_config)
    : M t (list (gmap string (gmap string F))) :=
  inner ← _agg_order_trade_info inner_order_indicators;
  _update_trade_amount outer_trade_decision;;
  _update_order_fulfill_rate;;
  let pa_config := default ∅ (pa_config config) in
  _agg_base_price inner decision_list trade_exchange pa_config;;
  _agg_order_price_advantage;;
  mret inner.

(** *** The summary of a step *)

Definition mean_func (x : gmap string F) : F := Series.mean x.

Definition weighted_func (x weight : gmap string F) : F :=
  (Series.sum (Series.mul x (Series.abs weight))
   / Series.sum (Series.abs weight))%num.

Definition _cal_trade_fulfill_rate (method : string) : M t F :=
  if decide (method = "mean") then oi_transfer1 mean_func "ffr"
  else if decide (method = "amount_weighted") then
    oi_transfer2 weighted_func "ffr" "deal_amount"
  else if decide (method = "value_weighted") then
    oi_transfer2 weighted_func "ffr" "trade_value"
  else raise (ValueError ("method " +:+ method +:+ " is not supported!")).

Definition _cal_trade_price_advantage (method : string) : M t F :=
  if decide (method = "mean") then oi_transfer1 mean_func "pa"
  else if decide (method = "amount_weighted") then
    oi_transfer2 weighted_func "pa" "deal_amount"
  else if decide (method = "value_weighted") then
    oi_transfer2 weighted_func "pa" "trade_value"
  else raise (ValueError ("method " +:+ method +:+ " is not supported!")).

Definition _cal_trade_positive_rate : M t F :=
  oi_transfer1 (λ pa, of_Z (Series.count_gt (of_Z 0) pa)
                      / of_Z (Series.count pa))%num "pa".

Definition _cal_deal_amount : M t F :=
  oi_transfer1 (λ deal_amount, Series.sum (Series.abs deal_amount)) "deal_amount".

Definition _cal_trade_value : M t F :=
  oi_transfer1 (λ trade_value, Series.sum (Series.abs trade_value)) "trade_value".

(* amount.count() is an int; the summary keeps it as a number *)
Definition _cal_trade_order_count : M t F :=
  oi_transfer1 (λ amount, of_Z (Series.count amount)) "amount".

Definition cal_trade_indicators (trade_start_time : Time) (freq : string)
    (config : indicator_config) : M t unit :=
  let ffr_config := default ∅ (ffr_config config) in
  let pa_config := default ∅ (pa_config config) in
  fulfill_rate ←
    _cal_trade_fulfill_rate (default "mean" (ffr_config !! "weight_method"));
  price_advantage ←
    _cal_trade_price_advantage (default "mean" (pa_config !! "weight_method"));
  positive_rate ← _cal_trade_positive_rate;
  deal_amount ← _cal_deal_amount;
  trade_value ← _cal_trade_value;
  order_count ← _cal_trade_order_count;
  ti_set "ffr" fulfill_rate;;
  ti_set "pa" price_advantage;;
  ti_set "pos" positive_rate;;
  ti_set "deal_amount" deal_amount;;
  ti_set "value" trade_value;;
  ti_set "count" order_count.

(* pd.DataFrame.from_dict(his, orient="index"): pandas makes one row per key
   that has a cell, the rows in the order of the keys of the dict *)
Definition generate_trade_indicators_dataframe (self : t)
    : list (Time * list (string * F)) :=
  filter (λ row, row.2 ≠ []) (trade_indicator_his self).
End indicator.
Arguments Order : clear implicits.
Arguments TradeRange : clear implicits.
Arguments BaseTradeDecision : clear implicits.
Arguments DealPrice : clear implicits.
Arguments Exchange : clear implicits.
Arguments t : clear implicits.
End Indicator.

(** ** Vocabulary of the statements *)

(* one of the values the first check of update_report_record looks at is None *)
Definition required_absent {F : Type} (a : Report.record_args F) : Prop :=
  Report.trade_start_time a = None ∨ Report.account_value a = None ∨
  Report.cash a = None ∨ Report.return_rate a = None ∨
  Report.total_turnover a = None ∨ Report.turnover_rate a = None ∨
  Report.total_cost a = None ∨ Report.cost_rate a = None ∨
  Report.stock_value a = None.

(* the policies _get_base_vol_pri reads from pa_config *)
Definition agg_policy (pa_config : gmap string string) : string :=
  lower (default "twap" (pa_config !! "agg")).

Definition price_policy (pa_config : gmap string string) : string :=
  lower (default "deal_price" (pa_config !! "price")).

(* the decision carries an IdxTradeRange *)
Definition idx_range {F : Type} (decision : Indicator.BaseTradeDecision F) : Prop :=
  ∃ a b, Indicator.trade_range decision = Some (Indicator.IdxTradeRange a b).

(* the time window after the trade range of the decision has clipped it *)
Definition clipped {F : Type} (decision : Indicator.BaseTradeDecision F)
    (trade_start_time trade_end_time : Time) : Time * Time :=
  match Indicator.trade_range decision with
  | Some (Indicator.TimeTradeRange clip_time_range) =>
      clip_time_range trade_start_time trade_end_time
  | _ => (trade_start_time, trade_end_time)
  end.

(* the binary64 number 1e-08, taken apart *)
Definition eps_spec : spec_float := Eval vm_compute in Prim2SF 1e-08%float.

(* an exchange that answers every query with the same deal prices, and has
   no volumes *)
Definition exchange_of (prices : Indicator.DealPrice float) : Indicator.Exchange float :=
  Indicator.mk_exchange (λ _ _ _ _, prices) (λ _ _ _, None).

(* a decision without orders and without trade range *)
Definition no_range : Indicator.BaseTradeDecision float :=
  Indicator.mk_decision [] None.

(* prices 0, 1e-9, 5.0 and 6.0 at four times *)
Definition prices_with_noise : gmap Z float :=
  list_to_map [(1, 0%float); (2, 1e-09%float); (3, 5%float); (4, 6%float)].

(* a missing price and the prices 5.0 and 6.0 *)
Definition prices_with_nan : gmap Z float :=
  list_to_map [(1, PrimFloat.nan); (3, 5%float); (4, 6%float)].

(* a table written column by column, and an Indicator that holds it *)
Definition table_of {F : Type} (cols : list (string * list (string * F)))
    : gmap string (gmap string F) :=
  list_to_map ((λ c, (c.1, list_to_map c.2)) <$> cols).

Definition indicator_of {F : Type} (cols : list (string * list (string * F)))
    : Indicator.t F :=
  Indicator.mk (table_of cols) [] [] [] [].

(* the cell of a column of the table of an Indicator *)
Definition cell {F : Type} (self : Indicator.t F) (col inst : string) : option F :=
  Indicator.order_indicator self !! col ≫= λ s, s !! inst.

(* an order to buy 10 of A of which nothing was dealt, and an outer decision
   that holds it *)
Definition order_A10 : Indicator.Order float :=
  Indicator.mk_order "A" 10%float 0%float 1%float 1%float.

Definition outer_A10 : Indicator.BaseTradeDecision float :=
  Indicator.mk_decision [order_A10] None.

(* amount 10 with a missing deal_amount *)
Definition unfilled_order : Indicator.t float :=
  indicator_of [("deal_amount", [("A", PrimFloat.nan)]);
                ("amount", [("A", 10%float)])].

(* trade_price 100 against base_price 90, for both direction codes *)
Definition priced_order (trade_dir : float) : Indicator.t float :=
  indicator_of [("trade_dir", [("A", trade_dir)]);
                ("trade_price", [("A", 100%float)]);
                ("base_price", [("A", 90%float)])].

(* the steps of a run: at each step the summary of the step becomes the
   current trade_indicator and is archived at the start time of the step *)
Definition archive {F : Type} (steps : list (Time * list (string * F)))
    (self : Indicator.t F) : Indicator.t F :=
  foldl (λ s step,
           (Indicator.record step.1 (Indicator.set_trade_indicator step.2 s)).2)
        self steps.

(* a summary with cells *)
Definition some_summary : list (string * float) :=
  [("ffr", 1%float); ("pa", 0%float); ("pos", 0%float);
   ("deal_amount", 10%float); ("value", 1000%float); ("count", 1%float)].

(* a table has the columns of a list *)
Definition has_columns {F : Type} (cols : list string)
    (data : gmap string (gmap string F)) : Prop :=
  Forall (λ col, is_Some (data !! col)) cols.

(* an inner table after the first loop of _agg_order_trade_info *)
Definition notional {F : Type} `{Num F} (data : gmap string (gmap string F))
    : gmap string (gmap string F) :=
  <["trade_price" :=
      Indicator.trade_amount_func
        (OrderIndicator.get_metric_series data "deal_amount")
        (OrderIndicator.get_metric_series data "trade_price")]> data.

(* the sum of a metric over the inner tables *)
Definition summed {F : Type} `{Num F} (inner : list (gmap string (gmap string F)))
    (metric : string) : gmap string F :=
  OrderIndicator.sum_metric (of_Z 0)
    ((λ c, OrderIndicator.get_metric_series c metric) <$> inner).

(* an inner table that lists no instrument *)
Definition no_instruments {F : Type} (data : gmap string (gmap string F)) : Prop :=
  Forall (λ metric, data !! metric = Some ∅) Indicator.all_metric.

(* the weighting method a summary is configured with *)
Definition weight_method (config : option (gmap string string)) : string :=
  default "mean" (default ∅ config !! "weight_method").

Definition supported_method (method : string) : Prop :=
  method = "mean" ∨ method = "amount_weighted" ∨ method = "value_weighted".

(* the table of the indicator after _agg_order_trade_info *)
Definition agg_table {F : Type} `{Num F} (inner : list (gmap string (gmap string F)))
    (data : gmap string (gmap string F)) : gmap string (gmap string F) :=
  let data :=
    foldl (λ data metric, <[metric := summed inner metric]> data) data
      Indicator.all_metric in
  let data :=
    <["trade_price" :=
        Indicator.trade_price_func (summed inner "trade_price")
          (summed inner "deal_amount")]> data in
  <["trade_dir" := Indicator.func_apply (summed inner "trade_dir")]> data.

(* a step of a method leaves the attributes as they are *)
Definition reader {S A : Type} (m : M S A) : Prop :=
  ∀ s r s', m s = (r, s') → s' = s.

(* a step of a method of Indicator leaves a column of its table as it is *)
Definition keeps_column {F A : Type} (col : string) (m : M (Indicator.t F) A) : Prop :=
  ∀ s r s', m s = (r, s') →
    Indicator.order_indicator s' !! col = Indicator.order_indicator s !! col.

(* the aggregation of a step followed by its summary *)
Definition step {F : Type} `{Num F}
    (inner_order_indicators : list (gmap string (gmap string F)))
    (decision_list : list (Indicator.BaseTradeDecision F * Time * Time))
    (outer_trade_decision : Indicator.BaseTradeDecision F)
    (trade_exchange : Indicator.Exchange F) (config : Indicator.indicator_config)
    (trade_start_time : Time) (freq : string) : M (Indicator.t F) unit :=
  Indicator.agg_order_indicators inner_order_indicators decision_list
    outer_trade_decision trade_exchange config;;
  Indicator.cal_trade_indicators trade_start_time freq config.

(* the default configuration *)
Definition default_config : Indicator.indicator_config :=
  Indicator.mk_config None None None.

(* an inner table with its columns and no instrument *)
Definition idle_inner : gmap string (gmap string float) :=
  table_of [("inner_amount", []); ("deal_amount", []); ("trade_price", []);
            ("trade_value", []); ("trade_cost", []); ("trade_dir", [])].

(* an inner table that dealt 5 of A at the price 10, against the baseline
   price 8 of volume 1 *)
Definition traded_inner : gmap string (gmap string float) :=
  table_of [("inner_amount", [("A", 5%float)]); ("deal_amount", [("A", 5%float)]);
            ("trade_price", [("A", 10%float)]); ("trade_value", [("A", 50%float)]);
            ("trade_cost", [("A", 0%float)]); ("trade_dir", [("A", 0%float)]);
            ("base_price", [("A", 8%float)]); ("base_volume", [("A", 1%float)])].


(* exact sums *)
Definition Qc_sum (l : list Qc) : Qc := foldr Qcplus (Q2Qc 0) l.

(* the deal_amount-weighted average of the prices of (deal_amount, price) pairs *)
Definition weighted_average (deals : list (Qc * Qc)) : Qc :=
  Qcdiv (Qc_sum ((λ dp, Qcmult dp.1 dp.2) <$> deals)) (Qc_sum deals.*1).

(* the rational an exact number stands for *)
Definition exact_value (x : exact) : option Q :=
  match x with
  | XVal q => Some (this q)
  | XNaN => None
  end.

(* an inner table that dealt [d] of A at the price [p] *)
Definition dealt_inner {F : Type} `{Num F} (d p : F) : gmap string (gmap string F) :=
  table_of [("inner_amount", [("A", d)]); ("deal_amount", [("A", d)]);
            ("trade_price", [("A", p)]); ("trade_value", [("A", d * p)%num]);
            ("trade_cost", [("A", of_Z 0)]); ("trade_dir", [("A", of_Z 1)])].

(* every instrument of a column has a value *)
Definition all_known (s : gmap string exact) : Prop :=
  map_Forall (λ _ x, x ≠ XNaN) s.

(* every instrument of a column has a value of the same size *)
Definition all_of_size (c : Qc) (s : gmap string exact) : Prop :=
  map_Forall (λ _ x, ∃ q, x = XVal q ∧ Qc_abs q = c) s.

(* two columns list the same instruments *)
Definition same_instruments {F : Type} (a b : gmap string F) : Prop :=
  ∀ i, is_Some (a !! i) ↔ is_Some (b !! i).

(* pa 0.1 and 0.3 for deal_amounts of the same size, in binary64 *)
Definition two_advantages : Indicator.t float :=
  indicator_of [("pa", [("A", 0.1%float); ("B", 0.3%float)]);
                ("deal_amount", [("A", 5%float); ("B", (-5)%float)])].

(* pa 0.1 and 0.3 for deal_amounts of the smallest size binary64 has *)
Definition tiny_deal_amounts : Indicator.t float :=
  indicator_of [("pa", [("A", 0.1%float); ("B", 0.3%float)]);
                ("deal_amount", [("A", 5e-324%float); ("B", (-5e-324)%float)])].

(* pa 1/10 and 3/10 for deal_amounts of the same size, in exact arithmetic *)
Definition two_exact_advantages : Indicator.t exact :=
  indicator_of [("pa", [("A", XVal (Q2Qc (1 # 10))); ("B", XVal (Q2Qc (3 # 10)))]);
                ("deal_amount", [("A", XVal (Q2Qc 5)); ("B", XVal (Q2Qc (-5)))])].

(* an instrument without pa next to one with pa 1/10, deal_amount 1 each *)
Definition one_advantage_missing : Indicator.t exact :=
  indicator_of [("pa", [("A", XVal (Q2Qc (1 # 10))); ("B", XNaN)]);
                ("deal_amount", [("A", XVal (Q2Qc 1)); ("B", XVal (Q2Qc 1))])].

Definition one_advantage_missing64 : Indicator.t float :=
  indicator_of [("pa", [("A", 0.1%float); ("B", PrimFloat.nan)]);
                ("deal_amount", [("A", 1%float); ("B", 1%float)])].

(* the value a method returns, when it returns *)
Definition returned {S A : Type} (r : Res A * S) : option A :=
  match r.1 with
  | Ok a => Some a
  | Raise _ => None
  end.

(* the keyword arguments of a call that gives every required value *)
Definition complete_args {F : Type} (trade_start_time : Time)
    (trade_end_time : option Time)
    (account_value cash return_rate total_turnover turnover_rate total_cost
       cost_rate stock_value : F) (bench_value : option F)
    : Report.record_args F :=
  Report.mk_args (Some trade_start_time) trade_end_time (Some account_value)
    (Some cash) (Some return_rate) (Some total_turnover) (Some turnover_rate)
    (Some total_cost) (Some cost_rate) (Some stock_value) bench_value.

(* the Report after the assignments of update_report_record *)
Definition with_record {F : Type} (trade_start_time : Time)
    (account_value cash return_rate total_turnover turnover_rate total_cost
       cost_rate stock_value : F) (bench_value : option F)
    (self : Report.t F) : Report.t F :=
  Report.mk
    (OrderedDict.set trade_start_time account_value (Report.accounts self))
    (OrderedDict.set trade_start_time return_rate (Report.returns self))
    (OrderedDict.set trade_start_time total_turnover (Report.total_turnovers self))
    (OrderedDict.set trade_start_time turnover_rate (Report.turnovers self))
    (OrderedDict.set trade_start_time total_cost (Report.total_costs self))
    (OrderedDict.set trade_start_time cost_rate (Report.costs self))
    (OrderedDict.set trade_start_time stock_value (Report.values self))
    (OrderedDict.set trade_start_time cash (Report.cashes self))
    (OrderedDict.set trade_start_time bench_value (Report.benches self))
    (Some trade_start_time) (Report.bench self).

(* the nine histories have the same start times in the same order, each
   once *)
Definition aligned {F : Type} `{Num F} (self : Report.t F) : Prop :=
  NoDup (Report.accounts self).*1 ∧
  Forall (λ c, c.2.*1 = (Report.accounts self).*1) (Report.report_columns self).

(* the row of a report table: the nine cells in the order of the columns *)
Definition report_row {F : Type} (av rr tt tr tc cr sv c b : F)
    : list (string * option F) :=
  [("account", Some av); ("return", Some rr); ("total_turnover", Some tt);
   ("turnover", Some tr); ("total_cost", Some tc); ("cost", Some cr);
   ("value", Some sv); ("cash", Some c); ("bench", Some b)].

(* the bench cell of a row of the frame, for the entry [b] of a history of
   benches [d]: None reads as NaN once the history holds a number *)
Definition bench_cell {F : Type} `{Num F} (d : list (Time * option F))
    (b : option F) : option F :=
  match b with
  | Some x => Some x
  | None => if Report.all_none d then None else Some NaN
  end.

(* every bench of the history is a number *)
Definition numeric_benches {F : Type} (self : Report.t F) : Prop :=
  Forall (λ kv, is_Some kv.2) (Report.benches self).

(* a Report with two records, the first without bench, in binary64 *)
Definition mixed_benches : Report.t float :=
  Report.mk [(1, 100%float); (2, 101%float)] [(1, 0%float); (2, 0.01%float)]
    [(1, 0%float); (2, 5%float)] [(1, 0%float); (2, 0.05%float)]
    [(1, 0%float); (2, 1%float)] [(1, 0%float); (2, 0.01%float)]
    [(1, 60%float); (2, 60%float)] [(1, 40%float); (2, 41%float)]
    [(1, None); (2, Some 0.5%float)] (Some 2) None.

Definition is_report_row {F : Type} (row : list (string * option F)) : Prop :=
  ∃ av rr tt tr tc cr sv c b, row = report_row av rr tt tr tc cr sv c b.

(* a Report with one record and no benchmark, in binary64 *)
Definition one_record : Report.t float :=
  Report.mk [(1, 100%float)] [(1, 0%float)] [(1, 0%float)] [(1, 0%float)]
    [(1, 0%float)] [(1, 0%float)] [(1, 60%float)] [(1, 40%float)]
    [(1, Some 0%float)] (Some 1) None.

Definition no_resam : list (Time * float) → Time → Time → (list float → float)
    → option float :=
  λ _ _ _ _, None.

(* one turn of the loop of load_report *)
Definition load_row {F : Type} `{Num F}
    (resam_ts_data : list (Time * F) → Time → Time → (list F → F) → option F)
    (r : list (Time * list (string * option F))) (trade_start_time : Time)
    : M (Report.t F) unit :=
  match filter (λ x, x.1 = trade_start_time) r with
  | [] => raise (KeyError "trade_start_time")
  | x :: rest =>
      account ← lift (Report.getcol x.2 "account");
      cash ← lift (Report.getcol x.2 "cash");
      ret ← lift (Report.getcol x.2 "return");
      total_turnover ← lift (Report.getcol x.2 "total_turnover");
      turnover ← lift (Report.getcol x.2 "turnover");
      total_cost ← lift (Report.getcol x.2 "total_cost");
      cost ← lift (Report.getcol x.2 "cost");
      value ← lift (Report.getcol x.2 "value");
      bench ← lift (Report.getcol x.2 "bench");
      match rest with
      | [] =>
          Report.update_report_record resam_ts_data
            (Report.mk_args (Some trade_start_time) None account cash ret
               total_turnover turnover total_cost cost value bench)
      | _ =>
          raise (ValueError "The truth value of a Series is ambiguous.")
      end
  end.

(* the last trade of an instrument among the trades of a step *)
Definition last_trade {F : Type} (inst : string)
    (trade_info : list (Indicator.Order F * F * F * F))
    : option (Indicator.Order F * F * F * F) :=
  last (filter (λ x, Indicator.stock_id x.1.1.1 = inst) trade_info).

(* the columns of the table of the innermost level *)
Definition leaf_columns : list string :=
  ["amount"; "inner_amount"; "deal_amount"; "trade_price"; "trade_value";
   "trade_cost"; "trade_dir"; "pa"; "ffr"].

(* the Indicator after the summary has been given the entries [kvs], one
   after the other, in place *)
Definition summary_written {F : Type} (kvs : list (string * F))
    (s : Indicator.t F) : Indicator.t F :=
  foldl (λ s kv,
           Indicator.update_trade_indicator
             (OrderedDict.set kv.1 kv.2 (Indicator.trade_indicator s)) s)
        s kvs.

(* the keys of the summary of a step *)
Definition summary_keys : list string :=
  ["ffr"; "pa"; "pos"; "deal_amount"; "value"; "count"].

(* a table with the five columns the summary reads, in binary64 *)
Definition summed_up : Indicator.t float :=
  indicator_of [("ffr", [("A", 1%float); ("B", 0.5%float)]);
                ("pa", [("A", 0.1%float); ("B", (-0.3)%float)]);
                ("deal_amount", [("A", 5%float); ("B", (-5)%float)]);
                ("trade_value", [("A", 50%float); ("B", (-40)%float)]);
                ("amount", [("A", 5%float); ("B", (-10)%float)])].

(* a configuration that asks for the median of the fulfill rates *)
Definition median_config : Indicator.indicator_config :=
  Indicator.mk_config None (Some {["weight_method" := "median"]}) None.

(* the trade_dir column of the table of an Indicator *)
Definition trade_dir_of {F : Type} (self : Indicator.t F) : gmap string F :=
  OrderIndicator.get_metric_series (Indicator.order_indicator self) "trade_dir".

(* every inner table has a baseline price for every instrument of a column *)
Definition baselines_known {F : Type} `{Num F} (trade_dir : gmap string F)
    (inner : list (gmap string (gmap string F))) : Prop :=
  Forall (λ oi,
            map_Forall (λ inst _,
              isnan (default NaN
                       (OrderIndicator.get_metric_series oi "base_price" !! inst))
              = false) trade_dir) inner.

(* the baselines _agg_base_price takes from an inner table that has them:
   bp_new and bv_new after the loop over the instruments of trade_dir *)
Definition known_base {F : Type} `{Num F} (trade_dir : gmap string F)
    (oi : gmap string (gmap string F)) : gmap string F * gmap string F :=
  foldl (λ (new : gmap string F * gmap string F) (item : string * F),
           (<[item.1 :=
                default NaN
                  (Series.reindex
                     (OrderIndicator.get_metric_series oi "base_price")
                     trade_dir !! item.1)]> new.1,
            <[item.1 :=
                default NaN
                  (Series.reindex
                     (OrderIndicator.get_metric_series oi "base_volume")
                     trade_dir !! item.1)]> new.2))
        (∅, ∅) (map_to_list trade_dir).

(* a decision over a range of indexes, which _get_base_vol_pri refuses *)
Definition idx_decision : Indicator.BaseTradeDecision float :=
  Indicator.mk_decision [] (Some (Indicator.IdxTradeRange 0 1)).

(* an Indicator that sold the instrument A *)
Definition sold_A : Indicator.t float :=
  indicator_of [("trade_dir", [("A", 0%float)])].

(* the latest report time is a recorded start time, or None on a Report
   without record *)
Definition latest_recorded {F : Type} (self : Report.t F) : Prop :=
  match Report.latest_report_time self with
  | None => Report.accounts self = []
  | Some t => t ∈ (Report.accounts self).*1
  end.

(* the target amounts of the orders of a decision, by instrument *)
Definition amount_of {F : Type} (decision : Indicator.BaseTradeDecision F)
    : gmap string F :=
  Indicator.dict_of Indicator.stock_id Indicator.amount_delta
    (Indicator.get_decision decision).

(* the prices the exchange answers with, as a Series: a number stands at the
   start of the window *)
Definition price_series {F : Type} (trade_start_time : Time)
    (price_s : Indicator.DealPrice F) : option (gmap Z F) :=
  match price_s with
  | Indicator.NoPrice => None
  | Indicator.PriceScalar p => Some {[trade_start_time := p]}
  | Indicator.PriceSeries s => Some s
  end.

(* prices that are all zero, negative or tiny *)
Definition prices_all_low : gmap Z float :=
  list_to_map [(1, 0%float); (2, (-3)%float); (3, 1e-09%float)].

(* a step of a method leaves what [f] reads of the object as it is, whether
   it returns or raises *)
Definition keeps {S X A : Type} (f : S → X) (m : M S A) : Prop :=
  ∀ s r s', m s = (r, s') → f s' = f s.

(* the start times the two histories of an Indicator list *)
Definition history_times {F : Type} (self : Indicator.t F)
    : list Time * list Time :=
  ((Indicator.order_indicator_his self).*1,
   (Indicator.trade_indicator_his self).*1).

(* the calls a client makes on an Indicator *)
Inductive method_call (F : Type) : Type :=
  | call_reset
  | call_record (trade_start_time : Time)
  | call_update_order_indicators
      (trade_info : list (Indicator.Order F * F * F * F))
  | call_agg_order_indicators
      (inner_order_indicators : list (gmap string (gmap string F)))
      (decision_list : list (Indicator.BaseTradeDecision F * Time * Time))
      (outer_trade_decision : Indicator.BaseTradeDecision F)
      (trade_exchange : Indicator.Exchange F)
      (config : Indicator.indicator_config)
  | call_cal_trade_indicators (trade_start_time : Time) (freq : string)
      (config : Indicator.indicator_config).
Arguments call_reset {F}.
Arguments call_record {F}.
Arguments call_update_order_indicators {F}.
Arguments call_agg_order_indicators {F}.
Arguments call_cal_trade_indicators {F}.

(* the Indicator after a call, whether the call returned or raised *)
Definition after_call {F : Type} `{Num F} (c : method_call F)
    (self : Indicator.t F) : Indicator.t F :=
  match c with
  | call_reset => (Indicator.reset self).2
  | call_record t => (Indicator.record t self).2
  | call_update_order_indicators trade_info =>
      (Indicator.update_order_indicators trade_info self).2
  | call_agg_order_indicators inner decision_list outer trade_exchange config =>
      (Indicator.agg_order_indicators inner decision_list outer trade_exchange
         config self).2
  | call_cal_trade_indicators t freq config =>
      (Indicator.cal_trade_indicators t freq config self).2
  end.

Definition after_calls {F : Type} `{Num F} (calls : list (method_call F))
    (self : Indicator.t F) : Indicator.t F :=
  foldl (λ s c, after_call c s) self calls.

(* the start times of the calls of record, each at the place of its first
   call *)
Definition recorded_times {F : Type} (times : list Time)
    (calls : list (method_call F)) : list Time :=
  foldl (λ ks c,
           match c with
           | call_record t => if decide (t ∈ ks) then ks else ks ++ [t]
           | _ => ks
           end) times calls.

(* an inner table whose baseline for an instrument has the volume [vp.1]
   and the price [vp.2] *)
Definition baseline_at (inst : string) (oi : gmap string (gmap string exact))
    (vp : Qc * Qc) : Prop :=
  OrderIndicator.get_metric_series oi "base_volume" !! inst = Some (XVal vp.1) ∧
  OrderIndicator.get_metric_series oi "base_price" !! inst = Some (XVal vp.2).

(* two inner tables with the baselines 8 of volume 1 and 10 of volume 3, and
   an Indicator that sold the instrument A, in exact arithmetic *)
Definition two_baselines : list (gmap string (gmap string exact)) :=
  [table_of [("base_price", [("A", XVal (Q2Qc 8))]);
             ("base_volume", [("A", XVal (Q2Qc 1))])];
   table_of [("base_price", [("A", XVal (Q2Qc 10))]);
             ("base_volume", [("A", XVal (Q2Qc 3))])]].

Definition sold_A_exact : Indicator.t exact :=
  indicator_of [("trade_dir", [("A", XVal (Q2Qc 0))])].

Definition idle_exchange : Indicator.Exchange exact :=
  Indicator.mk_exchange (λ _ _ _ _, Indicator.NoPrice) (λ _ _ _, None).

Definition plain_decision : Indicator.BaseTradeDecision exact :=
  Indicator.mk_decision [] None.













(** * Properties *)

(* run the steps of a method *)
Ltac unfold_monad :=
  unfold mbind, mret, M_bind, M_ret, Res_bind, Res_ret, get, gets, modify,
    lift, raise in *.

(** ** Report.update_report_record *)

Section report_properties.
Context {F : Type} `{Num F}.
Variable resam_ts_data : list (Time * F) → Time → Time → (list F → F) → option F.

Lemma first_check_raises (a : Report.record_args F) (self : Report.t F) :
  required_absent a →
  ∃ e, Report.update_report_record resam_ts_data a self = (Raise e, self).
Proof.
  unfold required_absent, Report.update_report_record.
  destruct (Report.trade_start_time a); [|by eauto].
  destruct (Report.account_value a); [|by eauto].
  destruct (Report.cash a); [|by eauto].
  destruct (Report.return_rate a); [|by eauto].
  destruct (Report.total_turnover a); [|by eauto].
  destruct (Report.turnover_rate a); [|by eauto].
  destruct (Report.total_cost a); [|by eauto].
  destruct (Report.cost_rate a); [|by eauto].
  destruct (Report.stock_value a); [|by eauto].
  intros Hx. repeat (destruct Hx as [Hx|Hx]; [discriminate|]). discriminate.
Qed.

Lemma second_check_raises (a : Report.record_args F) (self : Report.t F) :
  Report.trade_end_time a = None → Report.bench_value a = None →
  ∃ e, Report.update_report_record resam_ts_data a self = (Raise e, self).
Proof.
  intros He Hb. unfold Report.update_report_record.
  rewrite He, Hb.
  destruct (Report.trade_start_time a); [|by eauto].
  destruct (Report.account_value a); [|by eauto].
  destruct (Report.cash a); [|by eauto].
  destruct (Report.return_rate a); [|by eauto].
  destruct (Report.total_turnover a); [|by eauto].
  destruct (Report.turnover_rate a); [|by eauto].
  destruct (Report.total_cost a); [|by eauto].
  destruct (Report.cost_rate a); [|by eauto].
  destruct (Report.stock_value a); [|by eauto].
  by eauto.
Qed.
End report_properties.

(** C9: a call of [update_report_record] in which trade_start_time or one of
    the required values is None, or in which trade_end_time and bench_value
    are both None, raises, and the Report is left as it was: every history
    mapping and the latest report time are unchanged. *)
Theorem update_report_record_atomic {F : Type} `{Num F}
    (resam_ts_data : list (Time * F) → Time → Time → (list F → F) → option F)
    (a : Report.record_args F) (self : Report.t F) :
  required_absent a ∨
    (Report.trade_end_time a = None ∧ Report.bench_value a = None) →
  ∃ e, Report.update_report_record resam_ts_data a self = (Raise e, self).
Proof.
  intros [Ha|[He Hb]].
  - by apply first_check_raises.
  - by apply second_check_raises.
Qed.

Lemma update_report_record_atomic_witness :
  let a : Report.record_args float :=
    Report.mk_args (Some 1) None (Some 100%float) (Some 40%float)
      (Some 0%float) (Some 0%float) (Some 0%float) (Some 0%float)
      (Some 0%float) (Some 60%float) None in
  let self : Report.t float :=
    Report.mk [(0, 100%float)] [] [] [] [] [] [] [] [] (Some 0) None in
  (required_absent a ∨
     (Report.trade_end_time a = None ∧ Report.bench_value a = None)) ∧
  ∃ e, Report.update_report_record (λ _ _ _ _, None) a self = (Raise e, self).
Proof.
  split.
  - right. split; reflexivity.
  - apply update_report_record_atomic. right. split; reflexivity.
Defined.

(** ** Indicator._get_base_vol_pri *)

Section base_vol_pri.
Context {F : Type} `{Num F}.

Lemma lookup_drop_lt {K : Type} `{Countable K} (c : F) (s : gmap K F) (k : K) (p : F) :
  Series.drop_lt c s !! k = Some p ↔ s !! k = Some p ∧ nltb p c = false.
Proof. unfold Series.drop_lt. by rewrite map_lookup_filter_Some. Qed.

End base_vol_pri.

(** C5, as the code has it: an IdxTradeRange is refused with a TypeError
    whatever the policies are; past that check a price policy other than the
    deal price is refused with NotImplementedError; past both, an
    aggregation policy other than twap and vwap is refused with
    NotImplementedError once the exchange has returned prices, while without
    price data the call returns (None, None) before it looks at the
    aggregation policy. *)
Theorem _get_base_vol_pri_unsupported {F : Type} `{Num F}
    (inst : string) (trade_start_time trade_end_time : Time) (direction : F)
    (decision : Indicator.BaseTradeDecision F)
    (trade_exchange : Indicator.Exchange F) (pa_config : gmap string string) :
  let r := Indicator._get_base_vol_pri inst trade_start_time trade_end_time
             direction decision trade_exchange pa_config in
  let w := clipped decision trade_start_time trade_end_time in
  let price_s := Indicator.get_deal_price trade_exchange inst w.1 w.2 direction in
  (idx_range decision →
     r = Raise (TypeError "IdxTradeRange is not supported")) ∧
  (¬ idx_range decision → price_policy pa_config ≠ "deal_price" →
     r = Raise (NotImplementedError "This type of input is not supported")) ∧
  (¬ idx_range decision → price_policy pa_config = "deal_price" →
     price_s ≠ Indicator.NoPrice →
     agg_policy pa_config ≠ "twap" → agg_policy pa_config ≠ "vwap" →
     r = Raise (NotImplementedError "This type of input is not supported")) ∧
  (¬ idx_range decision → price_policy pa_config = "deal_price" →
     price_s = Indicator.NoPrice → r = Ok (None, None)).
Proof.
  unfold Indicator._get_base_vol_pri, clipped, idx_range, price_policy, agg_policy.
  destruct (Indicator.trade_range decision) as [[a b|clip]|]; simpl.
  - split; [done|]. repeat split; intros []; eauto.
  - destruct (clip _ _) as [st et]; simpl.
    split; [by intros (?&?&?)|]. repeat split; intros _.
    + intros Hp. by rewrite decide_False.
    + intros Hp Hs Ht Hv. rewrite decide_True by done. simpl.
      destruct (Indicator.get_deal_price _ _ _ _ _); [done| |];
        by rewrite !decide_False.
    + intros Hp ->. by rewrite decide_True.
  - split; [by intros (?&?&?)|]. repeat split; intros _.
    + intros Hp. by rewrite decide_False.
    + intros Hp Hs Ht Hv. rewrite decide_True by done. simpl.
      destruct (Indicator.get_deal_price _ _ _ _ _); [done| |];
        by rewrite !decide_False.
    + intros Hp ->. by rewrite decide_True.
Qed.

Lemma _get_base_vol_pri_unsupported_witness :
  let cfg : gmap string string := {["agg" := "median"]} in
  let price_s := Indicator.PriceSeries prices_with_noise in
  (¬ idx_range no_range ∧ price_policy cfg = "deal_price" ∧
   price_s ≠ Indicator.NoPrice ∧
   agg_policy cfg ≠ "twap" ∧ agg_policy cfg ≠ "vwap") ∧
  Indicator._get_base_vol_pri "A" 0 10 0%float no_range (exchange_of price_s) cfg
  = Raise (NotImplementedError "This type of input is not supported").
Proof.
  assert (Hr : ¬ idx_range no_range) by (intros (?&?&?); discriminate).
  assert (Hp : price_policy {["agg" := "median"]} = "deal_price")
    by (vm_compute; reflexivity).
  assert (Ht : agg_policy {["agg" := "median"]} ≠ "twap")
    by (vm_compute; discriminate).
  assert (Hv : agg_policy {["agg" := "median"]} ≠ "vwap")
    by (vm_compute; discriminate).
  split; [repeat split; done|].
  apply (_get_base_vol_pri_unsupported "A" 0 10 0%float no_range
           (exchange_of (Indicator.PriceSeries prices_with_noise))
           {["agg" := "median"]}); done.
Defined.

(** C5, as it is stated, fails: with an aggregation policy outside twap and
    vwap and no price data the call returns (None, None) and raises nothing;
    and with an IdxTradeRange and a price policy that is not the deal price
    the error is the TypeError of the range, not NotImplementedError. *)
Lemma unsupported_policy_not_always_raised :
  let cfg : gmap string string := {["agg" := "median"]} in
  (agg_policy cfg ≠ "twap" ∧ agg_policy cfg ≠ "vwap" ∧
   Indicator._get_base_vol_pri "A" 0 10 0%float no_range
     (exchange_of Indicator.NoPrice) cfg = Ok (None, None)) ∧
  (price_policy {["price" := "$close"]} ≠ "deal_price" ∧
   Indicator._get_base_vol_pri "A" 0 10 0%float
     (Indicator.mk_decision [] (Some (Indicator.IdxTradeRange 0 1)))
     (exchange_of Indicator.NoPrice) {["price" := "$close"]}
   = Raise (TypeError "IdxTradeRange is not supported")).
Proof.
  repeat split; try (vm_compute; discriminate); vm_compute; reflexivity.
Qed.

(** *** binary64 comparisons with 1e-08 *)

Lemma Prim2SF_eps : Prim2SF 1e-08%float = eps_spec.
Proof. vm_compute. reflexivity. Qed.



Lemma SFcompare_refl (x : spec_float) :
  x ≠ S754_nan → SFcompare x x = Some Eq.
Proof.
  destruct x as [s|s| |s m e]; simpl; try destruct s; try done.
  - by rewrite Z.compare_refl, Pos.compare_cont_refl.
  - by rewrite Z.compare_refl, Pos.compare_cont_refl.
Qed.

Lemma SF_ge_positive_not_lt (x : spec_float) (m : positive) (e : Z) :
  SFleb (S754_finite false m e) x = true → SFltb x (S754_finite false m e) = false.
Proof.
  unfold SFleb, SFltb.
  destruct x as [s|s| |s m' e']; simpl; try destruct s; try done.
  rewrite (Z.compare_antisym e' e).
  destruct (e' ?= e)%Z; simpl; try done.
  change (Pos.compare_cont Eq m m') with (Pos.compare m m').
  change (Pos.compare_cont Eq m' m) with (Pos.compare m' m).
  rewrite (Pos.compare_antisym m' m).
  destruct (Pos.compare m' m); done.
Qed.


Lemma SF_nan_not_lt (x y : spec_float) :
  negb (SFeqb x x) = true → SFltb x y = false.
Proof.
  unfold SFeqb, SFltb. intros Hx.
  destruct x as [s|s| |s m e]; [| |done|].
  - by rewrite (SFcompare_refl (S754_zero s)) in Hx.
  - by rewrite (SFcompare_refl (S754_infinity s)) in Hx.
  - by rewrite (SFcompare_refl (S754_finite s m e)) in Hx.
Qed.

Lemma float_nan_not_lt (p c : float) :
  PrimFloat.is_nan p = true → PrimFloat.ltb p c = false.
Proof.
  unfold PrimFloat.is_nan. rewrite FloatAxioms.eqb_spec, ltb_spec.
  apply SF_nan_not_lt.
Qed.

Lemma float_ge_eps_not_lt (p : float) :
  PrimFloat.leb 1e-08 p = true → PrimFloat.ltb p 1e-08 = false.
Proof.
  rewrite leb_spec, ltb_spec, Prim2SF_eps.
  apply SF_ge_positive_not_lt.
Qed.

(** ** The columns of a table *)

Section columns.
Context {F : Type} `{Num F} {K : Type} `{Countable K}.

Lemma lookup_binop (f : F → F → F) (a b : gmap K F) (i : K) :
  Series.binop f a b !! i =
  match a !! i, b !! i with
  | None, None => None
  | x, y => Some (f (default NaN x) (default NaN y))
  end.
Proof.
  unfold Series.binop. rewrite lookup_merge.
  by destruct (a !! i), (b !! i).
Qed.

Lemma binop_empty (f : F → F → F) : Series.binop f (∅ : gmap K F) ∅ = ∅.
Proof. apply map_eq. intros i. by rewrite lookup_binop, lookup_empty. Qed.
End columns.

(** ** Division of exact numbers *)

Section exact_division.

Lemma Qc_eq_bool_true (x : Qc) : Qc_eq_bool x x = true.
Proof. unfold Qc_eq_bool. by destruct (Qcanon.Qc_eq_dec x x) as [|[]]. Qed.

Lemma Qc_eq_bool_false (x y : Qc) : x ≠ y → Qc_eq_bool x y = false.
Proof. intros Hne. unfold Qc_eq_bool. by destruct (Qcanon.Qc_eq_dec x y). Qed.

Lemma exact_div_val (a b : Qc) :
  b ≠ Q2Qc 0 → (XVal a / XVal b)%num = XVal (Qcdiv a b).
Proof.
  intros Hb. change (exact_div (XVal a) (XVal b) = XVal (Qcdiv a b)).
  unfold exact_div. by rewrite Qc_eq_bool_false.
Qed.

Lemma exact_div_zero (a : Qc) : (XVal a / XVal (Q2Qc 0))%num = XNaN.
Proof.
  change (exact_div (XVal a) (XVal (Q2Qc 0)) = XNaN).
  unfold exact_div. by rewrite Qc_eq_bool_true.
Qed.
End exact_division.

(** ** The baseline of a window, entry by entry *)

Section keyed.
Context {E : Type} (label : E → Z).







End keyed.

Section kept.



End kept.

Section base_vol_pri_exact.



End base_vol_pri_exact.



(** C10: the filter [~(price_s < 1e-08)] keeps every entry whose price is NaN
    and every entry whose price is at least 1e-08; a filter on
    [price_s >= 1e-08] would drop the NaN entry; the NaN entry that stays
    counts in base_volume under twap: a missing price and the prices 5.0 and
    6.0 give base_volume 3 and base_price 11/3. *)
Theorem price_filter_keeps_nan :
  (∀ (s : gmap Z float) (t : Z) (p : float),
     s !! t = Some p →
     PrimFloat.is_nan p = true ∨ PrimFloat.leb 1e-08 p = true →
     Series.drop_lt eps s !! t = Some p) ∧
  (Series.drop_lt eps prices_with_nan !! 1 = Some PrimFloat.nan ∧
   filter (λ kv : Z * float, PrimFloat.leb 1e-08 kv.2 = true) prices_with_nan !! 1
   = None) ∧
  Indicator._get_base_vol_pri "A" 0 10 0%float no_range
    (exchange_of (Indicator.PriceSeries prices_with_nan)) ∅
  = Ok (Some 3.6666666666666665%float, Some 3%float).
Proof.
  split; [|split; [split|]; vm_compute; reflexivity].
  intros s t p Hs Hp. apply lookup_drop_lt. split; [done|].
  destruct Hp as [Hp|Hp].
  - by apply float_nan_not_lt.
  - by apply float_ge_eps_not_lt.
Qed.

Lemma price_filter_keeps_nan_witness :
  (prices_with_nan !! 1 = Some PrimFloat.nan ∧
   PrimFloat.is_nan PrimFloat.nan = true) ∧
  Series.drop_lt eps prices_with_nan !! 1 = Some PrimFloat.nan.
Proof.
  split; [split; vm_compute; reflexivity|].
  apply (proj1 price_filter_keeps_nan prices_with_nan 1 PrimFloat.nan).
  - vm_compute; reflexivity.
  - left. vm_compute; reflexivity.
Defined.

(** C2, as the code has it: on a table with the columns deal_amount and
    amount, the fill rate of an instrument is its deal_amount, with NaN
    replaced by 0, over its amount, so an amount of 10 with a deal_amount
    that is NaN gives the fill rate 0.  (Nothing is assumed on an amount of
    0.)  The replacement comes before the two columns are aligned: an
    instrument with an amount and no entry in deal_amount is aligned against
    NaN, and its fill rate is NaN, not 0.  This is what aggregation makes of
    an order of the outer decision that no inner table dealt: an order of
    10 of A over an inner table without instrument has the fill rate NaN. *)
Theorem _update_order_fulfill_rate_spec :
  (∀ (F : Type) (HF : Num F) (self : Indicator.t F)
     (deal_amount amount : gmap string F),
     Indicator.order_indicator self !! "deal_amount" = Some deal_amount →
     Indicator.order_indicator self !! "amount" = Some amount →
     ∃ ffr,
       Indicator._update_order_fulfill_rate self
       = (Ok tt, Indicator.set_order_indicator
                   (<["ffr" := ffr]> (Indicator.order_indicator self)) self) ∧
       (∀ i d a, deal_amount !! i = Some d → amount !! i = Some a →
          ffr !! i = Some ((if isnan d then of_Z 0 else d) / a)%num) ∧
       (∀ i a, deal_amount !! i = None → amount !! i = Some a →
          ffr !! i = Some (NaN / a)%num) ∧
       (∀ i d, deal_amount !! i = Some d → amount !! i = None →
          ffr !! i = Some ((if isnan d then of_Z 0 else d) / NaN)%num) ∧
       (∀ i, deal_amount !! i = None → amount !! i = None → ffr !! i = None)) ∧
  (cell unfilled_order "deal_amount" "A" = Some PrimFloat.nan ∧
   cell unfilled_order "amount" "A" = Some 10%float ∧
   cell (Indicator._update_order_fulfill_rate unfilled_order).2 "ffr" "A"
   = Some 0%float) ∧
  (let run := Indicator.agg_order_indicators [idle_inner] [(no_range, 0, 10)]
                outer_A10 (exchange_of Indicator.NoPrice) default_config
                Indicator.__init__ in
   is_Some (returned run) ∧
   cell run.2 "amount" "A" = Some 10%float ∧
   cell run.2 "deal_amount" "A" = None ∧
   cell run.2 "ffr" "A" = Some PrimFloat.nan).
Proof.
  split; [|split; [repeat split; vm_compute; reflexivity|]].
  2:{ split; [vm_compute; eexists; reflexivity|].
      repeat split; vm_compute; reflexivity. }
  intros F HF self deal_amount amount Hd Ha.
  exists (Indicator.ffr_func deal_amount amount). split.
  - unfold Indicator._update_order_fulfill_rate, Indicator.oi_transfer2,
      Indicator.oi_assign, OrderIndicator.transfer2, OrderIndicator.column.
    unfold_monad. by rewrite Hd, Ha.
  - unfold Indicator.ffr_func, Series.div, Series.replace_nan.
    repeat split; intros; rewrite lookup_binop, lookup_fmap;
      repeat match goal with H : _ !! _ = _ |- _ => rewrite H end; done.
Qed.

Lemma _update_order_fulfill_rate_spec_witness :
  let deal_amount : gmap string float := {["A" := PrimFloat.nan]} in
  let amount : gmap string float := {["A" := 10%float]} in
  (Indicator.order_indicator unfilled_order !! "deal_amount" = Some deal_amount ∧
   Indicator.order_indicator unfilled_order !! "amount" = Some amount) ∧
  ∃ ffr,
    Indicator._update_order_fulfill_rate unfilled_order
    = (Ok tt, Indicator.set_order_indicator
                (<["ffr" := ffr]> (Indicator.order_indicator unfilled_order))
                unfilled_order) ∧
    ffr !! "A" = Some ((if isnan PrimFloat.nan then of_Z 0 else PrimFloat.nan)
                       / 10%float)%num.
Proof.
  assert (Hd : Indicator.order_indicator unfilled_order !! "deal_amount"
               = Some ({["A" := PrimFloat.nan]} : gmap string float))
    by (vm_compute; reflexivity).
  assert (Ha : Indicator.order_indicator unfilled_order !! "amount"
               = Some ({["A" := 10%float]} : gmap string float))
    by (vm_compute; reflexivity).
  split; [done|].
  destruct (proj1 _update_order_fulfill_rate_spec float binary64
              unfilled_order _ _ Hd Ha) as (ffr & Hrun & Hboth & _).
  exists ffr. split; [done|].
  apply Hboth; vm_compute; reflexivity.
Defined.

(** C3: when the trade_price column is not empty, the price advantage of an
    instrument is (1 − 2·trade_dir) × (trade_price / base_price − 1); with
    trade_price 100 and base_price 90 it is +0.111... for the direction code
    0 and −0.111... for the direction code 1. *)
Theorem _agg_order_price_advantage_spec :
  (∀ (F : Type) (HF : Num F) (self : Indicator.t F)
     (trade_dir trade_price base_price : gmap string F),
     Indicator.order_indicator self !! "trade_dir" = Some trade_dir →
     Indicator.order_indicator self !! "trade_price" = Some trade_price →
     Indicator.order_indicator self !! "base_price" = Some base_price →
     Series.empty trade_price = false →
     ∃ pa,
       Indicator._agg_order_price_advantage self
       = (Ok tt, Indicator.set_order_indicator
                   (<["pa" := pa]> (Indicator.order_indicator self)) self) ∧
       (∀ i d p b,
          trade_dir !! i = Some d → trade_price !! i = Some p →
          base_price !! i = Some b →
          pa !! i = Some ((of_Z 1 - d * of_Z 2) * (p / b - of_Z 1))%num) ∧
       (∀ i,
          trade_dir !! i = None → trade_price !! i = None →
          base_price !! i = None → pa !! i = None)) ∧
  (cell (Indicator._agg_order_price_advantage (priced_order 0)).2 "pa" "A"
   = Some 0.11111111111111116%float ∧
   cell (Indicator._agg_order_price_advantage (priced_order 1)).2 "pa" "A"
   = Some (-0.11111111111111116)%float ∧
   PrimFloat.ltb 0.1111 0.11111111111111116 = true ∧
   PrimFloat.ltb 0.11111111111111116 0.1112 = true).
Proof.
  split; [|repeat split; vm_compute; reflexivity].
  intros F HF self trade_dir trade_price base_price Hd Hp Hb He.
  exists (Indicator.pa_func trade_dir trade_price base_price). split.
  - unfold Indicator._agg_order_price_advantage, Indicator.oi_transfer1,
      Indicator.oi_transfer3, Indicator.oi_assign, OrderIndicator.transfer1,
      OrderIndicator.transfer3, OrderIndicator.column.
    unfold_monad. rewrite Hp, He. simpl. by rewrite Hd, Hp, Hb.
  - unfold Indicator.pa_func, Series.mul, Series.div, Series.apply.
    split; intros; rewrite lookup_binop, !lookup_fmap, lookup_binop;
      repeat match goal with H : _ !! _ = _ |- _ => rewrite H end; done.
Qed.

Lemma _agg_order_price_advantage_spec_witness :
  let trade_dir : gmap string float := {["A" := 0%float]} in
  let trade_price : gmap string float := {["A" := 100%float]} in
  let base_price : gmap string float := {["A" := 90%float]} in
  (Indicator.order_indicator (priced_order 0) !! "trade_dir" = Some trade_dir ∧
   Indicator.order_indicator (priced_order 0) !! "trade_price" = Some trade_price ∧
   Indicator.order_indicator (priced_order 0) !! "base_price" = Some base_price ∧
   Series.empty trade_price = false) ∧
  ∃ pa,
    Indicator._agg_order_price_advantage (priced_order 0)
    = (Ok tt, Indicator.set_order_indicator
                (<["pa" := pa]> (Indicator.order_indicator (priced_order 0)))
                (priced_order 0)) ∧
    pa !! "A" = Some ((of_Z 1 - 0%float * of_Z 2)
                      * (100%float / 90%float - of_Z 1))%num.
Proof.
  assert (Hd : Indicator.order_indicator (priced_order 0) !! "trade_dir"
               = Some ({["A" := 0%float]} : gmap string float))
    by (vm_compute; reflexivity).
  assert (Hp : Indicator.order_indicator (priced_order 0) !! "trade_price"
               = Some ({["A" := 100%float]} : gmap string float))
    by (vm_compute; reflexivity).
  assert (Hb : Indicator.order_indicator (priced_order 0) !! "base_price"
               = Some ({["A" := 90%float]} : gmap string float))
    by (vm_compute; reflexivity).
  assert (He : Series.empty ({["A" := 100%float]} : gmap string float) = false)
    by (vm_compute; reflexivity).
  split; [done|].
  destruct (proj1 _agg_order_price_advantage_spec float binary64
              (priced_order 0) _ _ _ Hd Hp Hb He) as (pa & Hrun & Hall & _).
  exists pa. split; [done|].
  apply Hall; vm_compute; reflexivity.
Defined.

(** ** The history of the summaries *)

Section history.
Context {K V : Type} `{EqDecision K}.

Lemma set_fresh (k : K) (v : V) (d : list (K * V)) :
  k ∉ d.*1 → OrderedDict.set k v d = d ++ [(k, v)].
Proof.
  induction d as [|[k' v'] d IH]; simpl; [done|].
  intros Hk. apply not_elem_of_cons in Hk as [Hne Hk].
  rewrite decide_False by done. by rewrite IH.
Qed.
End history.

Lemma archive_cons {F : Type} (ts : Time) (row : list (string * F))
    (steps : list (Time * list (string * F))) (self : Indicator.t F) :
  archive ((ts, row) :: steps) self
  = archive steps
      (Indicator.mk (Indicator.order_indicator self) row
         (OrderedDict.set ts (Indicator.order_indicator self)
            (Indicator.order_indicator_his self))
         (OrderedDict.set ts row (Indicator.trade_indicator_his self)) [ts]).
Proof. reflexivity. Qed.

Lemma archive_his {F : Type} (steps : list (Time * list (string * F)))
    (self : Indicator.t F) :
  NoDup ((Indicator.trade_indicator_his self).*1 ++ steps.*1) →
  Indicator.trade_indicator_his (archive steps self)
  = Indicator.trade_indicator_his self ++ steps.
Proof.
  revert self. induction steps as [|[ts row] steps IH]; intros self Hnd.
  - simpl. by rewrite app_nil_r.
  - rewrite archive_cons.
    assert (Hts : ts ∉ (Indicator.trade_indicator_his self).*1).
    { apply NoDup_app in Hnd as (_ & Hnd & _). intros Hin.
      apply (Hnd ts Hin). simpl. left. }
    rewrite IH; simpl; rewrite set_fresh by done.
    + by rewrite <- app_assoc.
    + rewrite fmap_app, <- app_assoc. done.
Qed.

(** C7, as the code has it: the history is exported in the order in which
    the steps were archived (steps at distinct times, each with a
    summary); the rows are in ascending order of time when the steps were
    archived in ascending order of time. *)
Theorem history_export_in_archival_order {F : Type}
    (steps : list (Time * list (string * F))) :
  NoDup steps.*1 → Forall (λ step, step.2 ≠ []) steps →
  Indicator.generate_trade_indicators_dataframe
    (archive steps Indicator.__init__) = steps ∧
  (StronglySorted Z.lt steps.*1 →
   StronglySorted Z.lt
     (Indicator.generate_trade_indicators_dataframe
        (archive steps Indicator.__init__)).*1).
Proof.
  intros Hnd Hrows.
  assert (Heq : Indicator.generate_trade_indicators_dataframe
                  (archive steps Indicator.__init__) = steps).
  { unfold Indicator.generate_trade_indicators_dataframe.
    rewrite archive_his by done. simpl.
    clear Hnd. induction Hrows as [|step steps Hrow _ IH]; [done|].
    rewrite filter_cons_True by done. by rewrite IH. }
  split; [done|]. by rewrite Heq.
Qed.

Lemma history_export_in_archival_order_witness :
  let steps := [(1, some_summary); (2, some_summary); (3, some_summary)] in
  (NoDup steps.*1 ∧ Forall (λ step, step.2 ≠ []) steps) ∧
  Indicator.generate_trade_indicators_dataframe
    (archive steps Indicator.__init__) = steps.
Proof.
  assert (Hnd : NoDup [(1, some_summary); (2, some_summary); (3, some_summary)].*1).
  { simpl. compute_done. }
  assert (Hrows : Forall (λ step : Z * list (string * float), step.2 ≠ [])
                    [(1, some_summary); (2, some_summary); (3, some_summary)]).
  { repeat constructor; discriminate. }
  split; [done|].
  apply (history_export_in_archival_order _ Hnd Hrows).
Defined.

(** C7, as it is stated, fails: steps at the times 1 < 2 < 3 archived in the
    order 2, 3, 1 are exported in the order 2, 3, 1. *)
Lemma history_export_not_sorted :
  (Indicator.generate_trade_indicators_dataframe
     (archive [(2, some_summary); (3, some_summary); (1, some_summary)]
        Indicator.__init__)).*1 = [2; 3; 1] ∧
  ¬ StronglySorted Z.lt [2; 3; 1].
Proof.
  split; [vm_compute; reflexivity|].
  intros Hs. inversion Hs as [|? ? _ Hall]; subst.
  inversion Hall as [|? ? _ Hall']; subst.
  inversion Hall' as [|? ? Hlt _]; subst. lia.
Qed.

(** ** Running the aggregation *)

Ltac in_list := repeat first [apply list_elem_of_here | apply list_elem_of_further].


Section monad.
Context {S A B : Type}.

Lemma run_bind (m : M S A) (f : A → M S B) (s s' : S) (a : A) :
  m s = (Ok a, s') → (m ≫= f) s = f a s'.
Proof. unfold_monad. by intros ->. Qed.

Lemma run_bind_raise (m : M S A) (f : A → M S B) (s s' : S) (e : error) :
  m s = (Raise e, s') → (m ≫= f) s = (Raise e, s').
Proof. unfold_monad. by intros ->. Qed.
End monad.

Section mapM.
Context {A B : Type}.

Lemma mapM_ok (f : A → Res B) (g : A → B) (l : list A) :
  Forall (λ x, f x = Ok (g x)) l → mapM f l = Ok (g <$> l).
Proof.
  induction 1 as [|x l Hx _ IH]; [done|].
  simpl. unfold_monad. by rewrite Hx, IH.
Qed.
End mapM.

Section agg.
Context {F : Type} `{Num F}.

Lemma notional_ok (c : gmap string (gmap string F)) :
  has_columns Indicator.all_metric c →
  OrderIndicator.transfer_to "trade_price"
    (OrderIndicator.transfer2 Indicator.trade_amount_func
       "deal_amount" "trade_price" c) c = Ok (notional c).
Proof.
  intros Hc. unfold has_columns, Indicator.all_metric in Hc.
  rewrite !Forall_cons in Hc.
  destruct Hc as (_ & [d Hd] & [p Hp] & _).
  unfold OrderIndicator.transfer_to, OrderIndicator.transfer2,
    OrderIndicator.column, notional, OrderIndicator.get_metric_series.
  unfold_monad. by rewrite Hd, Hp.
Qed.

Lemma notional_columns (cols : list string) (c : gmap string (gmap string F)) :
  has_columns cols c → has_columns cols (notional c).
Proof.
  unfold has_columns, notional. intros Hc. eapply Forall_impl; [exact Hc|].
  intros col [x Hx]. simpl.
  destruct (decide ("trade_price" = col)) as [<-|Hne].
  - rewrite lookup_insert_eq. eauto.
  - rewrite lookup_insert_ne by done. eauto.
Qed.

Lemma columns_ok (metric : string) (inner : list (gmap string (gmap string F))) :
  Forall (λ c, is_Some (c !! metric)) inner →
  mapM (λ ind, OrderIndicator.column ind metric) inner
  = Ok ((λ c, OrderIndicator.get_metric_series c metric) <$> inner).
Proof.
  intros Hc. apply mapM_ok. eapply Forall_impl; [exact Hc|].
  intros c [x Hx]. unfold OrderIndicator.column, OrderIndicator.get_metric_series.
  by rewrite Hx.
Qed.

Lemma sum_all_indicators_ok (metrics : list string) (fill_value : F)
    (inner : list (gmap string (gmap string F))) :
  Forall (has_columns metrics) inner →
  OrderIndicator.sum_all_indicators inner metrics fill_value
  = Ok ((λ metric,
           (metric,
            OrderIndicator.sum_metric fill_value
              ((λ c, OrderIndicator.get_metric_series c metric) <$> inner)))
          <$> metrics).
Proof.
  intros Hc. unfold OrderIndicator.sum_all_indicators.
  apply mapM_ok. apply Forall_forall. intros metric Hm.
  rewrite columns_ok; [done|].
  eapply Forall_impl; [exact Hc|]. intros c Hcol.
  unfold has_columns in Hcol. rewrite Forall_forall in Hcol. by apply Hcol.
Qed.


Lemma oi_assign_run (col : string) (metric : gmap string F) (self : Indicator.t F) :
  Indicator.oi_assign col metric self
  = (Ok tt, Indicator.set_order_indicator
              (<[col := metric]> (Indicator.order_indicator self)) self).
Proof. reflexivity. Qed.

Lemma oi_transfer1_run {A} (func : gmap string F → A) (a : string)
    (self : Indicator.t F) (x : gmap string F) :
  Indicator.order_indicator self !! a = Some x →
  Indicator.oi_transfer1 func a self = (Ok (func x), self).
Proof.
  intros Hx. unfold Indicator.oi_transfer1, OrderIndicator.transfer1,
    OrderIndicator.column. unfold_monad. by rewrite Hx.
Qed.

Lemma oi_transfer2_run {A} (func : gmap string F → gmap string F → A)
    (a b : string) (self : Indicator.t F) (x y : gmap string F) :
  Indicator.order_indicator self !! a = Some x →
  Indicator.order_indicator self !! b = Some y →
  Indicator.oi_transfer2 func a b self = (Ok (func x y), self).
Proof.
  intros Hx Hy. unfold Indicator.oi_transfer2, OrderIndicator.transfer2,
    OrderIndicator.column. unfold_monad. by rewrite Hx, Hy.
Qed.

Lemma assign_all_run (metric_dict : list (string * gmap string F))
    (self : Indicator.t F) :
  mapM (λ m : string * gmap string F, Indicator.oi_assign m.1 m.2) metric_dict self
  = (Ok ((λ _, tt) <$> metric_dict),
     Indicator.set_order_indicator
       (foldl (λ data m, <[m.1 := m.2]> data) (Indicator.order_indicator self)
          metric_dict) self).
Proof.
  revert self. induction metric_dict as [|m l IH]; intros self.
  - by destruct self.
  - simpl. erewrite run_bind; [|apply oi_assign_run].
    erewrite run_bind; [|apply IH]. by destruct self.
Qed.

Lemma _agg_order_trade_info_ok (inner : list (gmap string (gmap string F)))
    (self : Indicator.t F) :
  Forall (has_columns Indicator.all_metric) inner →
  Indicator._agg_order_trade_info inner self
  = (Ok (notional <$> inner),
     Indicator.set_order_indicator
       (agg_table (notional <$> inner) (Indicator.order_indicator self)) self).
Proof.
  intros Hc. unfold Indicator._agg_order_trade_info.
  erewrite run_bind; last first.
  { unfold lift. erewrite mapM_ok; [done|].
    eapply Forall_impl; [exact Hc|]. intros c. apply notional_ok. }
  erewrite run_bind; last first.
  { unfold lift. rewrite sum_all_indicators_ok; [done|].
    apply Forall_fmap. eapply Forall_impl; [exact Hc|].
    intros c. apply notional_columns. }
  erewrite run_bind; [|apply assign_all_run].
  erewrite run_bind; last first.
  { apply oi_transfer2_run; simpl; by simplify_map_eq. }
  erewrite run_bind; [|apply oi_assign_run].
  erewrite run_bind; last first.
  { apply oi_transfer1_run; simpl; by simplify_map_eq. }
  erewrite run_bind; [|apply oi_assign_run].
  reflexivity.
Qed.

Lemma lookup_agg_table (inner : list (gmap string (gmap string F)))
    (data : gmap string (gmap string F)) :
  agg_table inner data !! "deal_amount" = Some (summed inner "deal_amount") ∧
  agg_table inner data !! "trade_value" = Some (summed inner "trade_value") ∧
  agg_table inner data !! "trade_price"
  = Some (Indicator.trade_price_func (summed inner "trade_price")
            (summed inner "deal_amount")) ∧
  agg_table inner data !! "trade_dir"
  = Some (Indicator.func_apply (summed inner "trade_dir")).
Proof. unfold agg_table. simpl. repeat split; by simplify_map_eq. Qed.
End agg.

Section ordered_dict.
Context {K V : Type} `{EqDecision K}.

Lemma lookup_set_eq (k : K) (v : V) (d : list (K * V)) :
  OrderedDict.lookup k (OrderedDict.set k v d) = Some v.
Proof.
  induction d as [|[k' v'] d IH]; simpl.
  - by rewrite decide_True.
  - destruct (decide (k' = k)) as [->|Hne]; simpl.
    + by rewrite decide_True.
    + by rewrite decide_False.
Qed.

Lemma lookup_set_ne (k k' : K) (v : V) (d : list (K * V)) :
  k ≠ k' →
  OrderedDict.lookup k (OrderedDict.set k' v d) = OrderedDict.lookup k d.
Proof.
  intros Hne. induction d as [|[k'' v''] d IH]; simpl.
  - by rewrite decide_False.
  - destruct (decide (k'' = k')) as [->|Hne']; simpl.
    + by rewrite !decide_False.
    + by rewrite IH.
Qed.
End ordered_dict.

Section empty_step.
Context {F : Type} `{Num F}.

Lemma sum_empty {K : Type} `{Countable K} : Series.sum (∅ : gmap K F) = of_Z 0.
Proof. unfold Series.sum. by rewrite map_fold_empty. Qed.

Lemma count_empty {K : Type} `{Countable K} : Series.count (∅ : gmap K F) = 0.
Proof. unfold Series.count. by rewrite map_fold_empty. Qed.

Lemma sum_metric_empty (fill_value : F) (cols : list (gmap string F)) :
  Forall (λ c, c = ∅) cols → OrderIndicator.sum_metric fill_value cols = ∅.
Proof.
  destruct 1 as [|c cols -> Hcols]; [done|]. simpl.
  rewrite fmap_empty. induction Hcols as [|c' cols -> _ IH]; [done|].
  simpl. unfold OrderIndicator.add_fill at 2. by rewrite binop_empty.
Qed.

Lemma no_instruments_columns (c : gmap string (gmap string F)) :
  no_instruments c → has_columns Indicator.all_metric c.
Proof.
  unfold no_instruments, has_columns. intros Hc.
  eapply Forall_impl; [exact Hc|]. intros col ->. eauto.
Qed.

Lemma summed_no_instruments (inner : list (gmap string (gmap string F)))
    (metric : string) :
  Forall no_instruments inner → metric ∈ Indicator.all_metric →
  summed (notional <$> inner) metric = ∅.
Proof.
  intros Hin Hm. unfold summed. apply sum_metric_empty.
  rewrite <- list_fmap_compose. apply Forall_fmap.
  eapply Forall_impl; [exact Hin|]. intros c Hc. simpl.
  unfold no_instruments in Hc. rewrite Forall_forall in Hc.
  unfold OrderIndicator.get_metric_series, notional,
    Indicator.trade_amount_func, Series.mul.
  unfold OrderIndicator.get_metric_series.
  rewrite (Hc "deal_amount"), (Hc "trade_price")
    by (unfold Indicator.all_metric; in_list).
  simpl. rewrite binop_empty.
  destruct (decide ("trade_price" = metric)) as [<-|Hne].
  - by rewrite lookup_insert_eq.
  - rewrite lookup_insert_ne by done. by rewrite (Hc metric Hm).
Qed.
End empty_step.

Section empty_step2.
Context {F : Type} `{Num F}.

Lemma _cal_weighted_run (metric : string) (method : string)
    (self : Indicator.t F) (x d v : gmap string F) :
  supported_method method →
  Indicator.order_indicator self !! metric = Some x →
  Indicator.order_indicator self !! "deal_amount" = Some d →
  Indicator.order_indicator self !! "trade_value" = Some v →
  ∃ r,
    (if decide (method = "mean") then Indicator.oi_transfer1 Indicator.mean_func metric
     else if decide (method = "amount_weighted") then
       Indicator.oi_transfer2 Indicator.weighted_func metric "deal_amount"
     else if decide (method = "value_weighted") then
       Indicator.oi_transfer2 Indicator.weighted_func metric "trade_value"
     else raise (ValueError ("method " +:+ method +:+ " is not supported!")))
      self = (Ok r, self).
Proof.
  intros [-> | [-> | ->]] Hx Hd Hv; simpl.
  - eexists. by apply oi_transfer1_run.
  - eexists. by apply oi_transfer2_run.
  - eexists. by apply oi_transfer2_run.
Qed.

Lemma cal_trade_indicators_run (trade_start_time : Time) (freq : string)
    (config : Indicator.indicator_config) (self : Indicator.t F)
    (ffr pa deal_amount trade_value amount : gmap string F) :
  supported_method (weight_method (Indicator.ffr_config config)) →
  supported_method (weight_method (Indicator.pa_config config)) →
  Indicator.order_indicator self !! "ffr" = Some ffr →
  Indicator.order_indicator self !! "pa" = Some pa →
  Indicator.order_indicator self !! "deal_amount" = Some deal_amount →
  Indicator.order_indicator self !! "trade_value" = Some trade_value →
  Indicator.order_indicator self !! "amount" = Some amount →
  ∃ self',
    Indicator.cal_trade_indicators trade_start_time freq config self = (Ok tt, self') ∧
    Indicator.order_indicator self' = Indicator.order_indicator self ∧
    OrderedDict.lookup "deal_amount" (Indicator.trade_indicator self')
    = Some (Series.sum (Series.abs deal_amount)) ∧
    OrderedDict.lookup "count" (Indicator.trade_indicator self')
    = Some (of_Z (Series.count amount)).
Proof.
  intros Hf Hp Hffr Hpa Hd Hv Ha.
  destruct (_cal_weighted_run "ffr" _ self _ _ _ Hf Hffr Hd Hv) as [fr Hfr].
  destruct (_cal_weighted_run "pa" _ self _ _ _ Hp Hpa Hd Hv) as [par Hpar].
  unfold Indicator.cal_trade_indicators.
  erewrite run_bind; [|exact Hfr].
  erewrite run_bind; [|exact Hpar].
  erewrite run_bind; [|by apply oi_transfer1_run].
  erewrite run_bind; [|by apply oi_transfer1_run].
  erewrite run_bind; [|by apply oi_transfer1_run].
  erewrite run_bind; [|by apply oi_transfer1_run].
  eexists. split; [reflexivity|]. simpl. split; [done|].
  split.
  - rewrite !(lookup_set_ne "deal_amount") by done. by rewrite lookup_set_eq.
  - by rewrite lookup_set_eq.
Qed.
End empty_step2.

(** ** A step whose outer decision has no order *)

Section monad_inv.
Context {S A B : Type}.

Lemma run_bind_inv (m : M S A) (f : A → M S B) (s s' : S) (b : B) :
  (m ≫= f) s = (Ok b, s') → ∃ a s1, m s = (Ok a, s1) ∧ f a s1 = (Ok b, s').
Proof.
  unfold_monad. destruct (m s) as [[a|e] s1]; [eauto|done].
Qed.

Lemma reader_bind (m : M S A) (f : A → M S B) :
  reader m → (∀ a, reader (f a)) → reader (m ≫= f).
Proof.
  intros Hm Hf s r s'. unfold_monad.
  destruct (m s) as [[a|e] s1] eqn:Hs.
  - apply Hm in Hs as ->. apply Hf.
  - apply Hm in Hs as ->. by intros [= _ ->].
Qed.

Lemma reader_lift (r : Res A) : reader (lift r : M S A).
Proof. intros s r' s'. unfold lift. by intros [= _ ->]. Qed.

Lemma reader_raise (e : error) : reader (raise e : M S A).
Proof. intros s r' s'. unfold raise. by intros [= _ ->]. Qed.

Lemma reader_get : reader (get : M S S).
Proof. intros s r' s'. unfold get. by intros [= _ ->]. Qed.
End monad_inv.

Section keeps.
Context {F : Type} `{Num F}.

Lemma reader_keeps {A} (col : string) (m : M (Indicator.t F) A) :
  reader m → keeps_column col m.
Proof. intros Hm s r s' Hs. by rewrite (Hm s r s' Hs). Qed.

Lemma keeps_bind {A B} (col : string) (m : M (Indicator.t F) A)
    (f : A → M (Indicator.t F) B) :
  keeps_column col m → (∀ a, keeps_column col (f a)) → keeps_column col (m ≫= f).
Proof.
  intros Hm Hf s r s'. unfold_monad.
  destruct (m s) as [[a|e] s1] eqn:Hs.
  - intros Hfa. rewrite (Hf a s1 r s' Hfa). by apply (Hm s (Ok a)).
  - intros [= _ <-]. by apply (Hm s (Raise e)).
Qed.

Lemma keeps_ret {A} (col : string) (a : A) :
  keeps_column col (mret a : M (Indicator.t F) A).
Proof. intros s r s'. unfold_monad. by intros [= _ ->]. Qed.

Lemma keeps_assign (col col' : string) (metric : gmap string F) :
  col' ≠ col → keeps_column col (Indicator.oi_assign col' metric).
Proof.
  intros Hne s r s'. rewrite oi_assign_run. intros [= _ <-]. simpl.
  by rewrite lookup_insert_ne.
Qed.

Lemma reader_transfer1 {A} (func : gmap string F → A) (a : string) :
  reader (Indicator.oi_transfer1 func a).
Proof. apply reader_bind; [apply reader_get|]. intros s. apply reader_lift. Qed.

Lemma reader_transfer2 {A} (func : gmap string F → gmap string F → A)
    (a b : string) :
  reader (Indicator.oi_transfer2 func a b).
Proof. apply reader_bind; [apply reader_get|]. intros s. apply reader_lift. Qed.

Lemma reader_transfer3 {A}
    (func : gmap string F → gmap string F → gmap string F → A) (a b c : string) :
  reader (Indicator.oi_transfer3 func a b c).
Proof. apply reader_bind; [apply reader_get|]. intros s. apply reader_lift. Qed.

Lemma oi_transfer1_inv {A} (func : gmap string F → A) (a : string)
    (s s' : Indicator.t F) (v : A) :
  Indicator.oi_transfer1 func a s = (Ok v, s') →
  s' = s ∧ ∃ x, Indicator.order_indicator s !! a = Some x ∧ v = func x.
Proof.
  intros Hs. split; [by apply (reader_transfer1 func a s (Ok v))|].
  revert Hs. unfold Indicator.oi_transfer1, OrderIndicator.transfer1,
    OrderIndicator.column. unfold_monad.
  destruct (Indicator.order_indicator s !! a) as [x|]; [|done].
  intros [= <- _]. eauto.
Qed.

Lemma keeps_fulfill_rate (col : string) :
  col ≠ "ffr" → keeps_column col Indicator._update_order_fulfill_rate.
Proof.
  intros Hne. apply keeps_bind.
  - apply reader_keeps, reader_transfer2.
  - intros x. by apply keeps_assign.
Qed.

Lemma keeps_base_price (col : string) inner decision_list trade_exchange pa_config :
  col ≠ "base_volume" → col ≠ "base_price" →
  keeps_column col
    (Indicator._agg_base_price inner decision_list trade_exchange pa_config).
Proof.
  intros Hv Hp. apply keeps_bind; [apply reader_keeps, reader_get|].
  intros s. cbv zeta. case_bool_decide; [|apply keeps_ret].
  apply keeps_bind; [apply reader_keeps, reader_lift|].
  intros [|x l]; [apply reader_keeps, reader_raise|].
  apply keeps_bind; [by apply keeps_assign|]. intros _. by apply keeps_assign.
Qed.

Lemma keeps_price_advantage (col : string) :
  col ≠ "pa" → keeps_column col Indicator._agg_order_price_advantage.
Proof.
  intros Hne. apply keeps_bind; [apply reader_keeps, reader_transfer1|].
  intros [|]; simpl.
  - by apply keeps_assign.
  - apply keeps_bind; [apply reader_keeps, reader_transfer3|].
    intros x. by apply keeps_assign.
Qed.

Lemma reader_cal_weighted (metric method : string) :
  reader
    (if decide (method = "mean") then
       Indicator.oi_transfer1 Indicator.mean_func metric
     else if decide (method = "amount_weighted") then
       Indicator.oi_transfer2 Indicator.weighted_func metric "deal_amount"
     else if decide (method = "value_weighted") then
       Indicator.oi_transfer2 Indicator.weighted_func metric "trade_value"
     else raise (ValueError ("method " +:+ method +:+ " is not supported!"))
     : M (Indicator.t F) F).
Proof.
  repeat case_decide; first [apply reader_transfer1 | apply reader_transfer2
                            | apply reader_raise].
Qed.

(* what a summary that was computed holds *)
Lemma cal_trade_indicators_inv (trade_start_time : Time) (freq : string)
    (config : Indicator.indicator_config) (s s' : Indicator.t F) :
  Indicator.cal_trade_indicators trade_start_time freq config s = (Ok tt, s') →
  Indicator.order_indicator s' = Indicator.order_indicator s ∧
  ∃ deal_amount amount,
    Indicator.order_indicator s !! "deal_amount" = Some deal_amount ∧
    Indicator.order_indicator s !! "amount" = Some amount ∧
    OrderedDict.lookup "deal_amount" (Indicator.trade_indicator s')
    = Some (Series.sum (Series.abs deal_amount)) ∧
    OrderedDict.lookup "count" (Indicator.trade_indicator s')
    = Some (of_Z (Series.count amount)).
Proof.
  unfold Indicator.cal_trade_indicators. intros Hs.
  apply run_bind_inv in Hs as (fr & s1 & H1 & Hs).
  apply reader_cal_weighted in H1 as ->.
  apply run_bind_inv in Hs as (par & s1 & H1 & Hs).
  apply reader_cal_weighted in H1 as ->.
  apply run_bind_inv in Hs as (pos & s1 & H1 & Hs).
  apply reader_transfer1 in H1 as ->.
  apply run_bind_inv in Hs as (da & s1 & H1 & Hs).
  apply oi_transfer1_inv in H1 as (-> & deal_amount & Hd & ->).
  apply run_bind_inv in Hs as (tv & s1 & H1 & Hs).
  apply reader_transfer1 in H1 as ->.
  apply run_bind_inv in Hs as (oc & s1 & H1 & Hs).
  apply oi_transfer1_inv in H1 as (-> & amount & Ha & ->).
  injection Hs as <-. simpl. split; [done|].
  exists deal_amount, amount. repeat split; try done.
  - rewrite !(lookup_set_ne "deal_amount") by done. by rewrite lookup_set_eq.
  - by rewrite lookup_set_eq.
Qed.
End keeps.

Section empty_outer.
Context {F : Type} `{Num F}.

Lemma _update_trade_amount_empty (outer : Indicator.BaseTradeDecision F)
    (self : Indicator.t F) :
  Indicator.get_decision outer = [] →
  Indicator._update_trade_amount outer self
  = (Ok tt, Indicator.set_order_indicator
              (<["amount" := ∅]> (Indicator.order_indicator self)) self).
Proof. intros Ho. unfold Indicator._update_trade_amount. by rewrite Ho. Qed.

Lemma _agg_base_price_skip inner decision_list trade_exchange pa_config
    (self : Indicator.t F) :
  OrderIndicator.get_metric_series (Indicator.order_indicator self) "trade_dir" = ∅ →
  Indicator._agg_base_price inner decision_list trade_exchange pa_config self
  = (Ok tt, self).
Proof.
  intros Hd. unfold Indicator._agg_base_price. unfold_monad. by rewrite Hd.
Qed.

Lemma _agg_order_price_advantage_empty (self : Indicator.t F) :
  Indicator.order_indicator self !! "trade_price" = Some ∅ →
  Indicator._agg_order_price_advantage self
  = (Ok tt, Indicator.set_order_indicator
              (<["pa" := ∅]> (Indicator.order_indicator self)) self).
Proof.
  intros Hp. unfold Indicator._agg_order_price_advantage.
  erewrite run_bind; [|by apply oi_transfer1_run]. reflexivity.
Qed.

Lemma agg_order_indicators_amount inner decision_list outer trade_exchange config
    (self self' : Indicator.t F) inner' :
  Indicator.get_decision outer = [] →
  Indicator.agg_order_indicators inner decision_list outer trade_exchange config self
  = (Ok inner', self') →
  Indicator.order_indicator self' !! "amount" = Some ∅.
Proof.
  intros Ho. unfold Indicator.agg_order_indicators. intros Hs.
  apply run_bind_inv in Hs as (inner1 & s1 & _ & Hs).
  apply run_bind_inv in Hs as ([] & s2 & H2 & Hs).
  rewrite _update_trade_amount_empty in H2 by done. injection H2 as <-.
  assert (Hk : keeps_column "amount"
    (Indicator._update_order_fulfill_rate;;
     Indicator._agg_base_price inner1 decision_list trade_exchange
       (default ∅ (Indicator.pa_config config));;
     Indicator._agg_order_price_advantage;; mret inner1)).
  { apply keeps_bind; [by apply keeps_fulfill_rate|]. intros _.
    apply keeps_bind; [by apply keeps_base_price|]. intros _.
    apply keeps_bind; [by apply keeps_price_advantage|]. intros _.
    apply keeps_ret. }
  rewrite (Hk _ _ _ Hs). simpl. by rewrite lookup_insert_eq.
Qed.

Lemma agg_order_indicators_no_instruments inner decision_list outer
    trade_exchange config (self : Indicator.t F) :
  Indicator.get_decision outer = [] → Forall no_instruments inner →
  ∃ self',
    Indicator.agg_order_indicators inner decision_list outer trade_exchange
      config self = (Ok (notional <$> inner), self') ∧
    Forall (λ col, Indicator.order_indicator self' !! col = Some ∅)
      ["ffr"; "pa"; "deal_amount"; "trade_value"; "amount"].
Proof.
  intros Ho Hin.
  assert (Hsum : ∀ metric, metric ∈ Indicator.all_metric →
            summed (notional <$> inner) metric = ∅)
    by (intros; by apply summed_no_instruments).
  destruct (lookup_agg_table (notional <$> inner) (Indicator.order_indicator self))
    as (Hd & Hv & Hp & Hr).
  rewrite (Hsum "deal_amount") in Hd, Hp by in_list.
  rewrite (Hsum "trade_value") in Hv by in_list.
  rewrite (Hsum "trade_price") in Hp by in_list.
  rewrite (Hsum "trade_dir") in Hr by in_list.
  unfold Indicator.trade_price_func, Series.div, Series.replace in Hp.
  rewrite fmap_empty, binop_empty in Hp.
  unfold Indicator.func_apply, Series.apply in Hr. rewrite fmap_empty in Hr.
  set (T := agg_table (notional <$> inner) (Indicator.order_indicator self)) in *.
  unfold Indicator.agg_order_indicators.
  erewrite run_bind; last first.
  { apply _agg_order_trade_info_ok. eapply Forall_impl; [exact Hin|].
    apply no_instruments_columns. }
  fold T.
  erewrite run_bind; [|by apply _update_trade_amount_empty].
  erewrite run_bind; last first.
  { unfold Indicator._update_order_fulfill_rate.
    erewrite run_bind; last first.
    { apply oi_transfer2_run; simpl.
      - rewrite lookup_insert_ne by done. exact Hd.
      - by rewrite lookup_insert_eq. }
    apply oi_assign_run. }
  erewrite run_bind; last first.
  { apply _agg_base_price_skip. unfold OrderIndicator.get_metric_series. simpl.
    rewrite !lookup_insert_ne by done. by rewrite Hr. }
  erewrite run_bind; last first.
  { apply _agg_order_price_advantage_empty. simpl.
    rewrite !lookup_insert_ne by done. exact Hp. }
  eexists. split; [reflexivity|]. simpl.
  unfold Indicator.ffr_func, Series.div, Series.replace_nan.
  rewrite fmap_empty, binop_empty.
  repeat apply Forall_cons_2; try apply Forall_nil_2.
  - rewrite lookup_insert_ne by done. by rewrite lookup_insert_eq.
  - by rewrite lookup_insert_eq.
  - by rewrite !lookup_insert_ne by done.
  - by rewrite !lookup_insert_ne by done.
  - rewrite !lookup_insert_ne by done. by rewrite lookup_insert_eq.
Qed.
End empty_outer.

(** C6, as the code has it: when the outer decision has no order, the
    amount column is assigned the empty column, and the summary of a step
    that completes has count 0; when in addition the inner tables list no
    instrument, the step completes, pa is assigned the empty column (it is
    not computed) and the summary has deal_amount 0. *)
Theorem empty_outer_decision {F : Type} `{Num F}
    (inner : list (gmap string (gmap string F)))
    (decision_list : list (Indicator.BaseTradeDecision F * Time * Time))
    (outer : Indicator.BaseTradeDecision F)
    (trade_exchange : Indicator.Exchange F) (config : Indicator.indicator_config)
    (trade_start_time : Time) (freq : string) (self : Indicator.t F) :
  Indicator.get_decision outer = [] →
  Indicator._update_trade_amount outer self
  = (Ok tt, Indicator.set_order_indicator
              (<["amount" := ∅]> (Indicator.order_indicator self)) self) ∧
  (∀ self',
     step inner decision_list outer trade_exchange config trade_start_time
       freq self = (Ok tt, self') →
     Indicator.order_indicator self' !! "amount" = Some ∅ ∧
     OrderedDict.lookup "count" (Indicator.trade_indicator self')
     = Some (of_Z 0)) ∧
  (Forall no_instruments inner →
   supported_method (weight_method (Indicator.ffr_config config)) →
   supported_method (weight_method (Indicator.pa_config config)) →
   ∃ self',
     step inner decision_list outer trade_exchange config trade_start_time
       freq self = (Ok tt, self') ∧
     Indicator.order_indicator self' !! "pa" = Some ∅ ∧
     OrderedDict.lookup "deal_amount" (Indicator.trade_indicator self')
     = Some (of_Z 0)).
Proof.
  intros Ho. split; [by apply _update_trade_amount_empty|]. split.
  - intros self' Hs. unfold step in Hs.
    apply run_bind_inv in Hs as (inner' & s1 & Hagg & Hcal).
    apply agg_order_indicators_amount in Hagg; [|done].
    apply cal_trade_indicators_inv in Hcal
      as (Heq & deal_amount & amount & _ & Ha & _ & Hcount).
    rewrite Heq. split; [done|].
    rewrite Hagg in Ha. injection Ha as <-.
    by rewrite Hcount, count_empty.
  - intros Hin Hf Hp.
    destruct (agg_order_indicators_no_instruments inner decision_list outer
                trade_exchange config self Ho Hin) as (s1 & Hagg & Hcols).
    rewrite !Forall_cons in Hcols.
    destruct Hcols as (Hffr & Hpa & Hd & Hv & Ha & _).
    destruct (cal_trade_indicators_run trade_start_time freq config s1
                _ _ _ _ _ Hf Hp Hffr Hpa Hd Hv Ha)
      as (self' & Hcal & Heq & Hda & _).
    exists self'. unfold step. erewrite run_bind; [|exact Hagg].
    split; [done|]. rewrite Heq. split; [done|].
    rewrite Hda. unfold Series.abs. by rewrite fmap_empty, sum_empty.
Qed.

Lemma empty_outer_decision_witness :
  (Indicator.get_decision no_range = [] ∧ Forall no_instruments [idle_inner] ∧
   supported_method (weight_method (Indicator.ffr_config default_config)) ∧
   supported_method (weight_method (Indicator.pa_config default_config))) ∧
  ∃ self',
    step [idle_inner] [(no_range, 0, 10)] no_range
      (exchange_of Indicator.NoPrice) default_config 0 "day" Indicator.__init__
    = (Ok tt, self') ∧
    Indicator.order_indicator self' !! "pa" = Some ∅ ∧
    OrderedDict.lookup "deal_amount" (Indicator.trade_indicator self')
    = Some (of_Z 0).
Proof.
  assert (Hin : Forall no_instruments [idle_inner]).
  { apply Forall_cons_2; [|apply Forall_nil_2].
    unfold no_instruments, Indicator.all_metric.
    repeat apply Forall_cons_2; try apply Forall_nil_2; vm_compute; reflexivity. }
  assert (Hm : supported_method (weight_method None)) by (left; reflexivity).
  split; [repeat split; done|].
  apply (empty_outer_decision [idle_inner] [(no_range, 0, 10)] no_range
           (exchange_of Indicator.NoPrice) default_config 0 "day"
           Indicator.__init__ eq_refl); done.
Defined.

(** C6, as it is stated, fails: with an outer decision without orders and an
    inner table that dealt 5 of an instrument, the step completes, pa is
    computed (0.25 for the instrument) and the summary has deal_amount 5. *)
Lemma empty_outer_decision_inner_trades :
  Indicator.get_decision no_range = [] ∧
  (step [traded_inner] [(no_range, 0, 10)] no_range
     (exchange_of Indicator.NoPrice) default_config 0 "day"
     Indicator.__init__).1 = Ok tt ∧
  cell (step [traded_inner] [(no_range, 0, 10)] no_range
          (exchange_of Indicator.NoPrice) default_config 0 "day"
          Indicator.__init__).2 "pa" "A" = Some 0.25%float ∧
  OrderedDict.lookup "deal_amount"
    (Indicator.trade_indicator
       (step [traded_inner] [(no_range, 0, 10)] no_range
          (exchange_of Indicator.NoPrice) default_config 0 "day"
          Indicator.__init__).2) = Some 5%float.
Proof. repeat split; vm_compute; reflexivity. Qed.

(** ** The average price of the aggregated trades *)

Section exact_arith.


End exact_arith.

Section filled.
Context {F : Type} `{Num F}.



End filled.





(** ** The weighting policies of the summary *)

Section exact_sums.

Lemma exact_add_swap (acc a b : exact) :
  (acc + a + b)%num = (acc + b + a)%num.
Proof.
  destruct acc as [|x], a as [|y], b as [|z]; simpl; try done.
  f_equal. ring.
Qed.

Lemma sum_insert (i : string) (x : exact) (s : gmap string exact) :
  s !! i = None →
  Series.sum (<[i := x]> s) = (Series.sum s + Series.nan_to_zero x)%num.
Proof.
  intros Hi. unfold Series.sum. rewrite map_fold_insert_L; [done| |done].
  intros. apply exact_add_swap.
Qed.

Lemma count_insert (i : string) (x : exact) (s : gmap string exact) :
  s !! i = None → x ≠ XNaN →
  Series.count (<[i := x]> s) = Series.count s + 1.
Proof.
  intros Hi Hx. unfold Series.count. rewrite map_fold_insert_L; [|intros|done].
  - by destruct x.
  - destruct z1, z2; simpl; lia.
Qed.

Lemma of_Z_succ (z : Z) (n : Qc) :
  of_Z z = XVal n → of_Z (z + 1) = XVal (Qcplus n (Q2Qc 1)).
Proof.
  simpl. intros [= <-]. f_equal. apply Q2Qc_eq_iff.
  rewrite inject_Z_plus. simpl. by rewrite !Qred_correct.
Qed.

(* the three sums of the two policies, over the instruments of pa *)
Lemma sums_of_known (c : Qc) (pa : gmap string exact) :
  all_known pa →
  ∃ t n : Qc,
    Series.sum pa = XVal t ∧
    of_Z (Series.count pa) = XVal n ∧
    Series.sum ((λ x, x * XVal c)%num <$> pa) = XVal (Qcmult t c) ∧
    Series.sum ((λ _, XVal c) <$> pa) = XVal (Qcmult n c).
Proof.
  induction pa as [|i x pa Hi IH] using map_ind; intros Hk.
  - exists (Q2Qc 0), (Q2Qc 0). rewrite !fmap_empty.
    unfold Series.sum, Series.count. rewrite !map_fold_empty.
    repeat split; simpl; f_equal; change (inject_Z 0) with 0%Q; ring.
  - apply map_Forall_insert in Hk as [Hx Hk]; [|done].
    destruct (IH Hk) as (t & n & Ht & Hn & Hs & Hw).
    destruct x as [|q]; [done|].
    exists (Qcplus t q), (Qcplus n (Q2Qc 1)).
    rewrite !fmap_insert, !sum_insert, count_insert
      by first [done | by rewrite ?lookup_fmap, Hi].
    rewrite Ht, Hs, Hw. split; [done|]. split; [by apply of_Z_succ|].
    split; simpl; f_equal; ring.
Qed.
End exact_sums.

Section weighting.

Lemma mul_by_size (c : Qc) (pa deal_amount : gmap string exact) :
  same_instruments pa deal_amount → all_of_size c deal_amount →
  Series.mul pa (Series.abs deal_amount) = (λ x, x * XVal c)%num <$> pa ∧
  Series.abs deal_amount = (λ _, XVal c) <$> pa.
Proof.
  intros Hsame Hsize.
  assert (Hd : ∀ i, Series.abs deal_amount !! i = (λ _, XVal c) <$> pa !! i).
  { intros i. unfold Series.abs. rewrite lookup_fmap.
    destruct (Hsame i) as [H1 H2].
    destruct (pa !! i) as [x|] eqn:Hx, (deal_amount !! i) as [y|] eqn:Hy; simpl.
    - destruct (Hsize i y Hy) as (q & -> & <-). done.
    - by destruct H1 as [? [=]].
    - by destruct H2 as [? [=]].
    - done. }
  split; apply map_eq; intros i.
  - unfold Series.mul. rewrite lookup_binop, Hd, lookup_fmap.
    by destruct (pa !! i).
  - by rewrite Hd, lookup_fmap.
Qed.

Lemma mean_is_weighted (c : Qc) (pa deal_amount : gmap string exact) :
  same_instruments pa deal_amount → all_known pa →
  all_of_size c deal_amount → c ≠ Q2Qc 0 →
  Indicator.weighted_func pa deal_amount = Indicator.mean_func pa.
Proof.
  intros Hsame Hk Hsize Hc.
  destruct (mul_by_size c pa deal_amount Hsame Hsize) as [Hmul Habs].
  destruct (sums_of_known c pa Hk) as (t & n & Ht & Hn & Hs & Hw).
  unfold Indicator.weighted_func, Indicator.mean_func, Series.mean.
  rewrite Hmul, Habs, Hs, Hw, Ht, Hn.
  destruct (decide (n = Q2Qc 0)) as [->|Hn0].
  - replace (Qcmult (Q2Qc 0) c) with (Q2Qc 0) by ring.
    by rewrite !exact_div_zero.
  - rewrite !exact_div_val; [|done|].
    + f_equal. field. by split.
    + intros Hz. by destruct (Qcmult_integral _ _ Hz).
Qed.
End weighting.

(** C8, as the code has it: in exact arithmetic, when every instrument has
    a pa value and all instruments have a deal_amount of the same non-zero
    size, the mean policy and the amount_weighted policy return the same
    price advantage.  In binary64, pa 0.1 and 0.3 with the deal_amounts 5
    and -5 give 0.2 under both policies; the agreement is one of exact
    arithmetic only: with deal_amounts of the size 5e-324 the products
    pa × |deal_amount| round to 0, and the policies give 0.2 and 0. *)
Theorem mean_and_amount_weighted_agree :
  (∀ (self : Indicator.t exact) (pa deal_amount : gmap string exact) (c : Qc),
     Indicator.order_indicator self !! "pa" = Some pa →
     Indicator.order_indicator self !! "deal_amount" = Some deal_amount →
     same_instruments pa deal_amount → all_known pa →
     all_of_size c deal_amount → c ≠ Q2Qc 0 →
     Indicator._cal_trade_price_advantage "mean" self
       = (Ok (Series.mean pa), self) ∧
     Indicator._cal_trade_price_advantage "amount_weighted" self
       = (Ok (Series.mean pa), self)) ∧
  (returned (Indicator._cal_trade_price_advantage "mean" two_advantages)
     = Some 0.2%float ∧
   returned (Indicator._cal_trade_price_advantage "amount_weighted" two_advantages)
     = Some 0.2%float) ∧
  (returned (Indicator._cal_trade_price_advantage "mean" tiny_deal_amounts)
     = Some 0.2%float ∧
   returned (Indicator._cal_trade_price_advantage "amount_weighted"
               tiny_deal_amounts)
     = Some 0%float).
Proof.
  split; [|repeat split; vm_compute; reflexivity].
  intros self pa deal_amount c Hpa Hd Hsame Hk Hsize Hc.
  unfold Indicator._cal_trade_price_advantage. split.
  - rewrite decide_True by done. by rewrite (oi_transfer1_run _ _ _ pa Hpa).
  - rewrite decide_False by done. rewrite decide_True by done.
    rewrite (oi_transfer2_run _ _ _ _ pa deal_amount Hpa Hd).
    by rewrite (mean_is_weighted c).
Qed.

Lemma mean_and_amount_weighted_agree_witness :
  let pa : gmap string exact :=
    list_to_map [("A", XVal (Q2Qc (1 # 10))); ("B", XVal (Q2Qc (3 # 10)))] in
  let deal_amount : gmap string exact :=
    list_to_map [("A", XVal (Q2Qc 5)); ("B", XVal (Q2Qc (-5)))] in
  (Indicator.order_indicator two_exact_advantages !! "pa" = Some pa ∧
   Indicator.order_indicator two_exact_advantages !! "deal_amount"
     = Some deal_amount ∧
   same_instruments pa deal_amount ∧ all_known pa ∧
   all_of_size (Q2Qc 5) deal_amount ∧ Q2Qc 5 ≠ Q2Qc 0) ∧
  (Indicator._cal_trade_price_advantage "mean" two_exact_advantages
     = (Ok (Series.mean pa), two_exact_advantages) ∧
   Indicator._cal_trade_price_advantage "amount_weighted" two_exact_advantages
     = (Ok (Series.mean pa), two_exact_advantages)) ∧
  exact_value (Series.mean pa) = Some (1 # 5)%Q.
Proof.
  intros pa deal_amount.
  assert (Hpa : Indicator.order_indicator two_exact_advantages !! "pa" = Some pa)
    by (vm_compute; reflexivity).
  assert (Hd : Indicator.order_indicator two_exact_advantages !! "deal_amount"
               = Some deal_amount) by (vm_compute; reflexivity).
  assert (Hsame : same_instruments pa deal_amount).
  { intros i. subst pa deal_amount. simpl.
    destruct (decide (i = "A")) as [->|HA]; [by split; eexists|].
    destruct (decide (i = "B")) as [->|HB]; [by split; eexists|].
    rewrite !lookup_insert_ne, !lookup_empty by done. done. }
  assert (Hk : all_known pa).
  { subst pa. simpl. repeat apply map_Forall_insert_2; [done..|].
    apply map_Forall_empty. }
  assert (Hsize : all_of_size (Q2Qc 5) deal_amount).
  { subst deal_amount. simpl. repeat apply map_Forall_insert_2.
    - exists (Q2Qc 5). split; [done|]. apply Qc_is_canon. reflexivity.
    - exists (Q2Qc (-5)). split; [done|]. apply Qc_is_canon. reflexivity.
    - apply map_Forall_empty. }
  assert (Hc : Q2Qc 5 ≠ Q2Qc 0).
  { intros Heq. apply (f_equal this) in Heq. vm_compute in Heq. discriminate Heq. }
  split; [done|]. split; [|vm_compute; reflexivity].
  apply (proj1 mean_and_amount_weighted_agree two_exact_advantages pa
           deal_amount (Q2Qc 5) Hpa Hd Hsame Hk Hsize Hc).
Defined.

(** C8, as it is stated, fails: with deal_amount 1 for both instruments and
    no pa value for one of them, the mean policy divides the sum of the
    advantages by the one instrument that has a value and gives 1/10, the
    amount_weighted policy divides it by both deal_amounts and gives 1/20
    (0.1 and 0.05 in binary64).  In binary64 the policies also differ when
    every instrument has a pa value: with the advantages 0.1 and 0.3 and
    deal_amounts of the same size 5e-324 they give 0.2 and 0. *)
Lemma mean_and_amount_weighted_differ :
  (exact_value <$> returned
     (Indicator._cal_trade_price_advantage "mean" one_advantage_missing)
     = Some (Some (1 # 10)%Q) ∧
   exact_value <$> returned
     (Indicator._cal_trade_price_advantage "amount_weighted" one_advantage_missing)
     = Some (Some (1 # 20)%Q)) ∧
  (returned (Indicator._cal_trade_price_advantage "mean" one_advantage_missing64)
     = Some 0.1%float ∧
   returned
     (Indicator._cal_trade_price_advantage "amount_weighted" one_advantage_missing64)
     = Some 0.05%float) ∧
  (returned (Indicator._cal_trade_price_advantage "mean" tiny_deal_amounts)
     = Some 0.2%float ∧
   returned
     (Indicator._cal_trade_price_advantage "amount_weighted" tiny_deal_amounts)
     = Some 0%float).
Proof. repeat split; vm_compute; reflexivity. Qed.

(** ** The Report: records, export and load *)

Section ordered_dict_keys.
Context {K V : Type} `{EqDecision K}.

Lemma keys_set (k : K) (v : V) (d : list (K * V)) :
  (OrderedDict.set k v d).*1 = if decide (k ∈ d.*1) then d.*1 else d.*1 ++ [k].
Proof.
  induction d as [|[k' v'] d IH]; csimpl; [done|].
  destruct (decide (k' = k)) as [->|Hne]; csimpl.
  - rewrite decide_True; [done|left].
  - rewrite IH. destruct (decide (k ∈ d.*1)) as [Hin|Hin].
    + rewrite decide_True; [done|by right].
    + rewrite decide_False; [done|]. rewrite elem_of_cons.
      intros [?|?]; [congruence|done].
Qed.

Lemma keys_set_NoDup (k : K) (v : V) (d : list (K * V)) :
  NoDup d.*1 → NoDup (OrderedDict.set k v d).*1.
Proof.
  intros Hd. rewrite keys_set. case_decide; [done|].
  apply NoDup_app. split; [done|]. split; [|apply NoDup_singleton].
  intros x Hx ->%list_elem_of_singleton. done.
Qed.

Lemma lookup_notin (k : K) (d : list (K * V)) :
  k ∉ d.*1 → OrderedDict.lookup k d = None.
Proof.
  induction d as [|[k' v'] d IH]; simpl; [done|].
  intros Hk. apply not_elem_of_cons in Hk as [Hne Hk].
  rewrite decide_False by done. by apply IH.
Qed.

Lemma lookup_in (k : K) (d : list (K * V)) :
  k ∈ d.*1 → is_Some (OrderedDict.lookup k d).
Proof.
  induction d as [|[k' v'] d IH]; simpl; [by intros ?%elem_of_nil|].
  intros Hk. destruct (decide (k' = k)); [eauto|].
  apply IH. apply elem_of_cons in Hk as [|]; [congruence|done].
Qed.
End ordered_dict_keys.

Section report_record.
Context {F : Type} `{Num F}.
Variable resam_ts_data : list (Time * F) → Time → Time → (list F → F) → option F.

Lemma update_report_record_given t te av c rr tt tr tc cr sv b (self : Report.t F) :
  Report.update_report_record resam_ts_data
    (complete_args t te av c rr tt tr tc cr sv (Some b)) self
  = (Ok (), with_record t av c rr tt tr tc cr sv (Some b) self).
Proof. by destruct te. Qed.

Lemma update_report_record_sampled t e av c rr tt tr tc cr sv (self : Report.t F) :
  Report.update_report_record resam_ts_data
    (complete_args t (Some e) av c rr tt tr tc cr sv None) self
  = (Ok (),
     with_record t av c rr tt tr tc cr sv
       (match Report.bench self with
        | None => None
        | Some b =>
            match resam_ts_data b t e Report.cal_change with
            | None => Some (of_Z 0)
            | Some ret => Some (ret - of_Z 1)%num
            end
        end) self).
Proof.
  unfold Report.update_report_record, complete_args. simpl.
  unfold Report._sample_benchmark. unfold_monad.
  destruct (Report.bench self) as [b|]; [|done].
  by destruct (resam_ts_data b t e Report.cal_change).
Qed.

Lemma series_of_set (k : Time) (v : F) (d : list (Time * F)) :
  Report.series_of (OrderedDict.set k v d)
  = OrderedDict.set k (Some v) (Report.series_of d).
Proof.
  unfold Report.series_of. induction d as [|[k' v'] d IH]; csimpl; [done|].
  destruct (decide (k' = k)); csimpl; [done|]. by rewrite IH.
Qed.

Lemma report_columns_with_record t av c rr tt tr tc cr sv bv (self : Report.t F) :
  Report.report_columns (with_record t av c rr tt tr tc cr sv bv self)
  = zip_with (λ col v, (col.1, OrderedDict.set t v col.2))
      (Report.report_columns self)
      [Some av; Some rr; Some tt; Some tr; Some tc; Some cr; Some sv; Some c; bv].
Proof.
  unfold Report.report_columns, with_record. simpl.
  by rewrite !series_of_set.
Qed.

(* a call either raises and leaves the Report as it is, or makes the nine
   assignments *)
Lemma update_report_record_cases (a : Report.record_args F) (self : Report.t F) :
  (∃ e, Report.update_report_record resam_ts_data a self = (Raise e, self)) ∨
  (∃ t av c rr tt tr tc cr sv bv,
     Report.trade_start_time a = Some t ∧
     Report.update_report_record resam_ts_data a self
     = (Ok (), with_record t av c rr tt tr tc cr sv bv self)).
Proof.
  destruct a as [t te av c rr tt tr tc cr sv b].
  destruct t as [t|]; [|by left; eexists].
  destruct av as [av|]; [|by left; eexists].
  destruct c as [c|]; [|by left; eexists].
  destruct rr as [rr|]; [|by left; eexists].
  destruct tt as [tt|]; [|by left; eexists].
  destruct tr as [tr|]; [|by left; eexists].
  destruct tc as [tc|]; [|by left; eexists].
  destruct cr as [cr|]; [|by left; eexists].
  destruct sv as [sv|]; [|by left; eexists].
  destruct b as [b|].
  - right. exists t. do 9 eexists. split; [done|].
    apply (update_report_record_given t te).
  - destruct te as [e|]; [|by left; eexists].
    right. exists t. do 9 eexists. split; [done|].
    apply (update_report_record_sampled t e).
Qed.
End report_record.

(** X1: a call of update_report_record that gives every required value and
    a bench value returns, and then each of the nine histories holds the
    given value at the start time, the latest report time is the start time,
    the three get_latest accessors return the account value, the total cost
    and the total turnover of the call, and the Report is not empty. *)
Theorem update_report_record_recorded {F : Type} `{Num F}
    (resam_ts_data : list (Time * F) → Time → Time → (list F → F) → option F)
    (t : Time) (te : option Time) (av c rr tt tr tc cr sv b : F)
    (self : Report.t F) :
  ∃ self',
    Report.update_report_record resam_ts_data
      (complete_args t te av c rr tt tr tc cr sv (Some b)) self = (Ok (), self') ∧
    Forall2 (λ col v, OrderedDict.lookup t col.2 = Some v)
      (Report.report_columns self')
      [Some av; Some rr; Some tt; Some tr; Some tc; Some cr; Some sv; Some c;
       Some b] ∧
    Report.get_latest_date self' = Some t ∧
    Report.get_latest_account_value self' = Ok av ∧
    Report.get_latest_total_cost self' = Ok tc ∧
    Report.get_latest_total_turnover self' = Ok tt ∧
    Report.is_empty self' = false.
Proof.
  eexists. split; [apply update_report_record_given|].
  split.
  { rewrite report_columns_with_record. unfold Report.report_columns. simpl.
    repeat apply Forall2_cons_2; try apply Forall2_nil_2; simpl;
      apply lookup_set_eq. }
  unfold Report.get_latest_account_value, Report.get_latest_total_cost,
    Report.get_latest_total_turnover, Report.latest_of, Report.get_latest_date,
    Report.is_empty.
  simpl. rewrite !lookup_set_eq. repeat split.
  apply bool_decide_eq_false. by destruct (Report.accounts self) as [|[??]?]; simpl;
    [|case_decide].
Qed.

Section report_frame.
Context {F : Type} `{Num F}.
Variable resam_ts_data : list (Time * F) → Time → Time → (list F → F) → option F.

Lemma update_report_record_ok_inv t te av c rr tt tr tc cr sv ob
    (self self' : Report.t F) :
  Report.update_report_record resam_ts_data
    (complete_args t te av c rr tt tr tc cr sv ob) self = (Ok (), self') →
  ∃ bv, self' = with_record t av c rr tt tr tc cr sv bv self.
Proof.
  destruct ob as [b|].
  - rewrite update_report_record_given. intros [= <-]. eauto.
  - destruct te as [e|]; [|done].
    rewrite update_report_record_sampled. intros [= <-]. eauto.
Qed.

Lemma with_record_aligned t av c rr tt tr tc cr sv bv (self : Report.t F) :
  aligned self → aligned (with_record t av c rr tt tr tc cr sv bv self).
Proof.
  intros [Hnd Hcols]. split.
  - simpl. by apply keys_set_NoDup.
  - rewrite report_columns_with_record.
    unfold Report.report_columns in *. simpl in *.
    rewrite !Forall_cons in Hcols. destruct Hcols as (?&?&?&?&?&?&?&?&?&_).
    simpl in *.
    repeat apply Forall_cons_2; try apply Forall_nil_2; simpl.
    all: rewrite ?keys_set.
    all: by repeat match goal with H : _.*1 = _ |- _ => rewrite H end.
Qed.

Lemma init_vars_aligned (self : Report.t F) : aligned (Report.init_vars self).
Proof.
  split; [apply NoDup_nil_2|].
  unfold Report.report_columns. simpl.
  repeat apply Forall_cons_2; try apply Forall_nil_2; done.
Qed.
End report_frame.

(** X2: a call of update_report_record that returns appends the start time
    to the histories when it is new and keeps the row of a start time that
    was recorded before; the entries of every other start time stay as they
    are in all nine histories. *)
Theorem update_report_record_other_times {F : Type} `{Num F}
    (resam_ts_data : list (Time * F) → Time → Time → (list F → F) → option F)
    (t : Time) (te : option Time) (av c rr tt tr tc cr sv : F) (ob : option F)
    (self self' : Report.t F) :
  Report.update_report_record resam_ts_data
    (complete_args t te av c rr tt tr tc cr sv ob) self = (Ok (), self') →
  (Report.accounts self').*1
  = (if decide (t ∈ (Report.accounts self).*1) then (Report.accounts self).*1
     else (Report.accounts self).*1 ++ [t]) ∧
  ∀ t', t' ≠ t →
    Forall2 (λ col col', col'.1 = col.1 ∧
               OrderedDict.lookup t' col'.2 = OrderedDict.lookup t' col.2)
      (Report.report_columns self) (Report.report_columns self').
Proof.
  intros Hrun. apply update_report_record_ok_inv in Hrun as [bv ->].
  split; [apply keys_set|]. intros t' Hne.
  rewrite report_columns_with_record. unfold Report.report_columns. simpl.
  repeat apply Forall2_cons_2; try apply Forall2_nil_2; simpl;
    (split; [done|]); by apply lookup_set_ne.
Qed.

Lemma update_report_record_other_times_witness :
  let a := complete_args 2 None 101%float 41%float 0.01%float 5%float
             0.05%float 1%float 0.01%float 60%float (Some 0%float) in
  let self' := with_record 2 101%float 41%float 0.01%float 5%float 0.05%float
                 1%float 0.01%float 60%float (Some 0%float) one_record in
  Report.update_report_record no_resam a one_record = (Ok (), self') ∧
  (Report.accounts self').*1 = [1; 2] ∧
  Forall2 (λ col col', col'.1 = col.1 ∧
             OrderedDict.lookup 1 col'.2 = OrderedDict.lookup 1 col.2)
    (Report.report_columns one_record) (Report.report_columns self').
Proof.
  intros a self'.
  assert (Hrun : Report.update_report_record no_resam a one_record = (Ok (), self'))
    by (vm_compute; reflexivity).
  split; [exact Hrun|].
  destruct (update_report_record_other_times no_resam 2 None _ _ _ _ _ _ _ _ _
              one_record self' Hrun) as [Hk Ho].
  split; [exact Hk|]. apply Ho. lia.
Defined.

(** X3: the nine histories of a Report always list the same start times in
    the same order, each once: this holds after init_vars, and a call of
    update_report_record, whether it returns or raises, keeps it. *)
Theorem report_histories_aligned {F : Type} `{Num F}
    (resam_ts_data : list (Time * F) → Time → Time → (list F → F) → option F)
    (a : Report.record_args F) (self self' : Report.t F) (r : Res ()) :
  aligned (Report.init_vars self) ∧
  (aligned self →
   Report.update_report_record resam_ts_data a self = (r, self') →
   aligned self').
Proof.
  split; [apply init_vars_aligned|].
  - intros Ha Hrun.
    destruct (update_report_record_cases resam_ts_data a self)
      as [[e He]|(t&av&c&rr&tt&tr&tc&cr&sv&bv&_&Hok)].
    + rewrite He in Hrun. by injection Hrun as _ <-.
    + rewrite Hok in Hrun. injection Hrun as _ <-. by apply with_record_aligned.
Qed.

Lemma report_histories_aligned_witness :
  let a := complete_args 1 None 101%float 41%float 0.01%float 5%float
             0.05%float 1%float 0.01%float 60%float (Some 0%float) in
  aligned one_record ∧
  aligned (Report.update_report_record no_resam a one_record).2.
Proof.
  intros a.
  assert (Ha : aligned one_record).
  { split; [simpl; compute_done|]. unfold Report.report_columns. simpl.
    repeat apply Forall_cons_2; try apply Forall_nil_2; reflexivity. }
  split; [exact Ha|].
  eapply (proj2 (report_histories_aligned no_resam a one_record _ _) Ha).
  vm_compute. reflexivity.
Defined.

(** X4: when a call of update_report_record gives an end time and no bench
    value, the bench recorded at the start time is None on a Report without
    benchmark, 0 when the benchmark has no data between the two times, and
    the change of the benchmark over them, less 1, otherwise. *)
Theorem update_report_record_bench_sampled {F : Type} `{Num F}
    (resam_ts_data : list (Time * F) → Time → Time → (list F → F) → option F)
    (t e : Time) (av c rr tt tr tc cr sv : F) (self : Report.t F) :
  ∃ self',
    Report.update_report_record resam_ts_data
      (complete_args t (Some e) av c rr tt tr tc cr sv None) self
    = (Ok (), self') ∧
    (Report.bench self = None →
     OrderedDict.lookup t (Report.benches self') = Some None) ∧
    (∀ b, Report.bench self = Some b →
       resam_ts_data b t e Report.cal_change = None →
       OrderedDict.lookup t (Report.benches self') = Some (Some (of_Z 0))) ∧
    (∀ b ret, Report.bench self = Some b →
       resam_ts_data b t e Report.cal_change = Some ret →
       OrderedDict.lookup t (Report.benches self')
       = Some (Some (ret - of_Z 1)%num)).
Proof.
  eexists. split; [apply update_report_record_sampled|]. simpl.
  rewrite lookup_set_eq. repeat split.
  - by intros ->.
  - by intros b -> ->.
  - by intros b ret -> ->.
Qed.

Section report_export.
Context {F : Type} `{Num F}.
Variable resam_ts_data : list (Time * F) → Time → Time → (list F → F) → option F.

Lemma keys_series_of (d : list (Time * F)) : (Report.series_of d).*1 = d.*1.
Proof.
  unfold Report.series_of. rewrite <- list_fmap_compose.
  by apply list_fmap_ext.
Qed.

Lemma filter_all_empty {A B : Type} (cols : list (A * list B)) :
  Forall (λ c, c.2 = []) cols → filter (λ c, c.2 ≠ []) cols = [].
Proof.
  induction 1 as [|c cols Hc _ IH]; [done|].
  by rewrite filter_cons_False by (by intros []).
Qed.

Lemma keys_bench_series (d : list (Time * option F)) :
  (Report.bench_series d).*1 = d.*1.
Proof.
  unfold Report.bench_series. destruct (Report.all_none d); [done|].
  rewrite <- list_fmap_compose. by apply list_fmap_ext.
Qed.

Lemma lookup_bench_series (k : Time) (d : list (Time * option F)) :
  OrderedDict.lookup k (Report.bench_series d)
  = bench_cell d <$> OrderedDict.lookup k d.
Proof.
  unfold Report.bench_series, bench_cell.
  destruct (Report.all_none d) eqn:Hall.
  - revert Hall. unfold Report.all_none.
    induction d as [|[k' b] d IH]; [done|]. simpl.
    intros [Hb Hd]%andb_prop. destruct b as [x|]; [done|].
    destruct (decide (k' = k)); [done|]. by apply IH.
  - clear Hall. induction d as [|[k' b] d IH]; [done|]. csimpl.
    destruct (decide (k' = k)); [by destruct b|]. apply IH.
Qed.

Lemma bench_series_numeric (d : list (Time * option F)) :
  Forall (λ kv, is_Some kv.2) d → Report.bench_series d = d.
Proof.
  intros Hd. unfold Report.bench_series. destruct (Report.all_none d); [done|].
  induction Hd as [|[k b] d [x Hx] _ IH]; [done|].
  simpl in Hx. subst b. csimpl. by rewrite IH.
Qed.

Lemma frame_columns_numeric (self : Report.t F) :
  numeric_benches self → Report.frame_columns self = Report.report_columns self.
Proof.
  intros Hn. unfold Report.frame_columns, Report.report_columns.
  by rewrite bench_series_numeric.
Qed.

Lemma frame_columns_keys (self : Report.t F) :
  aligned self →
  Forall (λ c, c.2.*1 = (Report.accounts self).*1) (Report.frame_columns self).
Proof.
  intros [_ Hcols]. unfold Report.report_columns in Hcols.
  rewrite !Forall_cons in Hcols. destruct Hcols as (?&?&?&?&?&?&?&?&Hb&_).
  unfold Report.frame_columns. repeat apply Forall_cons_2; try done.
  simpl in *. by rewrite keys_bench_series.
Qed.

Lemma frame_index_aligned (self : Report.t F) :
  aligned self →
  Report.frame_index (Report.frame_columns self) = (Report.accounts self).*1.
Proof.
  intros Ha. pose proof (frame_columns_keys self Ha) as Hcols.
  unfold Report.frame_index.
  destruct (Report.accounts self) as [|kv d] eqn:Hacc.
  - rewrite filter_all_empty; [done|].
    eapply Forall_impl; [exact Hcols|]. intros [name col] Hk. simpl in *.
    by destruct col.
  - unfold Report.frame_columns. rewrite Hacc.
    rewrite filter_cons_True by done. simpl. by rewrite keys_series_of.
Qed.

(* the cells of the row of a start time *)
Lemma generate_lookup (self : Report.t F) (k : Time) :
  aligned self → k ∈ (Report.accounts self).*1 →
  ∃ row,
    OrderedDict.lookup k (Report.generate_report_dataframe self) = Some row ∧
    Forall2 (λ col cell, cell.1 = col.1 ∧
               OrderedDict.lookup k col.2 = Some cell.2)
      (Report.frame_columns self) row.
Proof.
  intros Ha Hk. unfold Report.generate_report_dataframe.
  rewrite frame_index_aligned by done.
  exists ((λ c, (c.1, default (Some NaN) (OrderedDict.lookup k c.2)))
            <$> Report.frame_columns self).
  split.
  - induction (Report.accounts self).*1 as [|k' l IH]; [by apply elem_of_nil in Hk|].
    csimpl. destruct (decide (k' = k)) as [->|Hne]; [done|].
    apply IH. apply elem_of_cons in Hk as [|]; [congruence|done].
  - apply Forall2_fmap_r, Forall_Forall2_diag.
    eapply Forall_impl; [exact (frame_columns_keys self Ha)|].
    intros [name col] Hkeys. simpl in *. split; [done|].
    destruct (lookup_in k col) as [v ->]; [by rewrite Hkeys|done].
Qed.

Lemma with_record_numeric t av c rr tt tr tc cr sv b (self : Report.t F) :
  numeric_benches self →
  numeric_benches (with_record t av c rr tt tr tc cr sv (Some b) self).
Proof.
  unfold numeric_benches. simpl.
  induction (Report.benches self) as [|[k x] d IH]; simpl.
  - intros _. by repeat constructor.
  - intros [Hx Hd]%Forall_cons. destruct (decide (k = t)).
    + constructor; [by eexists|done].
    + constructor; [done|by apply IH].
Qed.

(* recording a new start time appends one row *)
Lemma generate_with_record_fresh t av c rr tt tr tc cr sv b (self : Report.t F) :
  aligned self → numeric_benches self → t ∉ (Report.accounts self).*1 →
  Report.generate_report_dataframe
    (with_record t av c rr tt tr tc cr sv (Some b) self)
  = Report.generate_report_dataframe self
    ++ [(t, report_row av rr tt tr tc cr sv c b)].
Proof.
  intros Ha Hn Ht. unfold Report.generate_report_dataframe.
  rewrite !frame_index_aligned by (done || by apply with_record_aligned).
  rewrite !frame_columns_numeric by (done || by apply with_record_numeric).
  rewrite report_columns_with_record.
  change (Report.accounts (with_record t av c rr tt tr tc cr sv (Some b) self))
    with (OrderedDict.set t av (Report.accounts self)).
  rewrite keys_set, decide_False by done.
  rewrite fmap_app. f_equal.
  - apply Forall_fmap_ext_1, Forall_forall. intros k Hk.
    assert (k ≠ t) by (by intros ->). f_equal.
    unfold Report.report_columns. simpl.
    by rewrite !lookup_set_ne.
  - unfold Report.report_columns. simpl.
    by rewrite !lookup_set_eq.
Qed.
End report_export.

Section report_load.
Context {F : Type} `{Num F}.
Variable resam_ts_data : list (Time * F) → Time → Time → (list F → F) → option F.

Local Abbreviation frame := (list (Time * list (string * option F))).

Lemma load_report_loop (r : frame) :
  Report.load_report resam_ts_data r
  = (modify Report.init_vars;; mapM (load_row resam_ts_data r) r.*1;; mret tt).
Proof. reflexivity. Qed.

Lemma load_row_ok (r : frame) k av rr tt tr tc cr sv c b (s : Report.t F) :
  filter (λ x, x.1 = k) r = [(k, report_row av rr tt tr tc cr sv c b)] →
  load_row resam_ts_data r k s = (Ok (), with_record k av c rr tt tr tc cr sv (Some b) s).
Proof.
  intros Hf. unfold load_row. rewrite Hf. unfold report_row, Report.getcol.
  simpl. unfold_monad. simpl.
  apply (update_report_record_given resam_ts_data k None).
Qed.

(* a row of a frame without repeated label is the only one of its label *)
Lemma filter_fresh_label (r : frame) (k : Time) :
  k ∉ r.*1 → filter (λ y, y.1 = k) r = [].
Proof.
  induction r as [|y r IH]; [done|]. csimpl.
  intros [Hne Hk]%not_elem_of_cons.
  rewrite filter_cons_False by done. by apply IH.
Qed.

Lemma filter_label (r : frame) :
  NoDup r.*1 → Forall (λ x, filter (λ y, y.1 = x.1) r = [x]) r.
Proof.
  induction r as [|y r IH]; [constructor|].
  csimpl. intros [Hy Hr]%NoDup_cons. constructor.
  - rewrite filter_cons_True by done. f_equal. by apply filter_fresh_label.
  - specialize (IH Hr). rewrite Forall_forall in IH |- *. intros x Hx.
    rewrite filter_cons_False; [by apply IH|].
    intros Heq. apply Hy. rewrite Heq. by apply list_elem_of_fmap_2.
Qed.

(* the rows of a frame are loaded one after the other *)
Lemma load_rows_ok (r todo : frame) (s : Report.t F) :
  aligned s → numeric_benches s →
  NoDup ((Report.accounts s).*1 ++ todo.*1) →
  Forall (λ x, filter (λ y, y.1 = x.1) r = [x] ∧ is_report_row x.2) todo →
  ∃ s',
    (mapM (load_row resam_ts_data r) todo.*1 ≫= λ _, mret ()) s = (Ok (), s') ∧
    aligned s' ∧
    Report.generate_report_dataframe s'
    = Report.generate_report_dataframe s ++ todo ∧
    Report.bench s' = Report.bench s ∧
    Report.latest_report_time s'
    = from_option Some (Report.latest_report_time s) (last todo.*1).
Proof.
  intros Ha Hn Hnd Htodo. revert s Ha Hn Hnd.
  induction Htodo as [|[k row] todo [Hf Hrow] _ IH]; intros s Ha Hn Hnd.
  - exists s. by rewrite app_nil_r.
  - destruct Hrow as (av&rr&tt&tr&tc&cr&sv&c&b&Hrow). simpl in Hrow, Hf.
    subst row. csimpl in Hnd.
    apply NoDup_app in Hnd as (Hs & Hdis & [Hk Htl]%NoDup_cons).
    assert (Hfresh : k ∉ (Report.accounts s).*1).
    { intros Hin. apply (Hdis _ Hin). left. }
    destruct (IH (with_record k av c rr tt tr tc cr sv (Some b) s))
      as (s' & Hrun & Ha' & Hgen & Hb & Hl).
    { by apply with_record_aligned. }
    { by apply with_record_numeric. }
    { simpl. rewrite keys_set, decide_False by done.
      rewrite <- (assoc_L (++)). simpl.
      apply NoDup_app. split; [done|]. split; [|by apply NoDup_cons].
      intros x Hx. apply (Hdis x Hx). }
    exists s'. split; [|split; [done|split; [|split]]].
    + csimpl. revert Hrun. unfold_monad.
      rewrite (load_row_ok r k av rr tt tr tc cr sv c b s Hf).
      by destruct (mapM (load_row resam_ts_data r) todo.*1 _) as [[?|?] ?].
    + rewrite Hgen, generate_with_record_fresh by done.
      by rewrite <- (assoc_L (++)).
    + done.
    + rewrite Hl. csimpl. rewrite last_cons. by destruct (last todo.*1).
Qed.



End report_load.

(** X5: the table of generate_report_dataframe of a Report whose histories
    list the same start times has one row for each recorded start time, in
    the order of recording, and the row of a start time has the nine columns
    in the order account, return, total_turnover, turnover, total_cost,
    cost, value, cash, bench.  The cells of the first eight columns are the
    entries of their histories.  The bench cell is the entry of the history
    of benches when it is a number; an entry None stays None as long as no
    bench of the history is a number, and is NaN once one is. *)
Theorem generate_report_dataframe_rows {F : Type} `{Num F}
    (self : Report.t F) :
  aligned self →
  (Report.generate_report_dataframe self).*1 = (Report.accounts self).*1 ∧
  ∀ k, k ∈ (Report.accounts self).*1 →
    ∃ row b,
      OrderedDict.lookup k (Report.generate_report_dataframe self) = Some row ∧
      row.*1 = ["account"; "return"; "total_turnover"; "turnover";
                "total_cost"; "cost"; "value"; "cash"; "bench"] ∧
      Forall2 (λ col cell, OrderedDict.lookup k col.2 = Some cell.2)
        (take 8 (Report.report_columns self)) (take 8 row) ∧
      OrderedDict.lookup k (Report.benches self) = Some b ∧
      row !! 8%nat = Some ("bench", bench_cell (Report.benches self) b).
Proof.
  intros Ha. split.
  - unfold Report.generate_report_dataframe.
    rewrite frame_index_aligned by done.
    rewrite <- list_fmap_compose. apply list_fmap_id.
  - intros k Hk. destruct (generate_lookup self k Ha Hk) as (row & Hrow & Hcells).
    destruct (lookup_in k (Report.benches self)) as [b Hb].
    { destruct Ha as [_ Hcols]. unfold Report.report_columns in Hcols.
      rewrite !Forall_cons in Hcols. destruct Hcols as (_&_&_&_&_&_&_&_&Hkeys&_).
      simpl in Hkeys. by rewrite Hkeys. }
    exists row, b. split; [done|].
    unfold Report.frame_columns in Hcells.
    repeat (apply Forall2_cons_inv_l in Hcells as ([??] & ? & [? ?] & Hcells & ->)).
    apply Forall2_nil_inv_l in Hcells as ->. simpl in *. subst.
    split; [done|]. split.
    + unfold Report.report_columns. simpl.
      repeat (constructor; [done|]). constructor.
    + split; [done|].
      match goal with
      | Hc : OrderedDict.lookup k (Report.bench_series _) = _ |- _ =>
          rewrite lookup_bench_series, Hb in Hc; simpl in Hc;
          injection Hc as <-
      end.
      done.
Qed.

Lemma generate_report_dataframe_rows_witness :
  aligned mixed_benches ∧
  (Report.generate_report_dataframe mixed_benches).*1 = [1; 2] ∧
  ∃ row b,
    OrderedDict.lookup 1 (Report.generate_report_dataframe mixed_benches)
    = Some row ∧
    row.*1 = ["account"; "return"; "total_turnover"; "turnover";
              "total_cost"; "cost"; "value"; "cash"; "bench"] ∧
    Forall2 (λ col cell, OrderedDict.lookup 1 col.2 = Some cell.2)
      (take 8 (Report.report_columns mixed_benches)) (take 8 row) ∧
    OrderedDict.lookup 1 (Report.benches mixed_benches) = Some b ∧
    row !! 8%nat = Some ("bench", bench_cell (Report.benches mixed_benches) b) ∧
    b = None ∧
    bench_cell (Report.benches mixed_benches) b = Some PrimFloat.nan.
Proof.
  assert (Ha : aligned mixed_benches).
  { split; [simpl; compute_done|]. unfold Report.report_columns. simpl.
    repeat apply Forall_cons_2; try apply Forall_nil_2; reflexivity. }
  split; [exact Ha|].
  destruct (generate_report_dataframe_rows mixed_benches Ha) as [Hk Hrows].
  split; [exact Hk|].
  destruct (Hrows 1) as (row & b & Hrow & Hnames & Hcells & Hb & Hbench).
  { simpl. left. }
  exists row, b. repeat (split; [assumption|]).
  assert (b = None) as -> by (simpl in Hb; by injection Hb as <-).
  split; reflexivity.
Defined.

(** X6: load_report of a frame whose labels are distinct and whose rows have
    the nine columns of a report table returns, and the Report it leaves
    exports that frame again: generate_report_dataframe gives back the rows
    in their order.  The benchmark of the Report is kept and the latest
    report time is the last label. *)
Theorem load_report_round_trip {F : Type} `{Num F}
    (resam_ts_data : list (Time * F) → Time → Time → (list F → F) → option F)
    (r : list (Time * list (string * option F))) (self : Report.t F) :
  NoDup r.*1 → Forall (λ x, is_report_row x.2) r →
  ∃ self',
    Report.load_report resam_ts_data r self = (Ok (), self') ∧
    Report.generate_report_dataframe self' = r ∧
    Report.bench self' = Report.bench self ∧
    Report.latest_report_time self' = last r.*1.
Proof.
  intros Hnd Hrows.
  destruct (load_rows_ok resam_ts_data r r (Report.init_vars self))
    as (s' & Hrun & _ & Hgen & Hb & Hl).
  { apply init_vars_aligned. }
  { constructor. }
  { done. }
  { apply Forall_and. split; [by apply filter_label|done]. }
  exists s'. rewrite load_report_loop. split; [|split; [done|split; [done|]]].
  - revert Hrun. unfold_monad. simpl.
    by destruct (mapM (load_row resam_ts_data r) r.*1 _) as [[?|?] ?].
  - rewrite Hl. simpl. by destruct (last r.*1).
Qed.

Lemma load_report_round_trip_witness :
  let r := [(1, report_row 100%float 0%float 0%float 0%float 0%float 0%float
                 60%float 40%float 0%float);
            (2, report_row 101%float 0.01%float 5%float 0.05%float 1%float
                 0.01%float 60%float 41%float 0%float)] in
  ∃ self',
    Report.load_report no_resam r one_record = (Ok (), self') ∧
    Report.generate_report_dataframe self' = r ∧
    Report.bench self' = Report.bench one_record ∧
    Report.latest_report_time self' = Some 2.
Proof.
  intros r. apply (load_report_round_trip no_resam r one_record).
  - simpl. compute_done.
  - repeat constructor; simpl; unfold is_report_row; do 9 eexists; reflexivity.
Defined.



(** ** The Indicator: the table of a step, its summary and the histories *)

Section leaf.
Context {F : Type} `{Num F}.

Lemma lookup_dict_of {A} (key : A → string) (value : A → F) (l : list A)
    (k : string) :
  Indicator.dict_of key value l !! k
  = value <$> last (filter (λ x, key x = k) l).
Proof.
  unfold Indicator.dict_of. induction l as [|x l IH] using rev_ind; [done|].
  rewrite foldl_app, filter_app. simpl.
  destruct (decide (key x = k)) as [Hk|Hk].
  - rewrite filter_cons_True by done. rewrite filter_nil, last_snoc.
    subst k. by rewrite lookup_insert_eq.
  - rewrite filter_cons_False by done. rewrite filter_nil, app_nil_r.
    by rewrite lookup_insert_ne.
Qed.

Lemma update_order_indicators_run
    (trade_info : list (Indicator.Order F * F * F * F)) (self : Indicator.t F) :
  let order := λ x : Indicator.Order F * F * F * F, x.1.1.1 in
  let id := λ x, Indicator.stock_id (order x) in
  let amount :=
    Indicator.dict_of id (λ x, Indicator.amount_delta (order x)) trade_info in
  let deal_amount :=
    Indicator.dict_of id (λ x, Indicator.deal_amount_delta (order x)) trade_info in
  Indicator.update_order_indicators trade_info self
  = (Ok tt,
     Indicator.set_order_indicator
       (<["ffr" := Indicator.ffr_func deal_amount amount]>
        (<["pa" := Indicator.dict_of id (λ _, of_Z 0) trade_info]>
        (<["trade_dir" :=
             Indicator.dict_of id (λ x, Indicator.direction (order x)) trade_info]>
        (<["trade_cost" := Indicator.dict_of id (λ x, x.1.2) trade_info]>
        (<["trade_value" :=
             Indicator.dict_of id
               (λ x, x.1.1.2 * Indicator.sign (order x))%num trade_info]>
        (<["trade_price" := Indicator.dict_of id (λ x, x.2) trade_info]>
        (<["deal_amount" := deal_amount]>
        (<["inner_amount" := amount]>
        (<["amount" := amount]> (Indicator.order_indicator self))))))))))
       self).
Proof.
  intros order id amount deal_amount.
  unfold Indicator.update_order_indicators, Indicator._update_order_trade_info,
    Indicator._update_order_fulfill_rate.
  unfold Indicator.oi_transfer2, Indicator.oi_assign,
    OrderIndicator.transfer2, OrderIndicator.column, OrderIndicator.assign.
  unfold_monad. simpl.
  rewrite !(lookup_insert_ne _ _ "deal_amount") by done.
  rewrite (lookup_insert_eq _ "deal_amount").
  rewrite !(lookup_insert_ne _ _ "amount") by done.
  rewrite (lookup_insert_eq _ "amount").
  done.
Qed.
End leaf.

(** X8: update_order_indicators returns for every list of trades and every
    Indicator.  In the table it leaves, an instrument no trade names has no
    entry in the nine columns of the innermost level, and an instrument the
    trades name has in each of them the value of its last trade, an earlier
    trade of the same instrument being overwritten, not added: amount and
    inner_amount its target amount, deal_amount its dealt amount,
    trade_price the price, trade_value the value times the sign, trade_cost
    the cost, trade_dir the direction, pa 0, and ffr the dealt amount (0
    when it is NaN) divided by the target amount. *)
Theorem update_order_indicators_last_trade {F : Type} `{Num F}
    (trade_info : list (Indicator.Order F * F * F * F)) (self : Indicator.t F) :
  ∃ self',
    Indicator.update_order_indicators trade_info self = (Ok tt, self') ∧
    ∀ inst,
      match last_trade inst trade_info with
      | None => Forall (λ col, cell self' col inst = None) leaf_columns
      | Some (order, _trade_val, _trade_cost, _trade_price) =>
          cell self' "amount" inst = Some (Indicator.amount_delta order) ∧
          cell self' "inner_amount" inst = Some (Indicator.amount_delta order) ∧
          cell self' "deal_amount" inst = Some (Indicator.deal_amount_delta order) ∧
          cell self' "trade_price" inst = Some _trade_price ∧
          cell self' "trade_value" inst
          = Some (_trade_val * Indicator.sign order)%num ∧
          cell self' "trade_cost" inst = Some _trade_cost ∧
          cell self' "trade_dir" inst = Some (Indicator.direction order) ∧
          cell self' "pa" inst = Some (of_Z 0) ∧
          cell self' "ffr" inst
          = Some ((if isnan (Indicator.deal_amount_delta order) then of_Z 0
                   else Indicator.deal_amount_delta order)
                  / Indicator.amount_delta order)%num
      end.
Proof.
  eexists. split; [apply update_order_indicators_run|].
  intros inst. unfold cell, last_trade. simpl.
  assert (Hffr : ∀ d a : gmap string F,
    Indicator.ffr_func d a !! inst
    = match d !! inst, a !! inst with
      | None, None => None
      | x, y => Some ((default NaN ((λ v, if isnan v then of_Z 0 else v) <$> x))
                      / default NaN y)%num
      end).
  { intros d a. unfold Indicator.ffr_func, Series.div, Series.replace_nan.
    rewrite lookup_binop, lookup_fmap. by destruct (d !! inst), (a !! inst). }
  destruct (last _) as [[[[order tv] tc] tp]|] eqn:Hlast.
  - repeat (rewrite ?lookup_insert_eq; rewrite ?lookup_insert_ne by done).
    simpl. rewrite Hffr, !lookup_dict_of, Hlast. by repeat split.
  - unfold leaf_columns. repeat apply Forall_cons_2; try apply Forall_nil_2.
    all: repeat (rewrite ?lookup_insert_eq; rewrite ?lookup_insert_ne by done).
    all: simpl; rewrite ?Hffr, ?lookup_dict_of, ?Hlast; done.
Qed.

Section summary.
Context {F : Type} `{Num F}.

Lemma reader_run {S A} (m : M S A) (s : S) : reader m → m s = ((m s).1, s).
Proof. intros Hm. destruct (m s) as [r s'] eqn:E. by rewrite (Hm _ _ _ E). Qed.

Lemma reader_cal_trade_fulfill_rate (method : string) :
  reader (Indicator._cal_trade_fulfill_rate method : M (Indicator.t F) F).
Proof. apply reader_cal_weighted. Qed.

Lemma reader_cal_trade_price_advantage (method : string) :
  reader (Indicator._cal_trade_price_advantage method : M (Indicator.t F) F).
Proof. apply reader_cal_weighted. Qed.

(* the summary reads the table six times and then writes its six keys *)
Lemma cal_trade_indicators_cases (trade_start_time : Time) (freq : string)
    (config : Indicator.indicator_config) (s : Indicator.t F) :
  (∃ e, Indicator.cal_trade_indicators trade_start_time freq config s
        = (Raise e, s)) ∨
  (∃ ffr pa pos deal_amount value count,
     Indicator.cal_trade_indicators trade_start_time freq config s
     = (Ok tt,
        summary_written
          [("ffr", ffr); ("pa", pa); ("pos", pos);
           ("deal_amount", deal_amount); ("value", value); ("count", count)]
          s)).
Proof.
  unfold Indicator.cal_trade_indicators. unfold_monad.
  rewrite (reader_run _ s (reader_cal_trade_fulfill_rate _)).
  destruct (_ s).1 as [ffr|e]; [|by left; eexists].
  rewrite (reader_run _ s (reader_cal_trade_price_advantage _)).
  destruct (_ s).1 as [pa|e]; [|by left; eexists].
  rewrite (reader_run Indicator._cal_trade_positive_rate s (reader_transfer1 _ _)).
  destruct (_ s).1 as [pos|e]; [|by left; eexists].
  rewrite (reader_run Indicator._cal_deal_amount s (reader_transfer1 _ _)).
  destruct (_ s).1 as [da|e]; [|by left; eexists].
  rewrite (reader_run Indicator._cal_trade_value s (reader_transfer1 _ _)).
  destruct (_ s).1 as [tv|e]; [|by left; eexists].
  rewrite (reader_run Indicator._cal_trade_order_count s (reader_transfer1 _ _)).
  destruct (_ s).1 as [cnt|e]; [|by left; eexists].
  right. by exists ffr, pa, pos, da, tv, cnt.
Qed.

Lemma summary_written_fields (kvs : list (string * F)) (s : Indicator.t F) :
  let s' := summary_written kvs s in
  Indicator.order_indicator s' = Indicator.order_indicator s ∧
  Indicator.order_indicator_his s' = Indicator.order_indicator_his s ∧
  (Indicator.trade_indicator_his s').*1 = (Indicator.trade_indicator_his s).*1 ∧
  Indicator.shared s' = Indicator.shared s ∧
  Indicator.trade_indicator s'
  = foldl (λ d kv, OrderedDict.set kv.1 kv.2 d) (Indicator.trade_indicator s) kvs.
Proof.
  simpl. revert s. induction kvs as [|kv kvs IH]; intros s; [done|].
  unfold summary_written in *. simpl.
  destruct (IH (Indicator.update_trade_indicator
                  (OrderedDict.set kv.1 kv.2 (Indicator.trade_indicator s)) s))
    as (-> & -> & -> & -> & ->).
  simpl. repeat split; try done.
  rewrite <- list_fmap_compose. apply list_fmap_ext.
  intros i [k d] _. simpl. by case_decide.
Qed.
End summary.

(** X9: cal_trade_indicators is all or nothing.  When it raises, the
    Indicator is as it was before the call.  When it returns, the table of
    the orders is as before, the two histories list the start times they
    listed, the summary holds the six keys ffr, pa, pos, deal_amount, value
    and count, every other key of the summary keeps its entry, and a summary
    that was empty lists the six keys in this order. *)
Theorem cal_trade_indicators_all_or_nothing {F : Type} `{Num F}
    (trade_start_time : Time) (freq : string)
    (config : Indicator.indicator_config) (s s' : Indicator.t F) (r : Res ()) :
  Indicator.cal_trade_indicators trade_start_time freq config s = (r, s') →
  match r with
  | Raise _ => s' = s
  | Ok _ =>
      Indicator.order_indicator s' = Indicator.order_indicator s ∧
      (Indicator.order_indicator_his s').*1 = (Indicator.order_indicator_his s).*1 ∧
      (Indicator.trade_indicator_his s').*1 = (Indicator.trade_indicator_his s).*1 ∧
      Forall (λ key, is_Some (OrderedDict.lookup key (Indicator.trade_indicator s')))
        summary_keys ∧
      (∀ key, key ∉ summary_keys →
         OrderedDict.lookup key (Indicator.trade_indicator s')
         = OrderedDict.lookup key (Indicator.trade_indicator s)) ∧
      (Indicator.trade_indicator s = [] →
       (Indicator.trade_indicator s').*1 = summary_keys)
  end.
Proof.
  intros Hrun.
  destruct (cal_trade_indicators_cases trade_start_time freq config s)
    as [[e He]|(ffr&pa&pos&da&tv&cnt&Hok)].
  - rewrite He in Hrun. by injection Hrun as <- <-.
  - rewrite Hok in Hrun.
    pose proof (summary_written_fields
                  [("ffr", ffr); ("pa", pa); ("pos", pos); ("deal_amount", da);
                   ("value", tv); ("count", cnt)] s) as Hf.
    remember (summary_written _ s) as s6 eqn:Hs6. clear Hs6 Hok.
    injection Hrun as <- <-. simpl in Hf.
    destruct Hf as (-> & -> & -> & _ & ->).
    split; [done|]. split; [done|]. split; [done|]. split; [|split].
    + unfold summary_keys. repeat apply Forall_cons_2; try apply Forall_nil_2.
      all: repeat (rewrite ?lookup_set_eq; rewrite ?lookup_set_ne by done).
      all: eauto.
    + intros key Hkey. unfold summary_keys in Hkey.
      rewrite !not_elem_of_cons in Hkey.
      destruct Hkey as (?&?&?&?&?&?&_).
      by rewrite !lookup_set_ne.
    + by intros ->.
Qed.

Lemma cal_trade_indicators_all_or_nothing_witness :
  let run := Indicator.cal_trade_indicators 0 "day" default_config summed_up in
  run.1 = Ok tt ∧
  Indicator.order_indicator run.2 = Indicator.order_indicator summed_up ∧
  (Indicator.trade_indicator run.2).*1 = summary_keys.
Proof.
  intros run.
  assert (Hrun : run = (Ok tt, run.2)) by (vm_compute; reflexivity).
  split; [by rewrite Hrun|].
  pose proof (cal_trade_indicators_all_or_nothing 0 "day" default_config
                summed_up run.2 (Ok tt) Hrun) as (Ho & _ & _ & _ & _ & Hk).
  split; [exact Ho|]. apply Hk. reflexivity.
Defined.

(** X10: a weight_method other than mean, amount_weighted and
    value_weighted makes cal_trade_indicators raise and leave the Indicator
    as it was.  The method of the fulfill rate is looked at first: when it
    is unsupported the call raises the ValueError that names it, whatever
    the table holds.  When the method of the price advantage is
    unsupported, the call raises the ValueError that names that method as
    soon as the fulfill rate could be computed. *)
Theorem cal_trade_indicators_unsupported {F : Type} `{Num F}
    (trade_start_time : Time) (freq : string)
    (config : Indicator.indicator_config) (s : Indicator.t F) :
  let ffr_method := weight_method (Indicator.ffr_config config) in
  let pa_method := weight_method (Indicator.pa_config config) in
  (¬ supported_method ffr_method →
   Indicator.cal_trade_indicators trade_start_time freq config s
   = (Raise (ValueError ("method " +:+ ffr_method +:+ " is not supported!")), s)) ∧
  (¬ supported_method pa_method →
   (∃ e, Indicator.cal_trade_indicators trade_start_time freq config s
         = (Raise e, s)) ∧
   ∀ fulfill_rate,
     Indicator._cal_trade_fulfill_rate ffr_method s = (Ok fulfill_rate, s) →
     Indicator.cal_trade_indicators trade_start_time freq config s
     = (Raise (ValueError ("method " +:+ pa_method +:+ " is not supported!")), s)).
Proof.
  intros ffr_method pa_method. subst ffr_method pa_method.
  split; intros Hm.
  - unfold Indicator.cal_trade_indicators, Indicator._cal_trade_fulfill_rate.
    unfold weight_method, supported_method in *.
    repeat (rewrite decide_False; [|tauto]). by unfold_monad.
  - assert (Hpa : ∀ s0 : Indicator.t F,
              Indicator._cal_trade_price_advantage
                (weight_method (Indicator.pa_config config)) s0
              = (Raise (ValueError
                   ("method " +:+ weight_method (Indicator.pa_config config)
                    +:+ " is not supported!")), s0)).
    { intros s0. unfold Indicator._cal_trade_price_advantage.
      unfold supported_method in Hm.
      repeat (rewrite decide_False; [|tauto]). done. }
    split.
    + unfold Indicator.cal_trade_indicators. unfold_monad.
      rewrite (reader_run _ s (reader_cal_trade_fulfill_rate _)).
      destruct (_ s).1 as [ffr'|e]; [|by eexists].
      eexists. unfold weight_method in Hpa. by rewrite Hpa.
    + intros fulfill_rate Hffr.
      unfold Indicator.cal_trade_indicators. unfold_monad.
      unfold weight_method in Hffr, Hpa. by rewrite Hffr, Hpa.
Qed.

Lemma cal_trade_indicators_unsupported_witness :
  ¬ supported_method (weight_method (Indicator.ffr_config median_config)) ∧
  Indicator.cal_trade_indicators 0 "day" median_config summed_up
  = (Raise (ValueError "method median is not supported!"), summed_up).
Proof.
  assert (Hm : ¬ supported_method
                   (weight_method (Indicator.ffr_config median_config))).
  { unfold supported_method. vm_compute. by intros [|[|]]. }
  split; [exact Hm|].
  exact (proj1 (cal_trade_indicators_unsupported 0 "day" median_config
                  summed_up) Hm).
Defined.

Section positive_rate.

(* the instruments with a positive entry are among those with an entry *)
Lemma count_gt_le_count (s : gmap string exact) :
  0 ≤ Series.count_gt (of_Z 0) s ≤ Series.count s.
Proof.
  unfold Series.count_gt, Series.count. rewrite !map_fold_foldr.
  induction (map_to_list s) as [|[i x] l IH]; [simpl; lia|].
  simpl in *. destruct x as [|q]; simpl; [lia|].
  destruct (Qccompare _ q); lia.
Qed.

Lemma exact_rate (a b : Z) :
  0 ≤ a ≤ b →
  (b = 0 ∧ (of_Z a / of_Z b)%num = XNaN) ∨
  (0 < b ∧ ∃ q : Qc, (of_Z a / of_Z b)%num = XVal q ∧ (0 <= q)%Qc ∧ (q <= 1)%Qc).
Proof.
  intros Hab. destruct (decide (b = 0)) as [->|Hb].
  - left. split; [done|]. apply exact_div_zero.
  - right. split; [lia|]. eexists. split.
    + apply exact_div_val. intros Hz. apply Q2Qc_eq_iff in Hz.
      unfold Qeq in Hz. simpl in Hz. lia.
    + assert (Hpos : (0 < inject_Z b)%Q).
      { change 0%Q with (inject_Z 0). rewrite <- Zlt_Qlt. lia. }
      unfold Qcle. simpl. rewrite !Qred_correct. split.
      * apply Qle_shift_div_l; [done|]. rewrite Qmult_0_l.
        change 0%Q with (inject_Z 0). rewrite <- Zle_Qle. lia.
      * apply Qle_shift_div_r; [done|]. rewrite Qmult_1_l.
        rewrite <- Zle_Qle. lia.
Qed.
End positive_rate.

(** X11: in exact arithmetic the positive rate of a step is a rate: when
    _cal_trade_positive_rate returns, its value lies between 0 and 1, or is
    NaN, and it is NaN exactly when no instrument of the pa column has a
    price advantage; the Indicator is left as it was. *)
Theorem _cal_trade_positive_rate_bounds (s s' : Indicator.t exact) (pos : exact) :
  Indicator._cal_trade_positive_rate s = (Ok pos, s') →
  s' = s ∧
  ∃ pa, Indicator.order_indicator s !! "pa" = Some pa ∧
    ((Series.count pa = 0 ∧ pos = XNaN) ∨
     (0 < Series.count pa ∧
      ∃ q : Qc, pos = XVal q ∧ (0 <= q)%Qc ∧ (q <= 1)%Qc)).
Proof.
  intros Hrun. apply oi_transfer1_inv in Hrun as [-> (pa & Hpa & ->)].
  split; [done|]. exists pa. split; [done|].
  apply exact_rate, count_gt_le_count.
Qed.

Lemma _cal_trade_positive_rate_bounds_witness :
  ∃ pos,
    Indicator._cal_trade_positive_rate two_exact_advantages
    = (Ok pos, two_exact_advantages) ∧
    ∃ pa, Indicator.order_indicator two_exact_advantages !! "pa" = Some pa ∧
      ((Series.count pa = 0 ∧ pos = XNaN) ∨
       (0 < Series.count pa ∧
        ∃ q : Qc, pos = XVal q ∧ (0 <= q)%Qc ∧ (q <= 1)%Qc)).
Proof.
  destruct (Indicator._cal_trade_positive_rate two_exact_advantages)
    as [[pos|e] s'] eqn:Hrun; [|by vm_compute in Hrun].
  destruct (_cal_trade_positive_rate_bounds two_exact_advantages s' pos Hrun)
    as [-> Hb].
  exists pos. split; [reflexivity|exact Hb].
Defined.

Section base_price.
Context {F : Type} `{Num F}.

Lemma _agg_base_price_cases inner decision_list trade_exchange pa_config
    (s : Indicator.t F) :
  (∃ e, Indicator._agg_base_price inner decision_list trade_exchange pa_config s
        = (Raise e, s)) ∨
  Indicator._agg_base_price inner decision_list trade_exchange pa_config s
  = (Ok tt, s) ∨
  (∃ base_volume base_price,
     Indicator._agg_base_price inner decision_list trade_exchange pa_config s
     = (Ok tt,
        Indicator.set_order_indicator
          (<["base_price" := base_price]>
             (<["base_volume" := base_volume]> (Indicator.order_indicator s)))
          s)).
Proof.
  unfold Indicator._agg_base_price. unfold_monad.
  case_bool_decide; [|by right; left].
  destruct (mapM _ _) as [all|e]; [|by left; eexists].
  destruct all as [|x all]; [by left; eexists|].
  right. right. do 2 eexists. reflexivity.
Qed.

Lemma foldlM_ok {A B} (f : B → A → Res B) (g : B → A → B) (b : B) (l : list A) :
  Forall (λ x, ∀ b, f b x = Ok (g b x)) l →
  Indicator.foldlM f b l = Ok (foldl g b l).
Proof.
  intros Hl. revert b. induction Hl as [|x l Hx _ IH]; intros b; [done|].
  simpl. unfold_monad. by rewrite Hx, IH.
Qed.

Lemma lookup_reindex {A} (s : gmap string F) (index : gmap string A) (k : string) :
  is_Some (index !! k) →
  Series.reindex s index !! k = Some (default NaN (s !! k)).
Proof.
  intros [x Hx]. unfold Series.reindex. by rewrite map_lookup_imap, Hx.
Qed.

(* with the baselines of an inner table known, the exchange is not asked *)
Lemma base_of_inner_known trade_dir
    (oi : gmap string (gmap string F))
    (d : Indicator.BaseTradeDecision F * Time * Time)
    trade_exchange pa_config :
  map_Forall (λ inst _,
    isnan (default NaN
             (OrderIndicator.get_metric_series oi "base_price" !! inst))
    = false) trade_dir →
  Indicator.base_of_inner trade_dir trade_exchange pa_config oi d
  = Ok (known_base trade_dir oi).
Proof.
  intros Hk. destruct d as [[dec start] end_].
  unfold Indicator.base_of_inner, known_base.
  apply foldlM_ok.
  apply Forall_forall. intros [inst direction] Hin [bp_new bv_new].
  apply elem_of_map_to_list in Hin.
  simpl.
  rewrite (lookup_reindex (OrderIndicator.get_metric_series oi "base_price")
             trade_dir inst) by eauto.
  simpl. by rewrite (Hk inst direction Hin).
Qed.
End base_price.

Section base_price_known.
Context {F : Type} `{Num F}.

Lemma mapM_known {A B C} (f : C → A → Res B) (l : list A) :
  Forall (λ x, ∃ y, ∀ c, f c x = Ok y) l →
  ∃ all, length all = length l ∧ ∀ c, mapM (f c) l = Ok all.
Proof.
  induction 1 as [|x l [y Hy] _ (all & Hlen & Hall)].
  - by exists [].
  - exists (y :: all). split; [by simpl; rewrite Hlen|].
    intros c. simpl. unfold_monad. by rewrite Hy, Hall.
Qed.

Lemma _agg_base_price_known inner decision_list (s : Indicator.t F) :
  baselines_known (trade_dir_of s) inner →
  ∃ all, length all = length (zip inner decision_list) ∧
    ∀ (trade_exchange : Indicator.Exchange F) (pa_config : gmap string string),
      mapM (λ x : gmap string (gmap string F) * _,
              Indicator.base_of_inner (trade_dir_of s) trade_exchange pa_config
                x.1 x.2)
        (zip inner decision_list) = Ok all.
Proof.
  intros Hk.
  destruct (mapM_known
    (λ (c : Indicator.Exchange F * gmap string string)
       (x : gmap string (gmap string F) * _),
       Indicator.base_of_inner (trade_dir_of s) c.1 c.2 x.1 x.2)
    (zip inner decision_list)) as (all & Hlen & Hall).
  - apply Forall_forall. intros [oi d] Hin. apply elem_of_zip_l in Hin.
    unfold baselines_known in Hk. rewrite Forall_forall in Hk.
    exists (known_base (trade_dir_of s) oi). intros [ex cfg].
    by apply base_of_inner_known, Hk.
  - exists all. split; [done|]. intros ex cfg. exact (Hall (ex, cfg)).
Qed.
End base_price_known.

(** X12: when every inner table has a baseline price for every instrument
    of the trade_dir column, _agg_base_price does not ask the exchange: its
    outcome is the same for every exchange and every pa_config, and with at
    least one inner table and one decision it returns, also for a decision
    over a range of indexes or a price policy that _get_base_vol_pri
    refuses. *)
Theorem _agg_base_price_reuses_baselines {F : Type} `{Num F}
    (inner : list (gmap string (gmap string F)))
    (decision_list : list (Indicator.BaseTradeDecision F * Time * Time))
    (s : Indicator.t F) :
  baselines_known (trade_dir_of s) inner →
  ∃ out,
    (∀ trade_exchange pa_config,
       Indicator._agg_base_price inner decision_list trade_exchange pa_config s
       = out) ∧
    (inner ≠ [] → decision_list ≠ [] → ∃ s', out = (Ok tt, s')).
Proof.
  intros Hk.
  destruct (_agg_base_price_known inner decision_list s Hk) as (all & Hlen & Hall).
  unfold Indicator._agg_base_price. unfold_monad.
  fold (trade_dir_of s).
  destruct (bool_decide (0 < Series.len (trade_dir_of s))%nat).
  - eexists. split.
    + intros ex cfg. rewrite (Hall ex cfg). reflexivity.
    + intros Hi Hd. destruct all as [|x all]; [|eauto].
      destruct inner, decision_list; done.
  - exists (Ok tt, s). split; [done|eauto].
Qed.

Lemma _agg_base_price_reuses_baselines_witness :
  baselines_known (trade_dir_of sold_A) [traded_inner] ∧
  ∃ out,
    (∀ trade_exchange pa_config,
       Indicator._agg_base_price [traded_inner] [(idx_decision, 0, 1)]
         trade_exchange pa_config sold_A = out) ∧
    ∃ s', out = (Ok tt, s').
Proof.
  assert (Hk : baselines_known (trade_dir_of sold_A) [traded_inner]).
  { constructor; [|constructor].
    apply map_Forall_lookup. intros inst x Hx.
    unfold trade_dir_of, sold_A, indicator_of, table_of,
      OrderIndicator.get_metric_series in Hx.
    simpl in Hx. rewrite lookup_insert_eq in Hx. simpl in Hx.
    apply lookup_insert_Some in Hx as [[<- _]|[_ Hx]];
      [vm_compute; reflexivity|done]. }
  split; [exact Hk|].
  destruct (_agg_base_price_reuses_baselines [traded_inner]
              [(idx_decision, 0, 1)] sold_A Hk) as (out & Hout & Hret).
  exists out. split; [exact Hout|]. by apply Hret.
Defined.

(** X13: _agg_base_price is all or nothing.  When it raises, the Indicator
    is as it was before the call; when it returns, every column other than
    base_volume and base_price and the summary are as before, and the two
    histories list the start times they listed. *)
Theorem _agg_base_price_effect {F : Type} `{Num F}
    (inner : list (gmap string (gmap string F)))
    (decision_list : list (Indicator.BaseTradeDecision F * Time * Time))
    (trade_exchange : Indicator.Exchange F) (pa_config : gmap string string)
    (s s' : Indicator.t F) (r : Res ()) :
  Indicator._agg_base_price inner decision_list trade_exchange pa_config s
  = (r, s') →
  match r with
  | Raise _ => s' = s
  | Ok _ =>
      (∀ col, col ≠ "base_volume" → col ≠ "base_price" →
         Indicator.order_indicator s' !! col = Indicator.order_indicator s !! col) ∧
      Indicator.trade_indicator s' = Indicator.trade_indicator s ∧
      (Indicator.order_indicator_his s').*1 = (Indicator.order_indicator_his s).*1 ∧
      (Indicator.trade_indicator_his s').*1 = (Indicator.trade_indicator_his s).*1
  end.
Proof.
  intros Hrun.
  destruct (_agg_base_price_cases inner decision_list trade_exchange pa_config s)
    as [[e He]|[Hok|(bv & bp & Hok)]].
  - rewrite He in Hrun. by injection Hrun as <- <-.
  - rewrite Hok in Hrun. by injection Hrun as <- <-.
  - rewrite Hok in Hrun. injection Hrun as <- <-. simpl.
    split; [|done]. intros col ? ?. by rewrite !lookup_insert_ne.
Qed.

Lemma _agg_base_price_effect_witness :
  let run := Indicator._agg_base_price [traded_inner] [(idx_decision, 0, 1)]
               (exchange_of Indicator.NoPrice) ∅ sold_A in
  run.1 = Ok tt ∧
  Indicator.order_indicator run.2 !! "trade_dir"
  = Indicator.order_indicator sold_A !! "trade_dir".
Proof.
  intros run.
  assert (Hrun : run = (Ok tt, run.2)) by (vm_compute; reflexivity).
  split; [by rewrite Hrun|].
  by apply (_agg_base_price_effect _ _ _ _ sold_A run.2 (Ok tt) Hrun).
Defined.

(** X14: with instruments in the trade_dir column and no inner table, or no
    decision, to pair with, _agg_base_price has nothing to concatenate: it
    raises ValueError and leaves the Indicator as it was. *)
Theorem _agg_base_price_nothing_to_concat {F : Type} `{Num F}
    (inner : list (gmap string (gmap string F)))
    (decision_list : list (Indicator.BaseTradeDecision F * Time * Time))
    (trade_exchange : Indicator.Exchange F) (pa_config : gmap string string)
    (s : Indicator.t F) :
  trade_dir_of s ≠ ∅ → inner = [] ∨ decision_list = [] →
  Indicator._agg_base_price inner decision_list trade_exchange pa_config s
  = (Raise (ValueError "No objects to concatenate"), s).
Proof.
  intros Hd Hz. unfold Indicator._agg_base_price. unfold_monad.
  fold (trade_dir_of s). rewrite bool_decide_eq_true_2.
  - assert (zip inner decision_list = []) as ->; [|done].
    destruct Hz as [-> | ->]; [done|by destruct inner].
  - unfold Series.len. destruct (decide (size (trade_dir_of s) = 0%nat)) as [Hs|]; [|lia].
    by apply map_size_empty_iff in Hs.
Qed.

Lemma _agg_base_price_nothing_to_concat_witness :
  trade_dir_of sold_A ≠ ∅ ∧
  Indicator._agg_base_price [traded_inner] [] (exchange_of Indicator.NoPrice) ∅
    sold_A
  = (Raise (ValueError "No objects to concatenate"), sold_A).
Proof.
  assert (Hd : trade_dir_of sold_A ≠ ∅).
  { intros He. apply (f_equal (λ m : gmap string float, m !! "A")) in He.
    by vm_compute in He. }
  split; [exact Hd|].
  apply (_agg_base_price_nothing_to_concat _ _ _ _ sold_A Hd). by right.
Defined.

Section report_latest.
Context {F : Type} `{Num F}.
Variable resam_ts_data : list (Time * F) → Time → Time → (list F → F) → option F.

Lemma with_record_latest t av c rr tt tr tc cr sv bv (self : Report.t F) :
  latest_recorded (with_record t av c rr tt tr tc cr sv bv self).
Proof.
  unfold latest_recorded. simpl. rewrite keys_set.
  case_decide; [done|]. apply elem_of_app. right. left.
Qed.

Lemma latest_of_recorded {V : Type} (d : list (Time * V)) (self : Report.t F) (t : Time) :
  Report.latest_report_time self = Some t → t ∈ d.*1 →
  ∃ v, OrderedDict.lookup t d = Some v ∧ Report.latest_of d self = Ok v.
Proof.
  intros Hl Ht. destruct (lookup_in t d Ht) as [v Hv].
  exists v. split; [done|]. unfold Report.latest_of. by rewrite Hl, Hv.
Qed.
End report_latest.

(** X15: the latest report time of a Report is None as long as it has no
    record and the start time of a record afterwards: this holds after
    init_vars and every call of update_report_record keeps it.  So on a
    Report without record get_latest_account_value, get_latest_total_cost
    and get_latest_total_turnover raise KeyError, and on any other Report
    they return the entries of the latest report time. *)
Theorem get_latest_on_recorded {F : Type} `{Num F}
    (resam_ts_data : list (Time * F) → Time → Time → (list F → F) → option F)
    (a : Report.record_args F) (self self' : Report.t F) (r : Res ()) :
  latest_recorded (Report.init_vars self) ∧
  (latest_recorded self →
   Report.update_report_record resam_ts_data a self = (r, self') →
   latest_recorded self') ∧
  (aligned self → latest_recorded self →
   if Report.is_empty self then
     Report.get_latest_date self = None ∧
     Report.get_latest_account_value self = Raise (KeyError "None") ∧
     Report.get_latest_total_cost self = Raise (KeyError "None") ∧
     Report.get_latest_total_turnover self = Raise (KeyError "None")
   else
     ∃ t av tc tt,
       Report.get_latest_date self = Some t ∧
       OrderedDict.lookup t (Report.accounts self) = Some av ∧
       OrderedDict.lookup t (Report.total_costs self) = Some tc ∧
       OrderedDict.lookup t (Report.total_turnovers self) = Some tt ∧
       Report.get_latest_account_value self = Ok av ∧
       Report.get_latest_total_cost self = Ok tc ∧
       Report.get_latest_total_turnover self = Ok tt).
Proof.
  split; [done|]. split.
  - intros Hl Hrun.
    destruct (update_report_record_cases resam_ts_data a self)
      as [[e He]|(t&av&c&rr&tt&tr&tc&cr&sv&bv&_&Hok)].
    + rewrite He in Hrun. by injection Hrun as _ <-.
    + rewrite Hok in Hrun. injection Hrun as _ <-. apply with_record_latest.
  - intros [_ Hcols] Hl. unfold latest_recorded in Hl.
    unfold Report.is_empty, Report.get_latest_date,
      Report.get_latest_account_value, Report.get_latest_total_cost,
      Report.get_latest_total_turnover.
    destruct (Report.latest_report_time self) as [t|] eqn:Ht.
    + rewrite bool_decide_eq_false_2
        by (destruct (Report.accounts self); [by apply elem_of_nil in Hl|done]).
      unfold Report.report_columns in Hcols. rewrite !Forall_cons in Hcols.
      destruct Hcols as (_ & _ & Htt & _ & Htc & _). simpl in Htt, Htc.
      rewrite keys_series_of in Htt, Htc.
      destruct (latest_of_recorded (Report.accounts self) self t Ht Hl)
        as (av & ? & ?).
      destruct (latest_of_recorded (Report.total_costs self) self t Ht)
        as (tc & ? & ?); [by rewrite Htc|].
      destruct (latest_of_recorded (Report.total_turnovers self) self t Ht)
        as (tt & ? & ?); [by rewrite Htt|].
      by exists t, av, tc, tt.
    + rewrite Hl. simpl. unfold Report.latest_of. by rewrite Ht.
Qed.

Lemma get_latest_on_recorded_witness :
  (aligned one_record ∧ latest_recorded one_record) ∧
  ∃ t av tc tt,
    Report.get_latest_date one_record = Some t ∧
    OrderedDict.lookup t (Report.accounts one_record) = Some av ∧
    OrderedDict.lookup t (Report.total_costs one_record) = Some tc ∧
    OrderedDict.lookup t (Report.total_turnovers one_record) = Some tt ∧
    Report.get_latest_account_value one_record = Ok av ∧
    Report.get_latest_total_cost one_record = Ok tc ∧
    Report.get_latest_total_turnover one_record = Ok tt.
Proof.
  assert (Ha : aligned one_record).
  { split; [simpl; compute_done|]. unfold Report.report_columns. simpl.
    repeat apply Forall_cons_2; try apply Forall_nil_2; reflexivity. }
  assert (Hl : latest_recorded one_record) by (unfold latest_recorded; simpl; left).
  split; [by split|].
  exact (proj2 (proj2 (get_latest_on_recorded no_resam
                         (complete_args 1 None 0%float 0%float 0%float 0%float
                            0%float 0%float 0%float 0%float None)
                         one_record one_record (Ok tt))) Ha Hl).
Defined.

Section no_rollback.
Context {F : Type} `{Num F}.

Lemma _update_trade_amount_run (outer : Indicator.BaseTradeDecision F)
    (self : Indicator.t F) :
  Indicator._update_trade_amount outer self
  = (Ok tt, Indicator.set_order_indicator
              (<["amount" := amount_of outer]> (Indicator.order_indicator self))
              self).
Proof.
  unfold Indicator._update_trade_amount, amount_of.
  case_bool_decide as Hl; rewrite oi_assign_run; [|done].
  by destruct (Indicator.get_decision outer).
Qed.

(* the stages of agg_order_indicators after the fulfill rate keep the
   columns they do not compute, whether they return or raise *)
Lemma keeps_later_stages (col : string) inner decision_list trade_exchange
    pa_config :
  col ≠ "base_volume" → col ≠ "base_price" → col ≠ "pa" →
  keeps_column col
    (Indicator._agg_base_price inner decision_list trade_exchange pa_config;;
     Indicator._agg_order_price_advantage;;
     mret inner : M (Indicator.t F) _).
Proof.
  intros ???.
  apply keeps_bind; [by apply keeps_base_price|]. intros _.
  apply keeps_bind; [by apply keeps_price_advantage|]. intros _.
  apply keeps_ret.
Qed.
End no_rollback.

(** X16: agg_order_indicators does not roll back.  With inner tables that
    have the six metric columns, whatever the call does afterwards, return
    or raise in the stage of the baseline price or of the price advantage,
    the table holds the columns of the stages before: amount with the
    target amounts of the outer decision, deal_amount with the sum of the
    inner tables, and ffr computed from the two. *)
Theorem agg_order_indicators_no_rollback {F : Type} `{Num F}
    (inner : list (gmap string (gmap string F)))
    (decision_list : list (Indicator.BaseTradeDecision F * Time * Time))
    (outer : Indicator.BaseTradeDecision F)
    (trade_exchange : Indicator.Exchange F) (config : Indicator.indicator_config)
    (self self' : Indicator.t F) (r : Res (list (gmap string (gmap string F)))) :
  Forall (has_columns Indicator.all_metric) inner →
  Indicator.agg_order_indicators inner decision_list outer trade_exchange
    config self = (r, self') →
  Indicator.order_indicator self' !! "amount" = Some (amount_of outer) ∧
  Indicator.order_indicator self' !! "deal_amount"
  = Some (summed (notional <$> inner) "deal_amount") ∧
  Indicator.order_indicator self' !! "ffr"
  = Some (Indicator.ffr_func (summed (notional <$> inner) "deal_amount")
            (amount_of outer)).
Proof.
  intros Hin. unfold Indicator.agg_order_indicators.
  rewrite (run_bind _ _ _ _ _ (_agg_order_trade_info_ok inner self Hin)).
  rewrite (run_bind _ _ _ _ _ (_update_trade_amount_run outer _)).
  destruct (lookup_agg_table (notional <$> inner) (Indicator.order_indicator self))
    as (Hd & _).
  erewrite (run_bind (Indicator._update_order_fulfill_rate)).
  2:{ unfold Indicator._update_order_fulfill_rate.
      erewrite run_bind; [apply oi_assign_run|].
      apply oi_transfer2_run; simpl.
      - rewrite lookup_insert_ne by done. exact Hd.
      - apply lookup_insert_eq. }
  intros Hrun.
  split; [|split].
  all: erewrite (keeps_later_stages _ _ _ _ _ _ _ _ _ _ _ Hrun); simpl.
  all: repeat (rewrite ?lookup_insert_eq; rewrite ?lookup_insert_ne by done).
  all: done.
  Unshelve. all: done.
Qed.

Lemma agg_order_indicators_no_rollback_witness :
  let inner := [dealt_inner 5%float 10%float] in
  let run := Indicator.agg_order_indicators inner [(idx_decision, 0, 1)]
               no_range (exchange_of Indicator.NoPrice) default_config
               (Indicator.__init__ (F := float)) in
  run.1 = Raise (TypeError "IdxTradeRange is not supported") ∧
  Indicator.order_indicator run.2 !! "amount" = Some (amount_of no_range) ∧
  Indicator.order_indicator run.2 !! "deal_amount"
  = Some (summed (notional <$> inner) "deal_amount") ∧
  Indicator.order_indicator run.2 !! "ffr"
  = Some (Indicator.ffr_func (summed (notional <$> inner) "deal_amount")
            (amount_of no_range)).
Proof.
  intros inner run.
  assert (Hrun : run = (Raise (TypeError "IdxTradeRange is not supported"), run.2))
    by (vm_compute; reflexivity).
  split; [by rewrite Hrun|].
  apply (agg_order_indicators_no_rollback inner [(idx_decision, 0, 1)] no_range
           (exchange_of Indicator.NoPrice) default_config Indicator.__init__
           run.2 (Raise (TypeError "IdxTradeRange is not supported")));
    [|exact Hrun].
  repeat constructor; vm_compute; eexists; reflexivity.
Defined.

Section no_valid_price.
Context {F : Type} `{Num F}.

Lemma drop_lt_all (c : F) (s : gmap Z F) :
  map_Forall (λ _ p, nltb p c = true) s → Series.drop_lt c s = ∅.
Proof.
  intros Hs. unfold Series.drop_lt. apply map_empty. intros t.
  apply map_lookup_filter_None. right. intros p Hp. simpl.
  by rewrite (Hs t p Hp).
Qed.
End no_valid_price.

(** X17: when the exchange has prices for the window and the filter drops
    every one of them, each being below 1e-08, _get_base_vol_pri does not
    answer None as it does for a window without data: under twap, and under
    vwap with volumes, it returns the base_volume 0 and the base_price 0/0,
    which is NaN in binary64. *)
Theorem _get_base_vol_pri_no_valid_price {F : Type} `{Num F}
    (inst : string) (trade_start_time trade_end_time : Time) (direction : F)
    (decision : Indicator.BaseTradeDecision F)
    (trade_exchange : Indicator.Exchange F) (pa_config : gmap string string)
    (s : gmap Z F) :
  let w := clipped decision trade_start_time trade_end_time in
  ¬ idx_range decision → price_policy pa_config = "deal_price" →
  price_series w.1
    (Indicator.get_deal_price trade_exchange inst w.1 w.2 direction) = Some s →
  map_Forall (λ _ p, nltb p eps = true) s →
  agg_policy pa_config = "twap" ∨
  (agg_policy pa_config = "vwap" ∧
   is_Some (Indicator.get_volume trade_exchange inst w.1 w.2)) →
  Indicator._get_base_vol_pri inst trade_start_time trade_end_time direction
    decision trade_exchange pa_config
  = Ok (Some (of_Z 0 / of_Z 0)%num, Some (of_Z 0)) ∧
  isnan (of_Z 0 / of_Z 0 : float)%num = true.
Proof.
  intros w Hr Hp Hs Hlow Hagg. split; [|vm_compute; reflexivity].
  subst w. revert Hs Hagg.
  unfold Indicator._get_base_vol_pri, clipped, price_policy, agg_policy in *.
  assert (Hsum : ∀ volume_s : gmap Z F,
            volume_s = ∅ →
            Ok (Some (Series.sum (Series.mul (Series.drop_lt eps s) volume_s)
                      / Series.sum volume_s)%num,
                Some (Series.sum volume_s))
            = Ok (Some (of_Z 0 / of_Z 0)%num, Some (of_Z 0))).
  { intros ? ->. rewrite drop_lt_all by done.
    unfold Series.mul. by rewrite binop_empty, sum_empty. }
  destruct (Indicator.trade_range decision) as [[a b|clip]|] eqn:Ht; simpl.
  - destruct Hr. unfold idx_range. eauto.
  - destruct (clip trade_start_time trade_end_time) as [st' et']; simpl.
    rewrite Hp. simpl.
    destruct (Indicator.get_deal_price _ _ _ _ _) as [|p|s']; simpl; [done|..];
      intros [= <-] [->|[-> [v ->]]]; simpl; apply Hsum;
      rewrite drop_lt_all by done; done.
  - rewrite Hp. simpl.
    destruct (Indicator.get_deal_price _ _ _ _ _) as [|p|s']; simpl; [done|..];
      intros [= <-] [->|[-> [v ->]]]; simpl; apply Hsum;
      rewrite drop_lt_all by done; done.
Qed.

Lemma _get_base_vol_pri_no_valid_price_witness :
  (¬ idx_range no_range ∧ price_policy ∅ = "deal_price" ∧
   agg_policy ∅ = "twap" ∧
   map_Forall (λ _ p, nltb p eps = true) prices_all_low) ∧
  Indicator._get_base_vol_pri "A" 0 10 0%float no_range
    (exchange_of (Indicator.PriceSeries prices_all_low)) ∅
  = Ok (Some (of_Z 0 / of_Z 0)%num, Some (of_Z 0)).
Proof.
  assert (Hr : ¬ idx_range no_range) by (intros (?&?&?); discriminate).
  assert (Hlow : map_Forall (λ _ p, nltb p eps = true) prices_all_low).
  { apply (bool_decide_unpack _). vm_compute. exact I. }
  split; [repeat split; [done | vm_compute; reflexivity.. | exact Hlow]|].
  apply (_get_base_vol_pri_no_valid_price "A" 0 10 0%float no_range
           (exchange_of (Indicator.PriceSeries prices_all_low)) ∅
           prices_all_low); [done | vm_compute; reflexivity | reflexivity
                             | exact Hlow |].
  left. vm_compute; reflexivity.
Defined.

Section keeps.
Context {S X : Type} (f : S → X).

Lemma keeps_field_bind {A B} (m : M S A) (k : A → M S B) :
  keeps f m → (∀ a, keeps f (k a)) → keeps f (m ≫= k).
Proof.
  intros Hm Hk s r s'. unfold_monad.
  destruct (m s) as [[a|e] s1] eqn:Hs.
  - intros Hka. rewrite (Hk a s1 r s' Hka). by apply (Hm s (Ok a)).
  - intros [= _ <-]. by apply (Hm s (Raise e)).
Qed.

Lemma keeps_field_ret {A} (a : A) : keeps f (mret a : M S A).
Proof. intros s r s'. unfold_monad. by intros [= _ ->]. Qed.

Lemma keeps_field_reader {A} (m : M S A) : reader m → keeps f m.
Proof. intros Hm s r s' Hs. by rewrite (Hm s r s' Hs). Qed.

Lemma keeps_field_modify (g : S → S) :
  (∀ s, f (g s) = f s) → keeps f (modify g).
Proof. intros Hg s r s'. unfold_monad. intros [= _ <-]. apply Hg. Qed.

Lemma keeps_field_mapM {A B} (k : A → M S B) (l : list A) :
  (∀ a, keeps f (k a)) → keeps f (mapM k l).
Proof.
  intros Hk. induction l as [|a l IH]; [apply keeps_field_ret|].
  simpl. apply keeps_field_bind; [apply Hk|]. intros b.
  apply keeps_field_bind; [apply IH|]. intros bs. apply keeps_field_ret.
Qed.
End keeps.

Section histories.
Context {F : Type} `{Num F}.

Local Abbreviation keeps_his := (keeps (history_times (F := F))).

Lemma keeps_his_assign (col : string) (metric : gmap string F) :
  keeps_his (Indicator.oi_assign col metric).
Proof. by apply keeps_field_modify. Qed.

Lemma keeps_his_ti_set (key : string) (value : F) :
  keeps_his (Indicator.ti_set key value).
Proof.
  apply keeps_field_modify. intros s. unfold history_times. simpl. f_equal.
  rewrite <- list_fmap_compose. apply list_fmap_ext.
  intros i [k d] _. simpl. by case_decide.
Qed.

Lemma keeps_his_reset : keeps_his Indicator.reset.
Proof. by apply keeps_field_modify. Qed.

Lemma keeps_his_fulfill_rate : keeps_his Indicator._update_order_fulfill_rate.
Proof.
  apply keeps_field_bind; [apply keeps_field_reader, reader_transfer2|].
  intros x. apply keeps_his_assign.
Qed.

Lemma keeps_his_update_order_indicators trade_info :
  keeps_his (Indicator.update_order_indicators trade_info).
Proof.
  apply keeps_field_bind; [|intros _; apply keeps_his_fulfill_rate].
  unfold Indicator._update_order_trade_info. cbv zeta.
  repeat (apply keeps_field_bind; [apply keeps_his_assign|intros _]).
  apply keeps_his_assign.
Qed.

Lemma keeps_his_agg_order_trade_info inner :
  keeps_his (Indicator._agg_order_trade_info inner).
Proof.
  unfold Indicator._agg_order_trade_info.
  apply keeps_field_bind; [apply keeps_field_reader, reader_lift|]. intros inner'.
  apply keeps_field_bind; [apply keeps_field_reader, reader_lift|]. intros md.
  apply keeps_field_bind;
    [apply keeps_field_mapM; intros m; apply keeps_his_assign|]. intros _.
  apply keeps_field_bind; [apply keeps_field_reader, reader_transfer2|]. intros x.
  apply keeps_field_bind; [apply keeps_his_assign|]. intros _.
  apply keeps_field_bind; [apply keeps_field_reader, reader_transfer1|]. intros y.
  apply keeps_field_bind; [apply keeps_his_assign|]. intros _.
  apply keeps_field_ret.
Qed.

Lemma keeps_his_update_trade_amount outer :
  keeps_his (Indicator._update_trade_amount outer).
Proof.
  unfold Indicator._update_trade_amount. cbv zeta.
  case_bool_decide; apply keeps_his_assign.
Qed.

Lemma keeps_his_agg_base_price inner decision_list trade_exchange pa_config :
  keeps_his
    (Indicator._agg_base_price inner decision_list trade_exchange pa_config).
Proof.
  apply keeps_field_bind; [apply keeps_field_reader, reader_get|].
  intros s. cbv zeta. case_bool_decide; [|apply keeps_field_ret].
  apply keeps_field_bind; [apply keeps_field_reader, reader_lift|].
  intros [|x l]; [apply keeps_field_reader, reader_raise|].
  apply keeps_field_bind; [apply keeps_his_assign|]. intros _.
  apply keeps_his_assign.
Qed.

Lemma keeps_his_price_advantage : keeps_his Indicator._agg_order_price_advantage.
Proof.
  apply keeps_field_bind; [apply keeps_field_reader, reader_transfer1|].
  intros [|]; simpl.
  - apply keeps_his_assign.
  - apply keeps_field_bind; [apply keeps_field_reader, reader_transfer3|].
    intros x. apply keeps_his_assign.
Qed.

Lemma keeps_his_agg_order_indicators inner decision_list outer trade_exchange
    config :
  keeps_his
    (Indicator.agg_order_indicators inner decision_list outer trade_exchange
       config).
Proof.
  apply keeps_field_bind; [apply keeps_his_agg_order_trade_info|]. intros inner'.
  apply keeps_field_bind; [apply keeps_his_update_trade_amount|]. intros _.
  apply keeps_field_bind; [apply keeps_his_fulfill_rate|]. intros _.
  apply keeps_field_bind; [apply keeps_his_agg_base_price|]. intros _.
  apply keeps_field_bind; [apply keeps_his_price_advantage|]. intros _.
  apply keeps_field_ret.
Qed.

Lemma keeps_his_cal_trade_indicators trade_start_time freq config :
  keeps_his (Indicator.cal_trade_indicators trade_start_time freq config).
Proof.
  intros s r s' Hrun.
  destruct (cal_trade_indicators_cases trade_start_time freq config s)
    as [[e He]|(ffr&pa&pos&da&tv&cnt&Hok)].
  - rewrite He in Hrun. by injection Hrun as _ <-.
  - rewrite Hok in Hrun.
    pose proof (summary_written_fields
                  [("ffr", ffr); ("pa", pa); ("pos", pos); ("deal_amount", da);
                   ("value", tv); ("count", cnt)] s) as Hf.
    remember (summary_written _ s) as s6 eqn:Hs6. clear Hs6 Hok.
    injection Hrun as _ <-. simpl in Hf. destruct Hf as (_ & Ho & Ht & _).
    unfold history_times. by rewrite Ho, Ht.
Qed.

Lemma history_times_record (t : Time) (s : Indicator.t F) :
  history_times (Indicator.record t s).2
  = (let add := λ ks : list Time, if decide (t ∈ ks) then ks else ks ++ [t] in
     (add (history_times s).1, add (history_times s).2)).
Proof. unfold history_times. simpl. by rewrite !keys_set. Qed.

Lemma history_times_after_call (c : method_call F) (s : Indicator.t F)
    (ks : list Time) :
  history_times s = (ks, ks) →
  history_times (after_call c s)
  = (recorded_times ks [c], recorded_times ks [c]).
Proof.
  intros Hs. destruct c as [|t|trade_info|inner dl outer ex config|t freq config];
    unfold after_call.
  - by rewrite (keeps_his_reset s _ _ (surjective_pairing _)).
  - by rewrite history_times_record, Hs.
  - by rewrite (keeps_his_update_order_indicators _ s _ _ (surjective_pairing _)).
  - by rewrite (keeps_his_agg_order_indicators _ _ _ _ _ s _ _
                  (surjective_pairing _)).
  - by rewrite (keeps_his_cal_trade_indicators _ _ _ s _ _ (surjective_pairing _)).
Qed.

Lemma recorded_times_NoDup (ks : list Time) (calls : list (method_call F)) :
  NoDup ks → NoDup (recorded_times ks calls).
Proof.
  revert ks. induction calls as [|c calls IH]; intros ks Hks; [done|].
  apply IH. destruct c; try done. case_decide; [done|].
  apply NoDup_app. split; [done|]. split; [|apply NoDup_singleton].
  by intros x Hx ->%list_elem_of_singleton.
Qed.
End histories.

(** X18: whatever calls of reset, record, update_order_indicators,
    agg_order_indicators and cal_trade_indicators a client makes on a new
    Indicator, and whether they return or raise, the two histories list the
    same start times: those of the calls of record, each once, at the place
    of its first call.  No other method adds or removes a start time. *)
Theorem indicator_history_times {F : Type} `{Num F}
    (calls : list (method_call F)) :
  let self := after_calls calls Indicator.__init__ in
  (Indicator.order_indicator_his self).*1 = recorded_times [] calls ∧
  (Indicator.trade_indicator_his self).*1 = recorded_times [] calls ∧
  NoDup (recorded_times [] calls).
Proof.
  intros self.
  assert (Hk : history_times self
               = (recorded_times [] calls, recorded_times [] calls)).
  { subst self. unfold after_calls.
    assert (Hgen : ∀ (s : Indicator.t F) ks, history_times s = (ks, ks) →
              history_times (foldl (λ s c, after_call c s) s calls)
              = (recorded_times ks calls, recorded_times ks calls)).
    { induction calls as [|c calls IH]; intros s ks Hs; [done|].
      simpl. apply IH. by apply history_times_after_call. }
    by apply Hgen. }
  injection Hk as Ho Ht. split; [done|]. split; [done|].
  apply recorded_times_NoDup, NoDup_nil_2.
Qed.

Section known_base.
Context {F : Type} `{Num F}.

Lemma lookup_fold_insert_pair (h1 h2 : string → F) (l : list (string * F))
    (acc : gmap string F * gmap string F) (inst : string) :
  let new := foldl (λ (new : gmap string F * gmap string F) (item : string * F),
                      (<[item.1 := h1 item.1]> new.1,
                       <[item.1 := h2 item.1]> new.2)) acc l in
  inst ∈ l.*1 → new.1 !! inst = Some (h1 inst) ∧ new.2 !! inst = Some (h2 inst).
Proof.
  simpl. revert acc.
  induction l as [|x l IH] using rev_ind; intros acc; [by intros ?%elem_of_nil|].
  rewrite foldl_app, fmap_app. simpl. intros Hin.
  destruct (decide (x.1 = inst)) as [<-|Hne].
  - by rewrite !lookup_insert_eq.
  - rewrite !lookup_insert_ne by done. apply IH.
    apply elem_of_app in Hin as [|Hin]; [done|].
    apply list_elem_of_singleton in Hin. congruence.
Qed.

Lemma lookup_known_base (trade_dir : gmap string F)
    (oi : gmap string (gmap string F)) (inst : string) :
  is_Some (trade_dir !! inst) →
  (known_base trade_dir oi).1 !! inst
  = Some (default NaN (OrderIndicator.get_metric_series oi "base_price" !! inst)) ∧
  (known_base trade_dir oi).2 !! inst
  = Some (default NaN (OrderIndicator.get_metric_series oi "base_volume" !! inst)).
Proof.
  intros [x Hx]. unfold known_base.
  destruct (lookup_fold_insert_pair
    (λ i, default NaN
            (Series.reindex (OrderIndicator.get_metric_series oi "base_price")
               trade_dir !! i))
    (λ i, default NaN
            (Series.reindex (OrderIndicator.get_metric_series oi "base_volume")
               trade_dir !! i))
    (map_to_list trade_dir) (∅, ∅) inst) as [H1 H2].
  { apply list_elem_of_fmap. exists (inst, x). split; [done|].
    by apply elem_of_map_to_list. }
  rewrite H1, H2. by rewrite !lookup_reindex by eauto.
Qed.

Lemma _agg_base_price_known_run inner decision_list trade_exchange pa_config
    (s : Indicator.t F) :
  baselines_known (trade_dir_of s) inner →
  length decision_list = length inner → inner ≠ [] → trade_dir_of s ≠ ∅ →
  let all := known_base (trade_dir_of s) <$> inner in
  Indicator._agg_base_price inner decision_list trade_exchange pa_config s
  = (Ok tt,
     Indicator.set_order_indicator
       (<["base_price" :=
            Series.div
              (Indicator.sum_axis1 (zip_with Series.mul all.*1 all.*2))
              (Indicator.sum_axis1 all.*2)]>
          (<["base_volume" := Indicator.sum_axis1 all.*2]>
             (Indicator.order_indicator s))) s).
Proof.
  intros Hk Hlen Hne Hd all.
  unfold Indicator._agg_base_price. unfold_monad. fold (trade_dir_of s).
  rewrite bool_decide_eq_true_2.
  2:{ unfold Series.len.
      destruct (decide (size (trade_dir_of s) = 0%nat)) as [Hs|]; [|lia].
      by apply map_size_empty_iff in Hs. }
  rewrite (mapM_ok _ (λ x, known_base (trade_dir_of s) x.1)).
  2:{ apply Forall_forall. intros [oi d] Hin. apply elem_of_zip_l in Hin.
      unfold baselines_known in Hk. rewrite Forall_forall in Hk.
      by apply base_of_inner_known, Hk. }
  assert (Hall : (λ x : gmap string (gmap string F) * _,
                    known_base (trade_dir_of s) x.1)
                 <$> zip inner decision_list = all).
  { subst all. rewrite <- (fst_zip inner decision_list) at 2 by lia.
    by rewrite <- list_fmap_compose. }
  rewrite Hall. destruct all as [|x all'] eqn:Eall; [|done].
  subst all. by destruct inner.
Qed.
End known_base.

Section weighted_base_price.

Lemma lookup_fold_sum_axis1 (inst : string) (cols : list (gmap string exact))
    (qs : list Qc) (acc : gmap string exact) (a : Qc) :
  acc !! inst = Some (XVal a) →
  Forall2 (λ c q, c !! inst = Some (XVal q)) cols qs →
  foldl (Series.binop (λ x y, Series.nan_to_zero x + Series.nan_to_zero y)%num)
    acc cols !! inst
  = Some (XVal (Qcplus a (Qc_sum qs))).
Proof.
  intros Ha Hcols. revert acc a Ha.
  induction Hcols as [|c q cols qs Hc _ IH]; intros acc a Ha; simpl.
  - rewrite Ha. do 2 f_equal. unfold Qc_sum. simpl. ring.
  - rewrite (IH _ (Qcplus a q)).
    + do 2 f_equal. ring.
    + by rewrite lookup_binop, Ha, Hc.
Qed.

Lemma lookup_sum_axis1 (inst : string) (cols : list (gmap string exact))
    (qs : list Qc) :
  cols ≠ [] →
  Forall2 (λ c q, c !! inst = Some (XVal q)) cols qs →
  Indicator.sum_axis1 cols !! inst = Some (XVal (Qc_sum qs)).
Proof.
  intros Hne Hcols. destruct Hcols as [|c q cols qs Hc Hcols]; [done|].
  unfold Indicator.sum_axis1. simpl.
  rewrite (lookup_fold_sum_axis1 inst cols qs _ q); [done| |done].
  rewrite lookup_binop, lookup_empty, Hc. simpl. do 2 f_equal.
  change (inject_Z 0) with 0%Q. ring.
Qed.
End weighted_base_price.

Section weighted_base_price_cells.

Lemma known_base_cells (trade_dir : gmap string exact) (inst : string)
    (inner : list (gmap string (gmap string exact))) (pvs : list (Qc * Qc)) :
  is_Some (trade_dir !! inst) →
  Forall2 (baseline_at inst) inner pvs →
  let all := known_base trade_dir <$> inner in
  Forall2 (λ c q, c !! inst = Some (XVal q)) all.*2 pvs.*1 ∧
  Forall2 (λ c q, c !! inst = Some (XVal q))
    (zip_with Series.mul all.*1 all.*2) ((λ vp, Qcmult vp.1 vp.2) <$> pvs).
Proof.
  intros Hd Hin. simpl.
  induction Hin as [|oi [v p] inner pvs [Hv Hp] _ [IH1 IH2]];
    [by split; constructor|].
  destruct (lookup_known_base trade_dir oi inst Hd) as [H1 H2].
  simpl in Hv, Hp. rewrite Hp in H1. rewrite Hv in H2. simpl in H1, H2.
  csimpl. split; constructor; try done.
  unfold Series.mul. rewrite lookup_binop, H1, H2. simpl.
  do 2 f_equal. ring.
Qed.
End weighted_base_price_cells.

(** X19: in exact arithmetic, when every inner table has a baseline price
    for every instrument of the trade_dir column and there is a decision for
    each inner table, _agg_base_price returns and gives an instrument the
    sum of its inner base volumes as base_volume and the average of its
    inner base prices, each weighted by its base volume, as base_price; the
    base_price is NaN when the volumes sum to 0. *)
Theorem _agg_base_price_volume_weighted
    (inner : list (gmap string (gmap string exact)))
    (decision_list : list (Indicator.BaseTradeDecision exact * Time * Time))
    (trade_exchange : Indicator.Exchange exact) (pa_config : gmap string string)
    (s : Indicator.t exact) (inst : string) (pvs : list (Qc * Qc)) :
  baselines_known (trade_dir_of s) inner →
  length decision_list = length inner → inner ≠ [] →
  is_Some (trade_dir_of s !! inst) →
  Forall2 (baseline_at inst) inner pvs →
  ∃ s',
    Indicator._agg_base_price inner decision_list trade_exchange pa_config s
    = (Ok tt, s') ∧
    cell s' "base_volume" inst = Some (XVal (Qc_sum pvs.*1)) ∧
    (Qc_sum pvs.*1 ≠ Q2Qc 0 →
     cell s' "base_price" inst = Some (XVal (weighted_average pvs))) ∧
    (Qc_sum pvs.*1 = Q2Qc 0 → cell s' "base_price" inst = Some XNaN).
Proof.
  intros Hk Hlen Hne Hd Hin.
  assert (Hdir : trade_dir_of s ≠ ∅).
  { intros He. rewrite He, lookup_empty in Hd. by destruct Hd. }
  eexists. split; [by apply _agg_base_price_known_run|].
  destruct (known_base_cells (trade_dir_of s) inst inner pvs Hd Hin) as [Hv Hpv].
  assert (Hne' : (known_base (trade_dir_of s) <$> inner).*2 ≠ []).
  { by destruct inner. }
  assert (Hne'' : zip_with Series.mul (known_base (trade_dir_of s) <$> inner).*1
                    (known_base (trade_dir_of s) <$> inner).*2 ≠ []).
  { by destruct inner. }
  pose proof (lookup_sum_axis1 inst _ _ Hne' Hv) as Hbv.
  pose proof (lookup_sum_axis1 inst _ _ Hne'' Hpv) as Hbp.
  unfold cell. simpl.
  rewrite (lookup_insert_ne _ "base_price" "base_volume") by done.
  rewrite !lookup_insert_eq. simpl.
  split; [done|].
  unfold Series.div. rewrite lookup_binop, Hbp, Hbv. simpl.
  split.
  - intros Hz. f_equal. by apply exact_div_val.
  - intros ->. f_equal.
Qed.

Lemma _agg_base_price_volume_weighted_witness :
  let pvs := [(Q2Qc 1, Q2Qc 8); (Q2Qc 3, Q2Qc 10)] in
  ∃ s',
    Indicator._agg_base_price two_baselines
      [(plain_decision, 0, 1); (plain_decision, 1, 2)] idle_exchange ∅
      sold_A_exact = (Ok tt, s') ∧
    cell s' "base_volume" "A" = Some (XVal (Qc_sum pvs.*1)) ∧
    cell s' "base_price" "A" = Some (XVal (weighted_average pvs)) ∧
    this (weighted_average pvs) = (19 # 2)%Q.
Proof.
  intros pvs.
  assert (Hd : trade_dir_of sold_A_exact = {["A" := XVal (Q2Qc 0)]}).
  { unfold trade_dir_of, sold_A_exact, indicator_of, table_of,
      OrderIndicator.get_metric_series. simpl. by rewrite lookup_insert_eq. }
  destruct (_agg_base_price_volume_weighted two_baselines
              [(plain_decision, 0, 1); (plain_decision, 1, 2)] idle_exchange ∅
              sold_A_exact "A" pvs) as (s' & Hrun & Hv & Hp & _).
  - rewrite Hd. repeat constructor.
    all: apply map_Forall_singleton; vm_compute; reflexivity.
  - reflexivity.
  - done.
  - rewrite Hd, lookup_singleton_eq. eauto.
  - repeat constructor; vm_compute; reflexivity.
  - exists s'. split; [exact Hrun|]. split; [exact Hv|].
    split; [|vm_compute; reflexivity].
    apply Hp. intros Hz. apply (f_equal this) in Hz. by vm_compute in Hz.
Defined.

(** ** The archived summary is the dict itself *)

Section aliasing.
Context {F : Type} `{Num F}.

Lemma lookup_shared (t : Time) (sh : list Time) (d x : list (string * F))
    (his : list (Time * list (string * F))) :
  OrderedDict.lookup t his = Some x → t ∈ sh →
  OrderedDict.lookup t
    ((λ kv, if decide (kv.1 ∈ sh) then (kv.1, d) else kv) <$> his) = Some d.
Proof.
  intros Hx Ht. induction his as [|[k y] his IH]; [done|].
  rewrite fmap_cons. simpl in *. destruct (decide (k = t)) as [->|Hk].
  - rewrite decide_True by exact Ht. simpl. by rewrite decide_True.
  - destruct (decide (k ∈ sh)); simpl; rewrite decide_False by exact Hk; by apply IH.
Qed.

(* self.trade_indicator_his[t] = self.get_trade_indicator() stores the dict,
   not a copy of it: an entry written before the next reset shows in the
   archive *)
Lemma record_archives_the_dict (t : Time) (key : string) (value : F)
    (s : Indicator.t F) :
  let s' := (Indicator.ti_set key value (Indicator.record t s).2).2 in
  Indicator.trade_indicator s'
  = OrderedDict.set key value (Indicator.trade_indicator s) ∧
  OrderedDict.lookup t (Indicator.trade_indicator_his s')
  = Some (Indicator.trade_indicator s').
Proof.
  unfold Indicator.ti_set, Indicator.record. unfold_monad. simpl.
  split; [done|].
  apply (lookup_shared _ _ _ (Indicator.trade_indicator s)); [|set_solver].
  apply lookup_set_eq.
Qed.

(* after reset the archive keeps the entry as it was *)
Lemma reset_unshares (t : Time) (key : string) (value : F)
    (s : Indicator.t F) :
  let s' := (Indicator.ti_set key value
               (Indicator.reset (Indicator.record t s).2).2).2 in
  OrderedDict.lookup t (Indicator.trade_indicator_his s')
  = Some (Indicator.trade_indicator s).
Proof.
  unfold Indicator.ti_set, Indicator.record, Indicator.reset. unfold_monad. simpl.
  unfold Indicator.update_trade_indicator. simpl.
  rewrite (list_fmap_ext _ id); [by rewrite list_fmap_id, lookup_set_eq|].
  by intros i kv _.
Qed.
End aliasing.
